(** * GreenCloud Advisor: the region recommendation pipeline

    A shallow embedding of [greencloud_advisor.py] (class
    [GreenCloudAdvisor]) and of [carbon_intensity_fetcher.py], with the
    properties of the ranking pipeline stated and proved over it.

    The Python code computes on [float].  The embedding is written once,
    over an interface [PyFloat] of the float operations the code uses, and
    is read at two instances:
    - [R_float] / [R_math]: exact real arithmetic, with [math.sin],
      [math.cos], [math.asin] and [math.sqrt] as the real functions;
    - [B64_float] / [B64_math]: IEEE 754 binary64, the arithmetic CPython
      runs; the C library behind the [math] module is outside the
      repository and is a parameter of [B64_math].

    External collaborators (the AWS availability API, the ElectricityMaps
    HTTP API, the [config] file, the cached region catalog) are fields of a
    record [World]; every theorem quantifies over them. *)

From Stdlib Require Import ZArith List String Ascii Bool Lia Setoid.
From Stdlib Require Import Reals Lra Floats Sorted Permutation.
From Stdlib Require Uint63.
Import ListNotations.

Set Implicit Arguments.

(** ** Exceptions and fallible computations *)

(** The exceptions the modelled code can raise, each with its message. *)
Inductive exn : Type :=
| ValueError (msg : string)          (* math domain error *)
| IndexError (msg : string)          (* list index out of range *)
| OSError (msg : string)             (* open('config') failed *)
| UnboundLocalError (msg : string)   (* api_token never assigned *)
| RequestException (msg : string)    (* requests.get / raise_for_status / json *)
| Exception (msg : string).          (* raise Exception(...) *)

(** [str(e)] *)
Definition str (e : exn) : string :=
  match e with
  | ValueError m | IndexError m | OSError m
  | UnboundLocalError m | RequestException m | Exception m => m
  end.

(** A call either returns a value or raises. *)
Inductive result (A : Type) : Type :=
| Ok (a : A)
| Raise (e : exn).
Arguments Ok {A} a.
Arguments Raise {A} e.

Definition bind {A B : Type} (c : result A) (k : A -> result B) : result B :=
  match c with
  | Ok a => k a
  | Raise e => Raise e
  end.

Declare Scope py_scope.
Delimit Scope py_scope with py.
Notation "x <- c ;; k" := (bind c (fun x => k))
  (at level 61, c at next level, right associativity) : py_scope.
Notation "' p <- c ;; k" := (bind c (fun x => match x with p => k end))
  (at level 61, p pattern, c at next level, right associativity) : py_scope.

(** ** The float interface *)

(** The operations on [float] the code uses.  [of_int z] is the float that
    stands for the int [z] where the code mixes the two: the int literals
    in arithmetic with a float, and [max_distance_km] in the comparison
    [distance <= max_distance_km].  [lit_0_7] is the literal [0.7],
    [round3 x] is [round(x, 3)]. *)
Class PyFloat (num : Type) : Type := {
  of_int : Z -> num;
  lit_0_7 : num;
  add : num -> num -> num;
  sub : num -> num -> num;
  mul : num -> num -> num;
  truediv : num -> num -> num;
  lt : num -> num -> bool;
  le : num -> num -> bool;
  round3 : num -> num
}.

Notation "x + y" := (add x y) : py_scope.
Notation "x - y" := (sub x y) : py_scope.
Notation "x * y" := (mul x y) : py_scope.
Notation "x / y" := (truediv x y) : py_scope.
Notation "x <? y" := (lt x y) : py_scope.
Notation "x <=? y" := (le x y) : py_scope.

(** The functions of Python's [math] module the code uses.
    [math.radians] always returns; the other four can raise [ValueError]:
    [math.sin] and [math.cos] on an infinite argument, [math.sqrt] and
    [math.asin] outside their domain. *)
Class MathModule (num : Type) : Type := {
  math_radians : num -> num;
  math_sin : num -> result num;
  math_cos : num -> result num;
  math_sqrt : num -> result num;
  math_asin : num -> result num
}.

(** ** Exact real arithmetic *)

Definition Rltb (x y : R) : bool := if Rlt_dec x y then true else false.
Definition Rleb (x y : R) : bool := if Rle_dec x y then true else false.

(** Nearest integer, ties to the even one. *)
Definition Rround_half_even (x : R) : Z :=
  let n := Int_part x in
  let f := (x - IZR n)%R in
  if Rlt_dec f (1 / 2) then n
  else if Rlt_dec (1 / 2) f then (n + 1)%Z
  else if Z.even n then n else (n + 1)%Z.

Definition Rround3 (x : R) : R := (IZR (Rround_half_even (x * 1000)) / 1000)%R.

Definition domain_error : exn := ValueError "math domain error".

#[export] Instance R_float : PyFloat R := {|
  of_int := IZR;
  lit_0_7 := (7 / 10)%R;
  add := Rplus;
  sub := Rminus;
  mul := Rmult;
  truediv := Rdiv;
  lt := Rltb;
  le := Rleb;
  round3 := Rround3
|}.

#[export] Instance R_math : MathModule R := {|
  math_radians := fun x => (x * (PI / 180))%R;
  math_sin := fun x => Ok (sin x);
  math_cos := fun x => Ok (cos x);
  math_sqrt := fun x => if Rlt_dec x 0 then Raise domain_error else Ok (R_sqrt.sqrt x);
  math_asin := fun x =>
    if Rlt_dec x (-1) then Raise domain_error
    else if Rlt_dec 1 x then Raise domain_error
    else Ok (asin x)
|}.

(** ** IEEE 754 binary64 *)

(** The float that stands for the int [z]: [z] itself when it is a
    binary64 number (every [z] with [|z| <= 2^53], so every int literal of
    the code), and otherwise the largest binary64 number below [z]
    ([neg_infinity] when there is none).  The code's only int operand that
    is not a literal is [max_distance_km] in [distance <= max_distance_km],
    which Python decides by value, without converting; no binary64 number
    lies between [Z2float z] and [z], so [d <= Z2float z] is that
    comparison, for every [d] and [z]. *)
Definition Z2float (z : Z) : float :=
  let exact (m e : Z) := SF2Prim (binary_normalize prec emax m e false) in
  match z with
  | Z0 => 0%float
  | Zpos _ =>
      let shift := Z.max 0 (Z.log2 z - 52) in
      if (1024 <=? Z.log2 z)%Z then 0x1.fffffffffffffp+1023%float
      else exact (Z.shiftr z shift) shift
  | Zneg p =>
      let shift := Z.max 0 (Z.log2 (Zpos p) - 52) in
      exact (- ((Zpos p + 2 ^ shift - 1) / 2 ^ shift))%Z shift
  end.

(** Nearest integer to [p / q] ([q > 0]), ties to the even one. *)
Definition Zround_half_even (p q : Z) : Z :=
  let n := (p / q)%Z in
  let r := (p mod q)%Z in
  match (2 * r ?= q)%Z with
  | Lt => n
  | Gt => (n + 1)%Z
  | Eq => if Z.even n then n else (n + 1)%Z
  end.

(** [round(x, 3)] on a binary64 [x]: the exact value of [x] is rounded to
    three decimals (half to even) and the decimal result converted back to
    the nearest binary64.  Zeros, infinities, NaN and integral values are
    returned unchanged, and so is any [x] with [|x| * 1000 >= 2^53], whose
    neighbours are further apart than 0.001. *)
Definition B64round3 (x : float) : float :=
  match Prim2SF x with
  | S754_finite s m e =>
      if (0 <=? e)%Z then x
      else
        let n := Zround_half_even (Zpos m * 1000) (2 ^ (- e)) in
        if (n <? 2 ^ 53)%Z then
          let r := (Z2float n / 1000)%float in
          if s then (- r)%float else r
        else x
  | _ => x
  end.

#[export] Instance B64_float : PyFloat float := {|
  of_int := Z2float;
  lit_0_7 := 0x1.6666666666666p-1%float;
  add := PrimFloat.add;
  sub := PrimFloat.sub;
  mul := PrimFloat.mul;
  truediv := PrimFloat.div;
  lt := PrimFloat.ltb;
  le := PrimFloat.leb;
  round3 := B64round3
|}.

(** The functions of the C library that CPython's [math] module calls for
    [math.sin], [math.cos] and [math.asin].  Their values depend on the
    platform; the theorems quantify over them. *)
Record Libm : Type := {
  c_sin : float -> float;
  c_cos : float -> float;
  c_asin : float -> float
}.

(** How CPython's [math] module calls a C function of one argument that
    cannot overflow: a NaN result for an argument that is not NaN, and an
    infinite result for a finite argument, raise
    [ValueError("math domain error")]. *)
Definition math_1 (func : float -> float) (x : float) : result float :=
  let r := func x in
  if PrimFloat.is_nan r && negb (PrimFloat.is_nan x) then Raise domain_error
  else if PrimFloat.is_infinity r && PrimFloat.is_finite x then Raise domain_error
  else Ok r.

(** The [math] module at binary64 over a C library.  [math.radians(x)] is
    the product of [x] and the double nearest to pi, divided by 180;
    [math.sqrt] is the correctly rounded square root of IEEE 754. *)
Definition B64_math (libm : Libm) : MathModule float := {|
  math_radians := fun x => (x * (0x1.921fb54442d18p+1 / 180))%float;
  math_sin := math_1 (c_sin libm);
  math_cos := math_1 (c_cos libm);
  math_sqrt := math_1 PrimFloat.sqrt;
  math_asin := math_1 (c_asin libm)
|}.

(** ** Python's stable sort by key *)

Section Sorting.
Context {num : Type} `{PyFloat num} {A : Type}.
Variable key : A -> num.

(** [x] is put in front of the first element whose key is not smaller
    than its own: in front of every element with an equal key. *)
Fixpoint insort (x : A) (l : list A) : list A :=
  match l with
  | [] => [x]
  | y :: l' => if (key y <? key x)%py then y :: insort x l' else x :: y :: l'
  end.

(** [sorted(l, key=key)] and [l.sort(key=key)]: a stable sort that
    compares keys with [<] only.  The elements are inserted last to
    first, so that elements with equal keys keep the order they have in
    [l].  CPython's merge sort returns this list whenever [<] is a strict
    weak order on the keys of [l] ([strict_weak_on] below; on binary64,
    whenever no key is NaN).  On other keys CPython returns some
    permutation of [l] that this function does not describe: what is
    proved about the order of a sorted list carries that hypothesis, what
    is proved without it uses only that the result is a permutation. *)
Definition sorted (l : list A) : list A := fold_right insort [] l.
End Sorting.

(** ** The program *)

Section Program.
Context {num : Type} `{PyFloat num}.

(** [aws_regions_fetcher.RegionData] *)
Record RegionData : Type := {
  code : string;
  name : string;
  location : num * num   (* (lat, lon) *)
}.

(** [AWSRegionsFetcher.region_names] *)
Definition region_names : list (string * string) :=
  [ ("us-east-1", "N. Virginia"); ("us-east-2", "Ohio"); ("us-west-1", "N. California");
    ("us-west-2", "Oregon");
    ("eu-west-1", "Ireland"); ("eu-west-2", "London"); ("eu-west-3", "Paris");
    ("eu-central-1", "Frankfurt");
    ("eu-north-1", "Stockholm"); ("eu-south-1", "Milan"); ("ap-south-1", "Mumbai");
    ("ap-southeast-1", "Singapore");
    ("ap-southeast-2", "Sydney"); ("ap-northeast-1", "Tokyo"); ("ap-northeast-2", "Seoul");
    ("ap-northeast-3", "Osaka");
    ("ap-east-1", "Hong Kong"); ("ca-central-1", "Canada Central");
    ("sa-east-1", "São Paulo");
    ("me-south-1", "Bahrain"); ("af-south-1", "Cape Town");
    ("ap-south-2", "Hyderabad") ]%string.

(** [d.get(k)] on a dict with string keys and values. *)
Definition dict_get (d : list (string * string)) (k : string) : option string :=
  option_map snd (find (fun kv => String.eqb (fst kv) k) d).

(** [AWSRegionsFetcher.get_aws_regions] on an empty cache: one record per
    [RegionName] of the [describe_regions] response, every one at the
    coordinates [(0.0, 0.0)]. *)
Definition get_aws_regions (described : list string) : list RegionData :=
  map (fun region_name =>
         {| code := region_name;
            name := match dict_get region_names region_name with
                    | Some n => n
                    | None => region_name
                    end;
            location := (of_int 0, of_int 0) |})
      described.

(** What the code reads from outside the process. *)
Record World : Type := {
  (** the list [AWSRegionsFetcher().get_aws_regions()] returns, for the calls
      in which it returns *)
  cached_regions : list RegionData;
  (** [aws_live_checker.check_aws_service_availability_live(region_code, service)] *)
  check_aws_service_availability_live : string -> string -> result bool;
  (** reading [API_TOKEN=] from the file [config]: [Raise] when the file
      cannot be opened, [Ok None] when no line assigns the token *)
  read_api_token : result (option string);
  (** [requests.get(url(zone), headers(token), timeout=10)], checked and
      parsed: the value under ["carbonIntensity"] of the JSON object, when
      the key is present *)
  requests_get_json : string -> string -> result (option num)
}.

(** [class GreenCloudAdvisor]: [self.regions]. *)
Record GreenCloudAdvisor : Type := {
  regions : list RegionData
}.

(** [GreenCloudAdvisor.__init__] *)
Definition __init__ (w : World) : GreenCloudAdvisor :=
  {| regions := cached_regions w |}.

(** *** carbon_intensity_fetcher.py *)

(** [base_mapping] of [_create_region_mapping].  (The dict literal of the
    source lists ["ap-east-1": "HK"] twice; the dict holds it once.) *)
Definition base_mapping : list (string * string) :=
  [ ("us-east-1", "US"); ("us-east-2", "US-CAL-LDWP"); ("us-west-1", "US-CAL-CISO");
    ("us-west-2", "US-CAL-IID"); ("mx-central-1", "MX");
    ("eu-west-1", "IE"); ("eu-west-2", "GB"); ("eu-west-3", "FR"); ("eu-central-1", "DE");
    ("cn-north-1", "CN"); ("cn-northwest-1", "CN"); ("ap-east-1", "HK");
    ("eu-north-1", "SE"); ("eu-south-1", "IT"); ("ap-south-1", "IN-WE");
    ("ap-south-2", "IN-SO"); ("ap-southeast-1", "SG");
    ("ap-southeast-2", "AU-NSW"); ("ap-southeast-3", "ID"); ("ap-southeast-4", "AU-QLD");
    ("ap-southeast-5", "ML"); ("ap-southeast-6", "NZ");
    ("ap-northeast-1", "JP"); ("ap-northeast-2", "KR");
    ("ap-northeast-3", "JP-KN"); ("ca-central-1", "CA");
    ("sa-east-1", "BR-SE"); ("me-south-1", "BH"); ("af-south-1", "ZA") ]%string.

(** [_create_region_mapping()], once its call of
    [AWSRegionsFetcher().get_aws_regions()] has returned the list
    [cached_regions w]: one entry per region, the base mapping's zone or
    ['DE'].  (Were a code listed twice, both entries would carry the same
    zone, so the first match of [dict_get] reads what the Python dict
    holds.)  The call of [get_aws_regions()] itself, which asks boto3 when
    the cache is empty and can raise, is in
    [get_live_carbon_intensity_cached] below. *)
Definition _create_region_mapping (w : World) : list (string * string) :=
  map (fun region =>
         (code region,
          match dict_get base_mapping (code region) with
          | Some zone => zone
          | None => "DE"%string
          end))
      (cached_regions w).

(** [zone = region_mapping.get(region_code)], then
    [if not zone: zone = 'DE']. *)
Definition zone_for (region_mapping : list (string * string)) (region_code : string)
  : string :=
  match dict_get region_mapping region_code with
  | Some zone => if String.eqb zone "" then "DE"%string else zone
  | None => "DE"%string
  end.

(** [get_live_carbon_intensity(region_code)].  The [config] file is read
    before the [try]; every exception raised inside the [try] is replaced
    by [Exception("Failed to fetch carbon intensity for ...")]. *)
Definition get_live_carbon_intensity (w : World) (region_code : string)
  : result (num * num) :=
  let region_mapping := _create_region_mapping w in
  let zone := zone_for region_mapping region_code in
  (token <- read_api_token w ;;
   let attempt : result (num * num) :=
     match token with
     | None => Raise (UnboundLocalError
                 "cannot access local variable 'api_token' where it is not associated with a value")
     | Some api_token =>
         data <- requests_get_json w zone api_token ;;
         let carbon_intensity :=
           (match data with Some v => v | None => of_int 400 end / of_int 1000)%py in
         let location_based := carbon_intensity in
         let market_based := (carbon_intensity * lit_0_7)%py in
         Ok (location_based, market_based)
     end in
   match attempt with
   | Ok v => Ok v
   | Raise e =>
       Raise (Exception ("Failed to fetch carbon intensity for " ++ region_code
                           ++ ": " ++ str e))
   end)%py.

(** *** greencloud_advisor.py *)

Section Distance.
Context `{MathModule num}.

(** [GreenCloudAdvisor._calculate_distance]: the haversine formula.
    [x**2] is the product [x * x].  The four calls in the expression for
    [a] are made from left to right; the first that raises ends the
    computation. *)
Definition _calculate_distance (loc1 loc2 : num * num) : result num :=
  let lat1 := math_radians (fst loc1) in
  let lon1 := math_radians (snd loc1) in
  let lat2 := math_radians (fst loc2) in
  let lon2 := math_radians (snd loc2) in
  let dlat := (lat2 - lat1)%py in
  let dlon := (lon2 - lon1)%py in
  let pow2 := fun x : num => (x * x)%py in
  (sin_dlat <- math_sin (dlat / of_int 2) ;;
   cos_lat1 <- math_cos lat1 ;;
   cos_lat2 <- math_cos lat2 ;;
   sin_dlon <- math_sin (dlon / of_int 2) ;;
   let a := (pow2 sin_dlat + cos_lat1 * cos_lat2 * pow2 sin_dlon)%py in
   r <- math_sqrt a ;;
   s <- math_asin r ;;
   let c := (of_int 2 * s)%py in
   Ok (of_int 6371 * c))%py.

(** The loop of [find_nearby_regions]: the regions within
    [max_distance_km], each with its distance, in catalog order. *)
Fixpoint nearby_loop (user_location : num * num) (max_distance_km : Z)
         (rs : list RegionData) : result (list (RegionData * num)) :=
  match rs with
  | [] => Ok []
  | region :: rest =>
      (distance <- _calculate_distance user_location (location region) ;;
       nearby <- nearby_loop user_location max_distance_km rest ;;
       Ok (if (distance <=? of_int max_distance_km)%py
           then (region, distance) :: nearby
           else nearby))%py
  end.

(** [GreenCloudAdvisor.find_nearby_regions] *)
Definition find_nearby_regions (self : GreenCloudAdvisor)
           (user_location : num * num) (max_distance_km : Z)
  : result (list RegionData) :=
  (nearby <- nearby_loop user_location max_distance_km (regions self) ;;
   Ok (map fst (sorted snd nearby)))%py.
End Distance.

(** [GreenCloudAdvisor.check_service_availability]: any exception of the
    live check is answered with [False]. *)
Definition check_service_availability (w : World) (region_code service : string)
  : bool :=
  match check_aws_service_availability_live w region_code service with
  | Ok available => available
  | Raise _ => false
  end.

(** The test of [filter_by_services] for one region:
    [all(self.check_service_availability(region.code, service)
         for service in required_services)]. *)
Definition supports_all (w : World) (region : RegionData)
           (required_services : list string) : bool :=
  forallb (fun service => check_service_availability w (code region) service)
          required_services.

(** [GreenCloudAdvisor.filter_by_services] *)
Definition filter_by_services (w : World) (rs : list RegionData)
           (required_services : list string) : list RegionData :=
  filter (fun region => supports_all w region required_services) rs.

(** The default value of the parameter [weight_market]. *)
Definition weight_market_default : num := lit_0_7.

(** [GreenCloudAdvisor.calculate_sustainability_score] *)
Definition calculate_sustainability_score (w : World) (region_code : string)
           (weight_market : num) : result (num * num * num) :=
  ('(location_based, market_based) <- get_live_carbon_intensity w region_code ;;
   let score := (market_based * weight_market
                 + location_based * (of_int 1 - weight_market))%py in
   Ok (location_based, market_based, score))%py.

(** One entry of [scored_regions]: a dict with these five keys. *)
Record ScoredRegion : Type := {
  region_code : string;
  region_name : string;
  location_based_intensity : num;
  market_based_intensity : num;
  sustainability_score : num
}.

(** The dict under ["analysis"]. *)
Record Analysis : Type := {
  total_regions_evaluated : nat;
  nearby_regions_found : nat;
  service_compatible_regions : nat
}.

(** The dict [recommend_region] returns: either [{"error": msg}] or the
    dict with keys ["recommended_region"], ["all_options"], ["analysis"]. *)
Inductive Recommendation : Type :=
| ErrorDict (error : string)
| ResultDict (recommended_region : ScoredRegion)
             (all_options : list ScoredRegion)
             (analysis : Analysis).

(** [d.keys()] *)
Definition keys (d : Recommendation) : list string :=
  match d with
  | ErrorDict _ => ["error"]
  | ResultDict _ _ _ => ["recommended_region"; "all_options"; "analysis"]
  end%string.

(** [d.get("error")], [d.get("all_options")], [d.get("analysis")] *)
Definition get_error (d : Recommendation) : option string :=
  match d with ErrorDict msg => Some msg | ResultDict _ _ _ => None end.
Definition get_all_options (d : Recommendation) : option (list ScoredRegion) :=
  match d with ErrorDict _ => None | ResultDict _ opts _ => Some opts end.
Definition get_analysis (d : Recommendation) : option Analysis :=
  match d with ErrorDict _ => None | ResultDict _ _ an => Some an end.

(** The body of the scoring loop of [recommend_region] for one region. *)
Definition score_region (w : World) (region : RegionData) : result ScoredRegion :=
  ('(location_based, market_based, score) <-
     calculate_sustainability_score w (code region) weight_market_default ;;
   Ok {| region_code := code region;
         region_name := name region;
         location_based_intensity := location_based;
         market_based_intensity := market_based;
         sustainability_score := round3 score |})%py.

(** The scoring loop: regions are scored in order, the first exception
    ends the loop. *)
Fixpoint score_loop (w : World) (rs : list RegionData) : result (list ScoredRegion) :=
  match rs with
  | [] => Ok []
  | region :: rest =>
      (entry <- score_region w region ;;
       scored_regions <- score_loop w rest ;;
       Ok (entry :: scored_regions))%py
  end.

Definition no_nearby : string := "No regions found within specified distance".
Definition no_compatible : string := "No regions support all required services".

Section Recommend.
Context `{MathModule num}.

(** [GreenCloudAdvisor.recommend_region] *)
Definition recommend_region (self : GreenCloudAdvisor) (w : World)
           (user_location : num * num) (required_services : list string)
           (max_distance_km : Z) : result Recommendation :=
  (nearby_regions <- find_nearby_regions self user_location max_distance_km ;;
   match nearby_regions with
   | [] => Ok (ErrorDict no_nearby)
   | _ :: _ =>
       let compatible_regions :=
         filter_by_services w nearby_regions required_services in
       match compatible_regions with
       | [] => Ok (ErrorDict no_compatible)
       | _ :: _ =>
           scored <- score_loop w compatible_regions ;;
           let scored_regions := sorted sustainability_score scored in
           match scored_regions with
           | [] => Raise (IndexError "list index out of range")
           | best :: _ =>
               Ok (ResultDict best scored_regions
                     {| total_regions_evaluated := List.length (regions self);
                        nearby_regions_found := List.length nearby_regions;
                        service_compatible_regions := List.length compatible_regions |})
           end
       end
   end)%py.
End Recommend.
End Program.

Arguments RegionData num : clear implicits.
Arguments World num : clear implicits.
Arguments GreenCloudAdvisor num : clear implicits.
Arguments ScoredRegion num : clear implicits.
Arguments Recommendation num : clear implicits.

(** * Properties *)

(** ** The stable sort *)

(** [before x y l]: an occurrence of [x] comes before an occurrence of [y]
    in [l]. *)
Definition before {A : Type} (x y : A) (l : list A) : Prop :=
  exists l1 l2 l3, l = l1 ++ x :: l2 ++ y :: l3.

Lemma before_cons {A : Type} (x y z : A) (l : list A) :
  before x y l -> before x y (z :: l).
Proof.
  intros (l1 & l2 & l3 & ->). now exists (z :: l1), l2, l3.
Qed.

Lemma before_head {A : Type} (x y : A) (l : list A) :
  In y l -> before x y (x :: l).
Proof.
  intros Hy. apply in_split in Hy as (l2 & l3 & ->). now exists [], l2, l3.
Qed.

Lemma before_inv {A : Type} (x y z : A) (l : list A) :
  before x y (z :: l) -> (z = x /\ In y l) \/ before x y l.
Proof.
  intros (l1 & l2 & l3 & E). destruct l1 as [|h l1]; simpl in E.
  - injection E as -> ->. left. split; [reflexivity|].
    apply in_or_app. right. now left.
  - injection E as -> ->. right. now exists l1, l2, l3.
Qed.

Lemma before_In {A : Type} (x y : A) (l : list A) :
  before x y l -> In x l /\ In y l.
Proof.
  intros (l1 & l2 & l3 & ->). split.
  - apply in_or_app. right. now left.
  - apply in_or_app. right. right. apply in_or_app. right. now left.
Qed.


Section SortFacts.
Context {num : Type} `{PyFloat num} {A : Type}.
Variable key : A -> num.

(** [x] comes out in no worse a position than [y]: [y]'s key is not
    smaller. *)
Definition key_le (x y : A) : Prop := (key y <? key x)%py = false.

Lemma insort_perm (x : A) (l : list A) : Permutation (insort key x l) (x :: l).
Proof.
  induction l as [|y l IH]; simpl; [reflexivity|].
  destruct (key y <? key x)%py; [|reflexivity].
  rewrite IH. apply perm_swap.
Qed.

Lemma sorted_perm (l : list A) : Permutation (sorted key l) l.
Proof.
  induction l as [|x l IH]; simpl; [reflexivity|].
  rewrite insort_perm. now constructor.
Qed.

Lemma sorted_length (l : list A) : List.length (sorted key l) = List.length l.
Proof. apply Permutation_length, sorted_perm. Qed.

Lemma sorted_In (x : A) (l : list A) : In x (sorted key l) <-> In x l.
Proof.
  split; apply Permutation_in; [|symmetry]; apply sorted_perm.
Qed.

Lemma sorted_nil_inv (l : list A) : sorted key l = [] -> l = [].
Proof.
  intros E. apply (f_equal (@List.length A)) in E.
  rewrite sorted_length in E. now destruct l.
Qed.

(** *** Stability *)

Lemma insort_before_old (x a b : A) (l : list A) :
  before a b l -> before a b (insort key x l).
Proof.
  induction l as [|y l IH]; simpl; intros Hb.
  - destruct Hb as (l1 & l2 & l3 & E). now destruct l1.
  - destruct (key y <? key x)%py.
    + apply before_inv in Hb as [[-> Hin] | Hb].
      * apply before_head. apply (Permutation_in _ (Permutation_sym (insort_perm x l))).
        now right.
      * apply before_cons. now apply IH.
    + now apply before_cons.
Qed.

Lemma insort_before_new (x y : A) (l : list A) :
  In y l -> key_le x y -> before x y (insort key x l).
Proof.
  unfold key_le. induction l as [|z l IH]; simpl; intros Hin Hle; [contradiction|].
  destruct (key z <? key x)%py eqn:Hz.
  - destruct Hin as [-> | Hin]; [congruence|].
    apply before_cons. now apply IH.
  - now apply before_head.
Qed.

(** A pair is never swapped unless its keys are strictly out of order. *)
Lemma sorted_stable (x y : A) (l : list A) :
  before x y l -> key_le x y -> before x y (sorted key l).
Proof.
  induction l as [|z l IH]; simpl; intros Hb Hle.
  - destruct Hb as (l1 & l2 & l3 & E). now destruct l1.
  - apply before_inv in Hb as [[-> Hin] | Hb].
    + apply insort_before_new; [|assumption]. now apply sorted_In.
    + apply insort_before_old. now apply IH.
Qed.

(** *** Sortedness, when [<] is a strict weak order *)

Definition lt_asym : Prop :=
  forall x y : num, (x <? y)%py = true -> (y <? x)%py = false.
Definition lt_negtrans : Prop :=
  forall x y z : num,
    (x <? y)%py = false -> (y <? z)%py = false -> (x <? z)%py = false.
Definition lt_irrefl : Prop := forall x : num, (x <? x)%py = false.

Lemma lt_asym_irrefl : lt_asym -> lt_irrefl.
Proof.
  intros Ha x. destruct (x <? x)%py eqn:E; [|reflexivity].
  now rewrite (Ha _ _ E) in E.
Qed.



(** *** Sortedness, when [<] is a strict weak order on the keys at hand *)

(** [<] is asymmetric and negatively transitive on the numbers of [keys]:
    the condition under which a comparison sort is determined by its
    input.  It speaks of the keys of one list only, not of every number. *)
Definition strict_weak_on (keys : list num) : Prop :=
  (forall x y, In x keys -> In y keys -> (x <? y)%py = true -> (y <? x)%py = false)
  /\ (forall x y z,
         In x keys -> In y keys -> In z keys ->
         (x <? y)%py = false -> (y <? z)%py = false -> (x <? z)%py = false).

Lemma strict_weak_on_all : lt_asym -> lt_negtrans -> forall keys, strict_weak_on keys.
Proof.
  intros Ha Hn keys. split.
  - intros x y _ _. apply Ha.
  - intros x y z _ _ _. apply Hn.
Qed.

Lemma strict_weak_on_incl (keys keys' : list num) :
  incl keys' keys -> strict_weak_on keys -> strict_weak_on keys'.
Proof.
  intros Hincl [Ha Hn]. split.
  - intros x y Hx Hy. apply Ha; now apply Hincl.
  - intros x y z Hx Hy Hz. apply Hn; now apply Hincl.
Qed.

Lemma strict_weak_on_irrefl (keys : list num) (x : num) :
  strict_weak_on keys -> In x keys -> (x <? x)%py = false.
Proof.
  intros [Ha _] Hx. destruct (x <? x)%py eqn:E; [|reflexivity].
  now rewrite (Ha x x Hx Hx E) in E.
Qed.

Lemma insort_sorted_on (keys : list num) (x : A) (l : list A) :
  strict_weak_on keys ->
  In (key x) keys -> (forall y, In y l -> In (key y) keys) ->
  StronglySorted key_le l -> StronglySorted key_le (insort key x l).
Proof.
  intros [Ha Hn] Hx. induction l as [|y l IH]; simpl; intros Hl Hs.
  - constructor; constructor.
  - inversion Hs as [|? ? Hs' Hall]; subst.
    destruct (key y <? key x)%py eqn:Hyx.
    + constructor; [apply IH; [intros; apply Hl; now right|assumption]|].
      apply (Permutation_Forall (Permutation_sym (insort_perm x l))).
      constructor; [|assumption]. unfold key_le.
      apply Ha; [apply Hl; now left|assumption|assumption].
    + constructor; [assumption|].
      constructor; [exact Hyx|].
      apply Forall_forall. intros z Hz. unfold key_le.
      apply (Hn _ (key y)); [apply Hl; now right|apply Hl; now left|assumption| |exact Hyx].
      exact (proj1 (Forall_forall _ _) Hall z Hz).
Qed.

Lemma sorted_sorted_on (l : list A) :
  strict_weak_on (map key l) -> StronglySorted key_le (sorted key l).
Proof.
  intros Hsw.
  assert (Hgen : forall l', incl l' l -> StronglySorted key_le (sorted key l')).
  { induction l' as [|x l' IH]; intros Hincl; simpl; [constructor|].
    apply insort_sorted_on with (keys := map key l).
    - assumption.
    - apply in_map, Hincl. now left.
    - intros y Hy. apply in_map, Hincl. right.
      exact (proj1 (sorted_In y l') Hy).
    - apply IH. intros y Hy. apply Hincl. now right. }
  apply Hgen, incl_refl.
Qed.

Lemma strict_weak_on_perm (l l' : list A) :
  Permutation l l' -> strict_weak_on (map key l) -> strict_weak_on (map key l').
Proof.
  intros Hp. apply strict_weak_on_incl. intros k Hk.
  apply in_map_iff in Hk as (x & <- & Hx). apply in_map.
  now apply (Permutation_in _ (Permutation_sym Hp)).
Qed.

(** A pair whose keys are equal is never swapped. *)
Lemma sorted_stable_on (x y : A) (l : list A) :
  strict_weak_on (map key l) ->
  before x y l -> key x = key y -> before x y (sorted key l).
Proof.
  intros Hsw Hb Heq. apply sorted_stable; [assumption|].
  unfold key_le. rewrite Heq. apply strict_weak_on_irrefl with (keys := map key l);
    [assumption|]. apply in_map. now apply before_In in Hb.
Qed.
End SortFacts.

(** ** The stages of the pipeline *)

Section PipelineFacts.
Context {num : Type} `{PyFloat num}.
Implicit Types (w : World num) (self : GreenCloudAdvisor num).
Implicit Types (region : RegionData num) (rs : list (RegionData num)).

(** *** The availability gate *)

Lemma check_service_availability_fail_closed w rc service :
  (exists e, check_aws_service_availability_live w rc service = Raise e)
  \/ check_aws_service_availability_live w rc service = Ok false ->
  check_service_availability w rc service = false.
Proof.
  unfold check_service_availability. now intros [[e ->] | ->].
Qed.

Lemma supports_all_false w region required service :
  In service required ->
  check_service_availability w (code region) service = false ->
  supports_all w region required = false.
Proof.
  intros Hin Hf. unfold supports_all.
  destruct (forallb _ required) eqn:E; [|reflexivity].
  rewrite forallb_forall in E. specialize (E _ Hin). congruence.
Qed.

Lemma supports_all_nil w region : supports_all w region [] = true.
Proof. reflexivity. Qed.

Lemma filter_by_services_nil w rs : filter_by_services w rs [] = rs.
Proof.
  unfold filter_by_services. induction rs as [|r rs IH]; [reflexivity|].
  cbn [filter supports_all forallb]. now f_equal.
Qed.

Lemma filter_by_services_In w rs required region :
  In region (filter_by_services w rs required) <->
  In region rs /\ supports_all w region required = true.
Proof. apply filter_In. Qed.

(** *** The carbon-intensity fetch *)

(** The value [data.get("carbonIntensity", 400) / 1000]. *)
Definition carbon_intensity_of (data : option num) : num :=
  (match data with Some v => v | None => of_int 400 end / of_int 1000)%py.


(** A returned pair comes from the answer of the grid API for the zone of
    the region. *)
Lemma get_live_carbon_intensity_inv w rc location_based market_based :
  get_live_carbon_intensity w rc = Ok (location_based, market_based) ->
  exists api_token data,
    read_api_token w = Ok (Some api_token) /\
    requests_get_json w (zone_for (_create_region_mapping w) rc) api_token = Ok data /\
    location_based = carbon_intensity_of data /\
    market_based = (location_based * lit_0_7)%py.
Proof.
  unfold get_live_carbon_intensity, carbon_intensity_of.
  destruct (read_api_token w) as [[tok|]|e]; simpl; try discriminate.
  destruct (requests_get_json w (zone_for (_create_region_mapping w) rc) tok)
    as [data|e] eqn:E; simpl; try discriminate.
  intros [= <- <-]. now exists tok, data.
Qed.

(** A successful request gives the two intensities. *)
Lemma get_live_carbon_intensity_eval w rc api_token data :
  read_api_token w = Ok (Some api_token) ->
  requests_get_json w (zone_for (_create_region_mapping w) rc) api_token = Ok data ->
  get_live_carbon_intensity w rc
  = Ok (carbon_intensity_of data, (carbon_intensity_of data * lit_0_7)%py).
Proof.
  unfold get_live_carbon_intensity. intros -> E. simpl. now rewrite E.
Qed.


(** *** Scoring *)

Lemma calculate_sustainability_score_ok w rc weight_market lb mb :
  get_live_carbon_intensity w rc = Ok (lb, mb) ->
  calculate_sustainability_score w rc weight_market
  = Ok (lb, mb, (mb * weight_market + lb * (of_int 1 - weight_market))%py).
Proof.
  unfold calculate_sustainability_score. now intros ->.
Qed.

Lemma calculate_sustainability_score_raise w rc weight_market e :
  get_live_carbon_intensity w rc = Raise e ->
  calculate_sustainability_score w rc weight_market = Raise e.
Proof.
  unfold calculate_sustainability_score. now intros ->.
Qed.

(** The exact score of a region under the default weight. *)
Definition exact_score (lb mb : num) : num :=
  (mb * weight_market_default + lb * (of_int 1 - weight_market_default))%py.

Lemma score_region_ok w region lb mb :
  get_live_carbon_intensity w (code region) = Ok (lb, mb) ->
  score_region w region
  = Ok {| region_code := code region;
          region_name := name region;
          location_based_intensity := lb;
          market_based_intensity := mb;
          sustainability_score := round3 (exact_score lb mb) |}.
Proof.
  intros E. unfold score_region.
  now rewrite (calculate_sustainability_score_ok _ _ _ E).
Qed.

Lemma score_region_raise w region e :
  get_live_carbon_intensity w (code region) = Raise e ->
  score_region w region = Raise e.
Proof.
  intros E. unfold score_region.
  now rewrite (calculate_sustainability_score_raise _ _ _ E).
Qed.

Lemma score_region_inv w region entry :
  score_region w region = Ok entry ->
  get_live_carbon_intensity w (code region)
  = Ok (location_based_intensity entry, market_based_intensity entry) /\
  region_code entry = code region /\
  region_name entry = name region /\
  sustainability_score entry
  = round3 (exact_score (location_based_intensity entry)
                        (market_based_intensity entry)).
Proof.
  destruct (get_live_carbon_intensity w (code region)) as [[lb mb]|e] eqn:E.
  - rewrite (score_region_ok _ _ E). now intros [= <-].
  - now rewrite (score_region_raise _ _ E).
Qed.

(** One entry per region, in the order of the regions. *)
Lemma score_loop_ok w rs scored :
  score_loop w rs = Ok scored ->
  Forall2 (fun region entry => score_region w region = Ok entry) rs scored.
Proof.
  revert scored. induction rs as [|r rs IH]; simpl; intros scored.
  - intros [= <-]. constructor.
  - destruct (score_region w r) as [entry|e] eqn:E; simpl; [|discriminate].
    destruct (score_loop w rs) as [rest|e]; simpl; [|discriminate].
    intros [= <-]. constructor; [assumption|]. now apply IH.
Qed.

Lemma score_loop_codes w rs scored :
  score_loop w rs = Ok scored -> map region_code scored = map code rs.
Proof.
  intros E. apply score_loop_ok in E.
  induction E as [|r entry rs scored Hr _ IH]; simpl; [reflexivity|].
  apply score_region_inv in Hr as (_ & -> & _). now rewrite IH.
Qed.



(** *** The whole pipeline *)

Section RecommendFacts.
Context `{MathModule num}.

(** What a returned recommendation is made of. *)
Lemma recommend_region_result self w loc required maxd best opts an :
  recommend_region self w loc required maxd = Ok (ResultDict best opts an) ->
  exists nearby scored,
    find_nearby_regions self loc maxd = Ok nearby /\
    score_loop w (filter_by_services w nearby required) = Ok scored /\
    opts = sorted sustainability_score scored /\
    hd_error opts = Some best /\
    an = {| total_regions_evaluated := List.length (regions self);
            nearby_regions_found := List.length nearby;
            service_compatible_regions :=
              List.length (filter_by_services w nearby required) |}.
Proof.
  unfold recommend_region.
  destruct (find_nearby_regions self loc maxd) as [nearby|e]; simpl; [|discriminate].
  destruct nearby as [|r0 nearby0] eqn:En; [discriminate|]. rewrite <- En.
  destruct (filter_by_services w nearby required) as [|c0 comp0] eqn:Ec; [discriminate|].
  rewrite <- Ec.
  destruct (score_loop w (filter_by_services w nearby required)) as [scored|e] eqn:Es;
    simpl; [|discriminate].
  destruct (sorted sustainability_score scored) as [|b rest] eqn:Eo; [discriminate|].
  intros [= <- <- <-]. exists nearby, scored. rewrite Eo. auto.
Qed.

Lemma recommend_region_no_nearby self w loc required maxd :
  find_nearby_regions self loc maxd = Ok [] ->
  recommend_region self w loc required maxd = Ok (ErrorDict no_nearby).
Proof. unfold recommend_region. now intros ->. Qed.

Lemma recommend_region_no_compatible self w loc required maxd nearby :
  find_nearby_regions self loc maxd = Ok nearby ->
  nearby <> [] ->
  filter_by_services w nearby required = [] ->
  recommend_region self w loc required maxd = Ok (ErrorDict no_compatible).
Proof.
  unfold recommend_region. intros -> Hne Hc. simpl.
  destruct nearby; [contradiction|]. now rewrite Hc.
Qed.

Lemma recommend_region_scored self w loc required maxd nearby scored :
  find_nearby_regions self loc maxd = Ok nearby ->
  filter_by_services w nearby required <> [] ->
  score_loop w (filter_by_services w nearby required) = Ok scored ->
  exists best,
    hd_error (sorted sustainability_score scored) = Some best /\
    recommend_region self w loc required maxd
    = Ok (ResultDict best (sorted sustainability_score scored)
            {| total_regions_evaluated := List.length (regions self);
               nearby_regions_found := List.length nearby;
               service_compatible_regions :=
                 List.length (filter_by_services w nearby required) |}).
Proof.
  unfold recommend_region. intros -> Hc Hs. simpl.
  destruct nearby as [|r0 nearby0] eqn:En; [now destruct Hc|]. rewrite <- En in *.
  destruct (filter_by_services w nearby required) as [|c0 comp0] eqn:Ec;
    [now destruct Hc|]. rewrite <- Ec in *.
  rewrite Hs. simpl.
  destruct (sorted sustainability_score scored) as [|b rest] eqn:Eo.
  - apply sorted_nil_inv in Eo. subst scored.
    apply score_loop_ok in Hs. inversion Hs as [E0|]. rewrite Ec in E0. discriminate.
  - now exists b.
Qed.

Lemma recommend_region_score_raise self w loc required maxd nearby e :
  find_nearby_regions self loc maxd = Ok nearby ->
  score_loop w (filter_by_services w nearby required) = Raise e ->
  recommend_region self w loc required maxd = Raise e.
Proof.
  unfold recommend_region. intros -> Hs. simpl.
  destruct nearby as [|r0 nearby0] eqn:En; [discriminate|]. rewrite <- En in *.
  destruct (filter_by_services w nearby required) as [|c0 comp0] eqn:Ec;
    [discriminate|]. rewrite <- Ec in *.
  now rewrite Hs.
Qed.
End RecommendFacts.
End PipelineFacts.

(** ** The haversine distance over the reals *)

Section RealDistance.
Local Open Scope R_scope.

(** The quantity [a] of [_calculate_distance]. *)
Definition haversine_a (loc1 loc2 : R * R) : R :=
  let lat1 := fst loc1 * (PI / 180) in
  let lon1 := snd loc1 * (PI / 180) in
  let lat2 := fst loc2 * (PI / 180) in
  let lon2 := snd loc2 * (PI / 180) in
  sin ((lat2 - lat1) / 2) * sin ((lat2 - lat1) / 2)
  + cos lat1 * cos lat2 * (sin ((lon2 - lon1) / 2) * sin ((lon2 - lon1) / 2)).

Lemma sin_half_sqr (x : R) : sin (x / 2) * sin (x / 2) = (1 - cos x) / 2.
Proof.
  replace x with (2 * (x / 2)) at 3 by field.
  rewrite cos_2a_sin. field.
Qed.

Lemma sin_cos_sqr (x : R) : sin x * sin x + cos x * cos x = 1.
Proof. exact (sin2_cos2 x). Qed.

(** Cauchy-Schwarz for two unit vectors, one coordinate damped by [u]. *)
Lemma unit_dot_bound (s1 c1 s2 c2 u : R) :
  s1 * s1 + c1 * c1 = 1 -> s2 * s2 + c2 * c2 = 1 -> -1 <= u <= 1 ->
  -1 <= s1 * s2 + c1 * c2 * u <= 1.
Proof.
  intros H1 H2 Hu.
  assert (Hsq : (s1 * s2 + c1 * c2 * u) * (s1 * s2 + c1 * c2 * u) <= 1).
  { assert (E : 1 - (s1 * s2 + c1 * c2 * u) * (s1 * s2 + c1 * c2 * u)
                = (s1 * c2 * u - c1 * s2) * (s1 * c2 * u - c1 * s2)
                  + c2 * c2 * (1 - u * u)).
    { apply Rminus_diag_uniq.
      transitivity (- ((s1 * s1 + c1 * c1) * (s2 * s2 + c2 * c2 * (u * u))
                       + c2 * c2 * (1 - u * u) - 1)); [ring|].
      rewrite H1.
      transitivity (- (s2 * s2 + c2 * c2 - 1)); [ring|].
      rewrite H2. ring. }
    pose proof (Rle_0_sqr (s1 * c2 * u - c1 * s2)) as Hd.
    pose proof (Rle_0_sqr c2) as Hc. unfold Rsqr in Hd, Hc.
    assert (0 <= 1 - u * u) by nra.
    assert (0 <= c2 * c2 * (1 - u * u)) by now apply Rmult_le_pos.
    lra. }
  nra.
Qed.

Lemma haversine_a_dot (loc1 loc2 : R * R) :
  haversine_a loc1 loc2
  = (1 - (sin (fst loc1 * (PI / 180)) * sin (fst loc2 * (PI / 180))
          + cos (fst loc1 * (PI / 180)) * cos (fst loc2 * (PI / 180))
            * cos (snd loc2 * (PI / 180) - snd loc1 * (PI / 180)))) / 2.
Proof.
  unfold haversine_a. cbv zeta. rewrite !sin_half_sqr, cos_minus. field.
Qed.

Lemma haversine_a_range (loc1 loc2 : R * R) : 0 <= haversine_a loc1 loc2 <= 1.
Proof.
  rewrite haversine_a_dot.
  pose proof (unit_dot_bound (sin_cos_sqr (fst loc1 * (PI / 180)))
                (sin_cos_sqr (fst loc2 * (PI / 180)))
                (COS_bound (snd loc2 * (PI / 180) - snd loc1 * (PI / 180)))).
  lra.
Qed.


Lemma haversine_a_refl (loc : R * R) : haversine_a loc loc = 0.
Proof.
  unfold haversine_a. cbv zeta.
  replace ((fst loc * (PI / 180) - fst loc * (PI / 180)) / 2) with 0 by field.
  replace ((snd loc * (PI / 180) - snd loc * (PI / 180)) / 2) with 0 by field.
  rewrite sin_0. ring.
Qed.

Lemma sqrt_range (a : R) : 0 <= a <= 1 -> 0 <= R_sqrt.sqrt a <= 1.
Proof.
  intros [H0 H1]. split; [apply sqrt_pos|].
  rewrite <- sqrt_1. now apply sqrt_le_1_alt.
Qed.

Lemma asin_nonneg (x : R) : 0 <= x <= 1 -> 0 <= asin x.
Proof.
  intros Hx. destruct (Rle_or_lt 0 (asin x)) as [|Hneg]; [assumption|].
  pose proof (asin_bound x) as Hb. pose proof PI_RGT_0.
  assert (sin (asin x) < 0) by (apply sin_lt_0_var; lra).
  rewrite sin_asin in *; lra.
Qed.

(** Over the reals the domain checks of [math.sqrt] and [math.asin]
    always pass: the call returns. *)
Lemma calculate_distance_R (loc1 loc2 : R * R) :
  _calculate_distance loc1 loc2
  = Ok (6371 * (2 * asin (R_sqrt.sqrt (haversine_a loc1 loc2)))).
Proof.
  pose proof (haversine_a_range loc1 loc2) as Ha.
  pose proof (sqrt_range Ha) as Hs.
  unfold _calculate_distance. cbn -[PI sin cos asin R_sqrt.sqrt IZR].
  fold (haversine_a loc1 loc2).
  destruct (Rlt_dec (haversine_a loc1 loc2) 0) as [Hlt|_]; [lra|].
  cbn -[PI sin cos asin R_sqrt.sqrt IZR].
  destruct (Rlt_dec (R_sqrt.sqrt (haversine_a loc1 loc2)) (-1)) as [Hlt|_]; [lra|].
  destruct (Rlt_dec 1 (R_sqrt.sqrt (haversine_a loc1 loc2))) as [Hlt|_]; [lra|].
  reflexivity.
Qed.


Lemma calculate_distance_bounds (loc1 loc2 : R * R) :
  exists d, _calculate_distance loc1 loc2 = Ok d /\ 0 <= d <= 6371 * PI.
Proof.
  rewrite calculate_distance_R. eexists. split; [reflexivity|].
  pose proof (sqrt_range (haversine_a_range loc1 loc2)) as Hs.
  pose proof (asin_nonneg Hs). pose proof (asin_bound (R_sqrt.sqrt (haversine_a loc1 loc2))).
  lra.
Qed.
End RealDistance.


(** ** Order laws of the two arithmetics *)

Lemma Rltb_true (x y : R) : (x < y)%R -> Rltb x y = true.
Proof. intros Hlt. unfold Rltb. now destruct (Rlt_dec x y). Qed.

Lemma Rltb_false (x y : R) : (y <= x)%R -> Rltb x y = false.
Proof. intros Hle. unfold Rltb. destruct (Rlt_dec x y); [lra|reflexivity]. Qed.

Lemma Rltb_lt (x y : R) : Rltb x y = true <-> (x < y)%R.
Proof. unfold Rltb. destruct (Rlt_dec x y); split; intros; try assumption; easy. Qed.

Lemma Rltb_ge (x y : R) : Rltb x y = false <-> (y <= x)%R.
Proof.
  unfold Rltb. destruct (Rlt_dec x y); split; intros; try easy; lra.
Qed.

Lemma Rleb_true (x y : R) : (x <= y)%R -> Rleb x y = true.
Proof. intros Hle. unfold Rleb. now destruct (Rle_dec x y). Qed.

Lemma Rleb_le (x y : R) : Rleb x y = true <-> (x <= y)%R.
Proof. unfold Rleb. destruct (Rle_dec x y); split; intros; try assumption; easy. Qed.

(** On the reals [<] is a strict total order. *)
Lemma R_lt_asym : lt_asym (num := R).
Proof. intros x y Hxy. apply Rltb_ge. apply Rltb_lt in Hxy. cbn in *. lra. Qed.


Lemma R_lt_irrefl : lt_irrefl (num := R).
Proof. exact (lt_asym_irrefl R_lt_asym). Qed.

(** On binary64 [x < x] is false for every [x], NaN included. *)
Lemma B64_lt_irrefl : lt_irrefl (num := float).
Proof.
  intros x. cbn. rewrite ltb_spec. unfold SFltb, SFcompare.
  destruct (Prim2SF x) as [s|s| |s m e]; try reflexivity.
  - now destruct s.
  - rewrite Z.compare_refl, Pos.compare_refl. now destruct s.
Qed.

(** On binary64 [<] is a strict weak order on every list of numbers that
    holds no NaN. *)
Lemma SFltb_finite (s1 : bool) (m1 : positive) (e1 : Z)
      (s2 : bool) (m2 : positive) (e2 : Z) :
  SFltb (S754_finite s1 m1 e1) (S754_finite s2 m2 e2) = true <->
  match s1, s2 with
  | true, false => True
  | false, true => False
  | false, false => (e1 < e2)%Z \/ (e1 = e2 /\ (m1 < m2)%positive)
  | true, true => (e2 < e1)%Z \/ (e1 = e2 /\ (m2 < m1)%positive)
  end.
Proof.
  unfold SFltb, SFcompare.
  change (PosDef.Pos.compare_cont Eq m1 m2) with (Pos.compare m1 m2).
  destruct s1, s2; try (split; [trivial|reflexivity]);
    try (split; [discriminate|contradiction]);
    destruct (Z.compare_spec e1 e2); destruct (Pos.compare_spec m1 m2); cbn;
    split; try discriminate; try reflexivity; intros; try lia.
Qed.

Lemma SFltb_asym (a b : spec_float) : SFltb a b = true -> SFltb b a = false.
Proof.
  intros Hab. apply not_true_is_false. intros Hba. revert Hab Hba.
  destruct a as [sa|sa| |sa ma ea], b as [sb|sb| |sb mb eb];
    rewrite ?SFltb_finite; unfold SFltb, SFcompare;
    try destruct sa; try destruct sb; cbn; try discriminate; try tauto; lia.
Qed.

Lemma SFltb_negtrans (a b c : spec_float) :
  b <> S754_nan ->
  SFltb a b = false -> SFltb b c = false -> SFltb a c = false.
Proof.
  intros Hb Hab Hbc. apply not_true_is_false. intros Hac.
  apply not_true_iff_false in Hab, Hbc. revert Hab Hbc Hac.
  destruct a as [sa|sa| |sa ma ea], b as [sb|sb| |sb mb eb], c as [sc|sc| |sc mc ec];
    try contradiction;
    rewrite ?SFltb_finite; unfold SFltb, SFcompare;
    try destruct sa; try destruct sb; try destruct sc; cbn;
    try discriminate; try tauto; try congruence; try lia.
Qed.

Lemma is_nan_Prim2SF (x : float) : PrimFloat.is_nan x = false -> Prim2SF x <> S754_nan.
Proof.
  unfold PrimFloat.is_nan. rewrite eqb_spec. intros Hx E. rewrite E in Hx. discriminate.
Qed.

Lemma B64_strict_weak_on (keys : list float) :
  Forall (fun x => PrimFloat.is_nan x = false) keys -> strict_weak_on keys.
Proof.
  rewrite Forall_forall. intros Hall. split.
  - intros x y _ _. cbn. rewrite !ltb_spec. apply SFltb_asym.
  - intros x y z _ Hy _. cbn. rewrite !ltb_spec.
    apply SFltb_negtrans. now apply is_nan_Prim2SF, Hall.
Qed.


(** ** Keys that are all equal *)

Section SortConst.
Context {num : Type} `{PyFloat num} {A : Type}.
Variable key : A -> num.

(** A list whose keys are all the same is left as it is. *)
Lemma sorted_const (k : num) (l : list A) :
  (k <? k)%py = false ->
  (forall x, In x l -> key x = k) ->
  sorted key l = l.
Proof.
  intros Hk. induction l as [|x l IH]; intros Hall; [reflexivity|].
  simpl. rewrite IH by (intros; apply Hall; now right).
  destruct l as [|y l]; [reflexivity|]. simpl.
  rewrite (Hall x), (Hall y) by (simpl; auto). now rewrite Hk.
Qed.
End SortConst.

(** ** The distance filter over the reals *)

Section RealNearby.
Local Open Scope R_scope.
Implicit Types (self : GreenCloudAdvisor R) (rs : list (RegionData R)).

(** The value [_calculate_distance] returns. *)
Definition distance_R (loc1 loc2 : R * R) : R :=
  6371 * (2 * asin (R_sqrt.sqrt (haversine_a loc1 loc2))).

Lemma distance_R_same (loc : R * R) : distance_R loc loc = 0.
Proof.
  unfold distance_R. rewrite haversine_a_refl, sqrt_0, asin_0. ring.
Qed.

Lemma distance_R_range (loc1 loc2 : R * R) : 0 <= distance_R loc1 loc2 <= 6371 * PI.
Proof.
  destruct (calculate_distance_bounds loc1 loc2) as (d & E & Hd).
  rewrite calculate_distance_R in E. now injection E as <-.
Qed.

(** The loop keeps exactly the regions within the distance, in catalog
    order; it never raises. *)
Lemma nearby_loop_R (user : R * R) (maxd : Z) rs :
  nearby_loop user maxd rs
  = Ok (filter (fun p => Rleb (snd p) (IZR maxd))
          (map (fun region => (region, distance_R user (location region))) rs)).
Proof.
  induction rs as [|r rs IH]; [reflexivity|].
  cbn [nearby_loop]. rewrite calculate_distance_R, IH.
  cbn [bind map filter snd]. fold (distance_R user (location r)).
  change (le (distance_R user (location r)) (of_int maxd))
    with (Rleb (distance_R user (location r)) (IZR maxd)).
  now destruct (Rleb _ _).
Qed.

Lemma find_nearby_regions_R self (user : R * R) (maxd : Z) :
  exists nearby,
    find_nearby_regions self user maxd = Ok nearby /\
    forall region,
      In region nearby <->
      In region (regions self) /\ distance_R user (location region) <= IZR maxd.
Proof.
  unfold find_nearby_regions. rewrite nearby_loop_R. cbn [bind].
  eexists. split; [reflexivity|]. intros region. rewrite in_map_iff. split.
  - intros ([r d] & <- & Hin). apply sorted_In, filter_In in Hin as [Hin Hle].
    apply in_map_iff in Hin as (r' & [= <- <-] & Hin). cbn [fst snd] in *.
    split; [assumption|]. now apply Rleb_le.
  - intros [Hin Hle]. exists (region, distance_R user (location region)).
    split; [reflexivity|]. apply sorted_In, filter_In. split.
    + apply in_map_iff. now exists region.
    + now apply Rleb_le.
Qed.

(** Regions that all sit at one point within the distance come back in
    catalog order. *)
Lemma find_nearby_regions_colocated self (user p : R * R) (maxd : Z) :
  (forall region, In region (regions self) -> location region = p) ->
  distance_R user p <= IZR maxd ->
  find_nearby_regions self user maxd = Ok (regions self).
Proof.
  intros Hp Hle. unfold find_nearby_regions. rewrite nearby_loop_R. cbn [bind].
  f_equal.
  assert (E : filter (fun q : RegionData R * R => Rleb (snd q) (IZR maxd))
                (map (fun region => (region, distance_R user (location region)))
                     (regions self))
              = map (fun region => (region, distance_R user p)) (regions self)).
  { induction (regions self) as [|r rs IH]; [reflexivity|].
    cbn [map filter snd]. rewrite (Hp r) by now left.
    rewrite (Rleb_true Hle). f_equal. apply IH. intros; apply Hp; now right. }
  rewrite E.
  rewrite (@sorted_const R _ _ snd (distance_R user p)).
  - rewrite map_map. cbn [fst]. apply map_id.
  - apply R_lt_irrefl.
  - intros x Hx. apply in_map_iff in Hx as (r & <- & _). reflexivity.
Qed.

(** Regions that all sit at one point beyond the distance are all dropped. *)
Lemma find_nearby_regions_too_far self (user p : R * R) (maxd : Z) :
  (forall region, In region (regions self) -> location region = p) ->
  IZR maxd < distance_R user p ->
  find_nearby_regions self user maxd = Ok [].
Proof.
  intros Hp Hlt. destruct (find_nearby_regions_R self user maxd) as (nearby & -> & Hin).
  f_equal. destruct nearby as [|r nearby]; [reflexivity|].
  destruct (proj1 (Hin r) (or_introl eq_refl)) as [Hr Hle].
  rewrite (Hp r Hr) in Hle. lra.
Qed.

Lemma get_aws_regions_location (described : list string) (region : RegionData R) :
  In region (get_aws_regions described) -> location region = (0, 0).
Proof.
  unfold get_aws_regions. rewrite in_map_iff. now intros (n & <- & _).
Qed.
End RealNearby.

(** ** Sample runs *)

(** A catalog of two regions as [get_aws_regions] builds it, London first. *)
Definition sample_catalog : list (RegionData R) :=
  get_aws_regions ["eu-west-2"; "eu-west-1"]%string.

Definition sample_advisor : GreenCloudAdvisor R := {| regions := sample_catalog |}.

(** A world over that catalog, with a readable token. *)
Definition sample_world (available : string -> string -> result bool)
           (grid : string -> string -> result (option R)) : World R :=
  {| cached_regions := sample_catalog;
     check_aws_service_availability_live := available;
     read_api_token := Ok (Some "token"%string);
     requests_get_json := grid |}.

(** Every service is offered everywhere / nowhere. *)
Definition all_available : string -> string -> result bool := fun _ _ => Ok true.
Definition none_available : string -> string -> result bool := fun _ _ => Ok false.

(** Every zone reports 400 g/kWh. *)
Definition steady_grid : string -> string -> result (option R) :=
  fun _ _ => Ok (Some 400%R).


(** The entry of a region whose zone reports 400 g/kWh. *)
Definition sample_entry (rc rn : string) : ScoredRegion R :=
  {| region_code := rc;
     region_name := rn;
     location_based_intensity := (400 / 1000)%R;
     market_based_intensity := (400 / 1000 * (7 / 10))%R;
     sustainability_score :=
       Rround3 (400 / 1000 * (7 / 10) * (7 / 10) + 400 / 1000 * (1 - 7 / 10))%R |}.

Definition sample_services : list string := ["ec2"; "s3"; "rds"]%string.

Section SampleRuns.
Local Open Scope R_scope.
Local Open Scope string_scope.

Lemma sample_catalog_colocated (region : RegionData R) :
  In region (regions sample_advisor) -> location region = (0, 0).
Proof. apply get_aws_regions_location. Qed.

(** From the origin, and from any point within 5000 km of it, both
    regions are nearby, in catalog order. *)
Lemma sample_nearby (user : R * R) (maxd : Z) :
  distance_R user (0, 0) <= IZR maxd ->
  find_nearby_regions sample_advisor user maxd = Ok sample_catalog.
Proof.
  intros Hle.
  exact (@find_nearby_regions_colocated sample_advisor user (0, 0) maxd
           sample_catalog_colocated Hle).
Qed.

Lemma sample_score_region available (rc rn : string) (loc : R * R) :
  score_region (sample_world available steady_grid)
    {| code := rc; name := rn; location := loc |}
  = Ok (sample_entry rc rn).
Proof.
  rewrite (@score_region_ok R _ _ _ (400 / 1000) (400 / 1000 * (7 / 10))); [reflexivity|].
  now rewrite (@get_live_carbon_intensity_eval R _ _ _ "token" (Some 400)).
Qed.

Lemma sample_score_loop available :
  score_loop (sample_world available steady_grid) sample_catalog
  = Ok [sample_entry "eu-west-2" "London"; sample_entry "eu-west-1" "Ireland"].
Proof.
  unfold sample_catalog, get_aws_regions. cbn [map score_loop].
  now rewrite !sample_score_region.
Qed.

Lemma sample_sorted :
  sorted sustainability_score
    [sample_entry "eu-west-2" "London"; sample_entry "eu-west-1" "Ireland"]
  = [sample_entry "eu-west-2" "London"; sample_entry "eu-west-1" "Ireland"].
Proof.
  apply sorted_const with (k := sustainability_score (sample_entry "" "")).
  - apply R_lt_irrefl.
  - intros x [<- | [<- | []]]; reflexivity.
Qed.

(** With every service available and a steady grid, both regions are
    ranked: London, first in the catalog, stays first. *)
Lemma sample_run (user : R * R) (maxd : Z) :
  distance_R user (0, 0) <= IZR maxd ->
  recommend_region sample_advisor (sample_world all_available steady_grid)
    user sample_services maxd
  = Ok (ResultDict (sample_entry "eu-west-2" "London")
          [sample_entry "eu-west-2" "London"; sample_entry "eu-west-1" "Ireland"]
          {| total_regions_evaluated := 2;
             nearby_regions_found := 2;
             service_compatible_regions := 2 |}).
Proof.
  intros Hle. unfold recommend_region. rewrite (sample_nearby _ Hle). cbn [bind].
  change (filter_by_services (sample_world all_available steady_grid)
            sample_catalog sample_services) with sample_catalog.
  unfold sample_catalog at 1 2. cbn [get_aws_regions map].
  now rewrite sample_score_loop; cbn [bind]; rewrite sample_sorted.
Qed.

Lemma origin_within_5000 : distance_R (0, 0) (0, 0) <= 5000.
Proof. rewrite distance_R_same. lra. Qed.

(** Latitude 91 is out of range, yet a distance is computed for it. *)
Lemma lat_91_within_30000 : distance_R (91, 0) (0, 0) <= 30000.
Proof.
  pose proof (distance_R_range (91, 0) (0, 0)). pose proof PI_4. lra.
Qed.


(** When no region offers the services, the error dict comes back. *)
Lemma sample_run_unavailable :
  recommend_region sample_advisor (sample_world none_available steady_grid)
    (0, 0) sample_services 5000
  = Ok (ErrorDict no_compatible).
Proof.
  eapply recommend_region_no_compatible;
    [exact (sample_nearby 5000 origin_within_5000)|discriminate|reflexivity].
Qed.
End SampleRuns.

(** ** Sample fetches in binary64 *)

Set Warnings "-inexact-float".

(** A world in binary64 whose grid API answers every zone with [data]. *)
Definition b64_world (data : option float) : World float :=
  {| cached_regions := get_aws_regions ["eu-west-2"; "eu-west-1"]%string;
     check_aws_service_availability_live := fun _ _ => Ok true;
     read_api_token := Ok (Some "token"%string);
     requests_get_json := fun _ _ => Ok data |}.

(** A C library of which only the values the C standard fixes are known:
    at a zero argument [sin] and [asin] return the argument and [cos]
    returns 1.  Everywhere else this sample answers NaN, which [math_1]
    turns into [ValueError]: a run from the origin to regions at the
    origin asks at zero only, and no other run gets a value from it. *)
Definition libm_at_zero : Libm :=
  {| c_sin := fun x => if PrimFloat.is_zero x then x else nan;
     c_cos := fun x => if PrimFloat.is_zero x then 1%float else nan;
     c_asin := fun x => if PrimFloat.is_zero x then x else nan |}.

(** A world in binary64 over London and Ireland, in this order, in which
    Great Britain's grid reports 400.5 g/kWh and every other zone 400. *)
Definition b64_close_grids : World float :=
  {| cached_regions := get_aws_regions ["eu-west-2"; "eu-west-1"]%string;
     check_aws_service_availability_live := fun _ _ => Ok true;
     read_api_token := Ok (Some "token"%string);
     requests_get_json :=
       fun zone _ =>
         if String.eqb zone "GB" then Ok (Some 400.5%float) else Ok (Some 400%float) |}.

(** The entry of a region whose grid reports [data] g/kWh. *)
Definition b64_entry (rc rn : string) (data : float) : ScoredRegion float :=
  {| region_code := rc;
     region_name := rn;
     location_based_intensity := (data / 1000)%float;
     market_based_intensity := (data / 1000 * 0.7)%float;
     sustainability_score :=
       B64round3 (data / 1000 * 0.7 * 0.7 + data / 1000 * (1 - 0.7))%float |}.

(** The availability API raises for ["rds"] and offers everything else. *)
Definition rds_check_raises : string -> string -> result bool :=
  fun _ service =>
    if String.eqb service "rds" then Raise (Exception "AWS API error") else Ok true.

(** * The claims *)

(** C8. For every region the availability gate passes on the empty list of
    required capabilities, so [filter_by_services] with an empty list
    returns the list of regions it was given, unchanged. *)
Theorem C8_empty_requirements_keep_every_region :
  forall (num : Type) (F : PyFloat num) (w : World num) (rs : list (RegionData num)),
    (forall region, supports_all w region [] = true)
    /\ filter_by_services w rs [] = rs.
Proof.
  intros num F w rs. split.
  - intros region. apply supports_all_nil.
  - apply filter_by_services_nil.
Qed.

(** C5. When the carbon-intensity fetch for a region returns the pair
    (location-based, market-based), [calculate_sustainability_score] returns
    that pair together with
    [market_based * weight_market + location_based * (1 - weight_market)],
    computed in the arithmetic of the run; the default weight is the
    literal [0.7]. *)
Theorem C5_score_is_the_weighted_sum :
  forall (num : Type) (F : PyFloat num) (w : World num) (rc : string)
         (weight_market location_based market_based : num),
    get_live_carbon_intensity w rc = Ok (location_based, market_based) ->
    calculate_sustainability_score w rc weight_market
    = Ok (location_based, market_based,
          (market_based * weight_market
           + location_based * (of_int 1 - weight_market))%py)
    /\ @weight_market_default num F = lit_0_7
    /\ @weight_market_default R R_float = (7 / 10)%R
    /\ @weight_market_default float B64_float = 0.7%float.
Proof.
  intros num F w rc weight lb mb Hfetch. split.
  - now apply calculate_sustainability_score_ok.
  - repeat split; reflexivity.
Qed.

(** C5 at work in binary64, for a grid value of 400 g/kWh. *)
Lemma C5_score_is_the_weighted_sum_witness :
  calculate_sustainability_score (b64_world (Some 400%float)) "eu-west-2" 0.7%float
  = Ok (0.4%float, 0.27999999999999997%float,
        (0.27999999999999997 * 0.7 + 0.4 * (Z2float 1 - 0.7))%float)
  /\ @weight_market_default float B64_float = lit_0_7
  /\ @weight_market_default R R_float = (7 / 10)%R
  /\ @weight_market_default float B64_float = 0.7%float.
Proof.
  apply (@C5_score_is_the_weighted_sum float B64_float
           (b64_world (Some 400%float)) "eu-west-2"%string 0.7%float
           0.4%float 0.27999999999999997%float).
  vm_compute. reflexivity.
Defined.

(** C9 as stated fails in binary64: for a grid value of 400 g/kWh the score
    is 0.316 while 0.79 times the location-based intensity is
    0.31600000000000006. *)
Lemma C9_counterexample :
  exists location_based market_based score : float,
    calculate_sustainability_score (b64_world (Some 400%float)) "eu-west-2"
      weight_market_default
    = Ok (location_based, market_based, score)
    /\ location_based = 0.4%float
    /\ market_based = 0.27999999999999997%float
    /\ score = 0.316%float
    /\ (0.79 * location_based)%float = 0.31600000000000006%float
    /\ (score =? 0.79 * location_based)%float = false.
Proof.
  exists 0.4%float, 0.27999999999999997%float, 0.316%float.
  repeat split; vm_compute; reflexivity.
Qed.

(** C9, amended. For every region whose fetch succeeds, the location-based
    intensity is the value the grid API answered for the zone of the region
    (400 when the key is absent) divided by 1000, the market-based
    intensity is the product of the location-based one and the literal 0.7,
    and under the default weight the score is
    [(location_based * 0.7) * 0.7 + location_based * (1 - 0.7)] in the
    arithmetic of the run.  In exact arithmetic this is 0.79 times the
    location-based intensity. *)
Theorem C9_market_is_scaled_location :
  (forall (num : Type) (F : PyFloat num) (w : World num) (rc : string)
          (location_based market_based score : num),
      calculate_sustainability_score w rc weight_market_default
      = Ok (location_based, market_based, score) ->
      (exists api_token data,
          read_api_token w = Ok (Some api_token)
          /\ requests_get_json w (zone_for (_create_region_mapping w) rc) api_token
             = Ok data
          /\ location_based = carbon_intensity_of data)
      /\ market_based = (location_based * lit_0_7)%py
      /\ score = (location_based * lit_0_7 * lit_0_7
                  + location_based * (of_int 1 - lit_0_7))%py)
  /\ (forall (w : World R) (rc : string) (location_based market_based score : R),
         calculate_sustainability_score w rc weight_market_default
         = Ok (location_based, market_based, score) ->
         market_based = (7 / 10 * location_based)%R
         /\ score = (79 / 100 * location_based)%R).
Proof.
  assert (Hgen : forall (num : Type) (F : PyFloat num) (w : World num) (rc : string)
                        (lb mb score : num),
             calculate_sustainability_score w rc weight_market_default
             = Ok (lb, mb, score) ->
             (exists api_token data,
                 read_api_token w = Ok (Some api_token)
                 /\ requests_get_json w (zone_for (_create_region_mapping w) rc) api_token
                    = Ok data
                 /\ lb = carbon_intensity_of data)
             /\ mb = (lb * lit_0_7)%py
             /\ score = (lb * lit_0_7 * lit_0_7 + lb * (of_int 1 - lit_0_7))%py).
  { intros num F w rc lb mb score Hs.
    destruct (get_live_carbon_intensity w rc) as [[lb' mb']|e] eqn:Hfetch.
    - rewrite (calculate_sustainability_score_ok _ _ _ Hfetch) in Hs.
      injection Hs as <- <- <-.
      apply get_live_carbon_intensity_inv in Hfetch
        as (tok & data & Htok & Hget & Hlb & Hmb).
      split; [now exists tok, data|]. split; [assumption|].
      rewrite Hmb. reflexivity.
    - now rewrite (calculate_sustainability_score_raise _ _ _ Hfetch) in Hs. }
  split; [exact Hgen|].
  intros w rc lb mb score Hs.
  destruct (Hgen R R_float w rc lb mb score Hs) as (_ & Hmb & Hscore).
  cbn in Hmb, Hscore. split; [rewrite Hmb|rewrite Hscore]; field.
Qed.

(** C9 at work in binary64, for a grid value of 400 g/kWh. *)
Lemma C9_market_is_scaled_location_witness :
  (exists api_token data,
      read_api_token (b64_world (Some 400%float)) = Ok (Some api_token)
      /\ requests_get_json (b64_world (Some 400%float))
           (zone_for (_create_region_mapping (b64_world (Some 400%float))) "eu-west-2")
           api_token = Ok data
      /\ 0.4%float = carbon_intensity_of data)
  /\ 0.27999999999999997%float = (0.4 * 0.7)%float
  /\ 0.316%float = (0.4 * 0.7 * 0.7 + 0.4 * (Z2float 1 - 0.7))%float.
Proof.
  apply (proj1 C9_market_is_scaled_location float B64_float
           (b64_world (Some 400%float)) "eu-west-2"%string).
  vm_compute. reflexivity.
Defined.

(** C1 as stated fails: two regions with equal scores come out in catalog
    order, London (eu-west-2) before Ireland (eu-west-1), although
    "eu-west-1" is the smaller region code. *)
Lemma C1_counterexample :
  exists (first second : ScoredRegion R) (an : Analysis),
    recommend_region sample_advisor (sample_world all_available steady_grid)
      (0%R, 0%R) sample_services 5000
    = Ok (ResultDict first [first; second] an)
    /\ sustainability_score first = sustainability_score second
    /\ region_code first = "eu-west-2"%string
    /\ region_code second = "eu-west-1"%string
    /\ String.ltb (region_code second) (region_code first) = true.
Proof.
  eexists _, _, _. split; [exact (sample_run 5000 origin_within_5000)|].
  repeat split; reflexivity.
Qed.

(** C1, amended. Whenever [recommend_region] returns a ranking on whose
    scores [<] is a strict weak order (in binary64: whenever no score of
    the ranking is NaN), the ranking is sorted ascending by the stored
    sustainability score and its first entry is the recommended region;
    the ranking is a permutation of the scored regions in which two
    regions keep the order in which they were scored (the order in which
    the availability filter returned them) whenever the later one's score
    is not smaller, in particular whenever their scores are equal,
    whatever their region codes. *)
Theorem C1_ranking_sorted_and_stable :
  forall (num : Type) (F : PyFloat num) (M : MathModule num)
         (self : GreenCloudAdvisor num) (w : World num) (loc : num * num)
         (required : list string) (maxd : Z)
         (best : ScoredRegion num) (opts : list (ScoredRegion num)) (an : Analysis),
    recommend_region self w loc required maxd = Ok (ResultDict best opts an) ->
    strict_weak_on (map sustainability_score opts) ->
    StronglySorted (key_le sustainability_score) opts
    /\ hd_error opts = Some best
    /\ exists nearby scored,
         find_nearby_regions self loc maxd = Ok nearby
         /\ score_loop w (filter_by_services w nearby required) = Ok scored
         /\ Permutation opts scored
         /\ forall x y,
              before x y scored ->
              sustainability_score x = sustainability_score y
              \/ (sustainability_score y <? sustainability_score x)%py = false ->
              before x y opts.
Proof.
  intros num F M self w loc required maxd best opts an Hrun Hsw.
  apply recommend_region_result in Hrun
    as (nearby & scored & Hnear & Hscore & -> & Hbest & _).
  assert (Hsw' : strict_weak_on (map sustainability_score scored))
    by (eapply strict_weak_on_perm; [apply sorted_perm|exact Hsw]).
  split; [now apply sorted_sorted_on|]. split; [assumption|].
  exists nearby, scored. repeat split; try assumption; [apply sorted_perm|].
  intros x y Hxy [Heq|Hle].
  - now apply sorted_stable_on.
  - now apply sorted_stable.
Qed.

(** C1 at work in binary64: from the origin, with the grid values 400.5
    for London and 400 for Ireland, both scores are stored as 0.316 and
    London, scored first, stays first. *)
Lemma C1_ranking_sorted_and_stable_witness :
  StronglySorted (key_le sustainability_score)
    [b64_entry "eu-west-2" "London" 400.5; b64_entry "eu-west-1" "Ireland" 400]
  /\ hd_error [b64_entry "eu-west-2" "London" 400.5; b64_entry "eu-west-1" "Ireland" 400]
     = Some (b64_entry "eu-west-2" "London" 400.5)
  /\ exists nearby scored,
       @find_nearby_regions float B64_float (B64_math libm_at_zero)
         (__init__ b64_close_grids) (0%float, 0%float) 5000 = Ok nearby
       /\ score_loop b64_close_grids
            (filter_by_services b64_close_grids nearby sample_services) = Ok scored
       /\ Permutation
            [b64_entry "eu-west-2" "London" 400.5; b64_entry "eu-west-1" "Ireland" 400]
            scored
       /\ forall x y,
            before x y scored ->
            sustainability_score x = sustainability_score y
            \/ (sustainability_score y <? sustainability_score x)%py = false ->
            before x y [b64_entry "eu-west-2" "London" 400.5;
                        b64_entry "eu-west-1" "Ireland" 400].
Proof.
  apply (@C1_ranking_sorted_and_stable float B64_float (B64_math libm_at_zero)
           (__init__ b64_close_grids) b64_close_grids (0%float, 0%float)
           sample_services 5000
           (b64_entry "eu-west-2" "London" 400.5)
           [b64_entry "eu-west-2" "London" 400.5; b64_entry "eu-west-1" "Ireland" 400]
           {| total_regions_evaluated := 2;
              nearby_regions_found := 2;
              service_compatible_regions := 2 |}).
  - vm_compute. reflexivity.
  - apply B64_strict_weak_on. repeat constructor.
Defined.

Lemma find_nearby_regions_inv (num : Type) (F : PyFloat num) (M : MathModule num)
      (self : GreenCloudAdvisor num) (loc : num * num) (maxd : Z)
      (nearby : list (RegionData num)) :
  find_nearby_regions self loc maxd = Ok nearby ->
  exists within : list (RegionData num * num),
    nearby_loop loc maxd (regions self) = Ok within
    /\ nearby = map fst (sorted snd within).
Proof.
  unfold find_nearby_regions.
  destruct (nearby_loop loc maxd (regions self)) as [within|e]; simpl; [|discriminate].
  intros [= <-]. now exists within.
Qed.






(** ** Exceptions leaving the pipeline *)

Section RaiseFacts.
Context {num : Type} `{PyFloat num}.
Implicit Types (w : World num) (self : GreenCloudAdvisor num).

Lemma score_region_raise_inv w (region : RegionData num) e :
  score_region w region = Raise e ->
  get_live_carbon_intensity w (code region) = Raise e.
Proof.
  destruct (get_live_carbon_intensity w (code region)) as [[lb mb]|e'] eqn:E.
  - now rewrite (score_region_ok _ _ E).
  - rewrite (score_region_raise _ _ E). now intros [= <-].
Qed.

Lemma score_loop_raise_inv w (rs : list (RegionData num)) e :
  score_loop w rs = Raise e ->
  exists region, In region rs /\ score_region w region = Raise e.
Proof.
  induction rs as [|r rs IH]; simpl; [discriminate|].
  destruct (score_region w r) as [entry|e0] eqn:E; simpl.
  - destruct (score_loop w rs) as [rest|e1]; simpl; [discriminate|].
    intros [= <-]. destruct (IH eq_refl) as (region & Hin & Hr). eauto.
  - intros [= <-]. eauto.
Qed.

(** The only exception that can leave [recommend_region] once the distance
    filter has returned is the one of a failed carbon-intensity fetch. *)
Lemma recommend_region_raise_inv `{MathModule num} self w loc required maxd nearby e :
  find_nearby_regions self loc maxd = Ok nearby ->
  recommend_region self w loc required maxd = Raise e ->
  exists region,
    In region (filter_by_services w nearby required)
    /\ get_live_carbon_intensity w (code region) = Raise e.
Proof.
  intros Hnear. unfold recommend_region. rewrite Hnear. cbn [bind].
  destruct nearby as [|r0 nearby0] eqn:En; [discriminate|]. rewrite <- En in *.
  destruct (filter_by_services w nearby required) as [|c0 comp0] eqn:Ec; [discriminate|].
  destruct (score_loop w (c0 :: comp0)) as [scored|e0] eqn:Es; cbn [bind].
  - destruct (sorted sustainability_score scored) as [|b rest] eqn:Eo; [|discriminate].
    apply sorted_nil_inv in Eo. subst scored.
    apply score_loop_ok in Es. inversion Es.
  - intros [= <-]. apply score_loop_raise_inv in Es as (region & Hin & Hr).
    exists region. split; [assumption|]. now apply score_region_raise_inv.
Qed.
End RaiseFacts.




(** C4 as stated fails: when no region offers the required services, the
    dict that comes back has the single key ["error"]; it carries no
    counters and no ranked sequence, although both regions passed the
    distance filter. *)
Lemma C4_counterexample :
  exists d : Recommendation R,
    recommend_region sample_advisor (sample_world none_available steady_grid)
      (0%R, 0%R) sample_services 5000 = Ok d
    /\ find_nearby_regions sample_advisor (0%R, 0%R) 5000 = Ok sample_catalog
    /\ List.length sample_catalog = 2%nat
    /\ d = ErrorDict no_compatible
    /\ keys d = ["error"%string]
    /\ get_analysis d = None
    /\ get_all_options d = None.
Proof.
  exists (ErrorDict no_compatible).
  split; [exact sample_run_unavailable|].
  split; [exact (sample_nearby 5000 origin_within_5000)|].
  repeat split; reflexivity.
Qed.

(** C4, amended. Once the distance filter has returned: when it leaves no
    region, [recommend_region] returns (it does not raise) the dict
    [{"error": "No regions found within specified distance"}]; when it
    leaves some region but the availability filter leaves none, it returns
    [{"error": "No regions support all required services"}].  The two
    messages differ.  Such a dict has the single key ["error"]: it holds
    neither the stage counters nor a ranked sequence. *)
Theorem C4_empty_stage_returns_error_dict :
  forall (num : Type) (F : PyFloat num) (M : MathModule num)
         (self : GreenCloudAdvisor num) (w : World num) (loc : num * num)
         (required : list string) (maxd : Z) (nearby : list (RegionData num)),
    find_nearby_regions self loc maxd = Ok nearby ->
    (nearby = [] ->
     recommend_region self w loc required maxd = Ok (ErrorDict no_nearby))
    /\ (nearby <> [] ->
        filter_by_services w nearby required = [] ->
        recommend_region self w loc required maxd = Ok (ErrorDict no_compatible))
    /\ no_nearby <> no_compatible
    /\ forall msg : string,
         keys (ErrorDict (num := num) msg) = ["error"%string]
         /\ get_error (ErrorDict (num := num) msg) = Some msg
         /\ get_analysis (ErrorDict (num := num) msg) = None
         /\ get_all_options (ErrorDict (num := num) msg) = None.
Proof.
  intros num F M self w loc required maxd nearby Hnear. split; [|split; [|split]].
  - intros ->. now apply recommend_region_no_nearby.
  - intros Hne Hc. eapply recommend_region_no_compatible; eassumption.
  - discriminate.
  - intros msg. repeat split.
Qed.

(** C4 at work: no region offers the services. *)
Lemma C4_empty_stage_returns_error_dict_witness :
  (sample_catalog = [] ->
   recommend_region sample_advisor (sample_world none_available steady_grid)
     (0%R, 0%R) sample_services 5000 = Ok (ErrorDict no_nearby))
  /\ (sample_catalog <> [] ->
      filter_by_services (sample_world none_available steady_grid)
        sample_catalog sample_services = [] ->
      recommend_region sample_advisor (sample_world none_available steady_grid)
        (0%R, 0%R) sample_services 5000 = Ok (ErrorDict no_compatible))
  /\ no_nearby <> no_compatible
  /\ forall msg : string,
       keys (ErrorDict (num := R) msg) = ["error"%string]
       /\ get_error (ErrorDict (num := R) msg) = Some msg
       /\ get_analysis (ErrorDict (num := R) msg) = None
       /\ get_all_options (ErrorDict (num := R) msg) = None.
Proof.
  apply (@C4_empty_stage_returns_error_dict R R_float R_math sample_advisor
           (sample_world none_available steady_grid) (0%R, 0%R) sample_services
           5000%Z sample_catalog).
  exact (sample_nearby 5000 origin_within_5000).
Defined.

(** C7 as stated fails: for the user location (91, 0), whose latitude is out
    of range, [recommend_region] rejects nothing; the distance filter runs,
    finds both regions within 30000 km, and the regions are ranked. *)
Lemma C7_counterexample :
  (90 < 91)%R
  /\ recommend_region sample_advisor (sample_world all_available steady_grid)
       (91%R, 0%R) sample_services 30000
     = Ok (ResultDict (sample_entry "eu-west-2" "London")
             [sample_entry "eu-west-2" "London"; sample_entry "eu-west-1" "Ireland"]
             {| total_regions_evaluated := 2;
                nearby_regions_found := 2;
                service_compatible_regions := 2 |}).
Proof.
  split; [lra|]. exact (sample_run 30000 lat_91_within_30000).
Qed.

(** ** Every way a call of [recommend_region] can end *)

Section Outcomes.
Context {num : Type} `{PyFloat num} `{MathModule num}.
Implicit Types (self : GreenCloudAdvisor num) (w : World num).

(** The loop of the distance filter ends with the exception of the first
    distance computation that raises, or returns regions of the catalog,
    each with the distance computed for it, which is within the maximum. *)
Lemma nearby_loop_outcome (user : num * num) (maxd : Z) (rs : list (RegionData num)) :
  (exists region e,
      In region rs
      /\ _calculate_distance user (location region) = Raise e
      /\ nearby_loop user maxd rs = Raise e)
  \/ (exists within,
         nearby_loop user maxd rs = Ok within
         /\ forall p,
              In p within ->
              In (fst p) rs
              /\ _calculate_distance user (location (fst p)) = Ok (snd p)
              /\ (snd p <=? of_int maxd)%py = true).
Proof.
  induction rs as [|r rs IH]; cbn [nearby_loop].
  - right. exists []. split; [reflexivity|]. intros p [].
  - destruct (_calculate_distance user (location r)) as [d|e] eqn:Hd; cbn [bind].
    + destruct IH as [(region & e & Hin & Hr & ->)|(within & -> & Hall)]; cbn [bind].
      * left. exists region, e. repeat split; [now right|assumption].
      * right. destruct (d <=? of_int maxd)%py eqn:Hle.
        -- exists ((r, d) :: within). split; [reflexivity|].
           intros p [<-|Hp].
           ++ cbn [fst snd]. repeat split; [now left|assumption|assumption].
           ++ destruct (Hall p Hp) as (Hin & Hdist & Hmax).
              repeat split; [now right|assumption|assumption].
        -- exists within. split; [reflexivity|].
           intros p Hp. destruct (Hall p Hp) as (Hin & Hdist & Hmax).
           repeat split; [now right|assumption|assumption].
    + left. exists r, e. repeat split; [now left|assumption].
Qed.

Lemma find_nearby_regions_outcome self (user : num * num) (maxd : Z) :
  (exists region e,
      In region (regions self)
      /\ _calculate_distance user (location region) = Raise e
      /\ find_nearby_regions self user maxd = Raise e)
  \/ (exists nearby,
         find_nearby_regions self user maxd = Ok nearby
         /\ forall region,
              In region nearby ->
              In region (regions self)
              /\ exists d,
                   _calculate_distance user (location region) = Ok d
                   /\ (d <=? of_int maxd)%py = true).
Proof.
  unfold find_nearby_regions.
  destruct (nearby_loop_outcome user maxd (regions self))
    as [(region & e & Hin & Hr & ->)|(within & -> & Hall)]; cbn [bind].
  - left. now exists region, e.
  - right. eexists. split; [reflexivity|]. intros region Hin.
    apply in_map_iff in Hin as ([r d] & <- & Hp). apply sorted_In in Hp.
    destruct (Hall _ Hp) as (Hr & Hd & Hle). cbn [fst snd] in *.
    split; [assumption|]. now exists d.
Qed.

Lemma recommend_region_outcome self w (user : num * num)
      (required : list string) (maxd : Z) :
  (exists region e,
      In region (regions self)
      /\ _calculate_distance user (location region) = Raise e
      /\ recommend_region self w user required maxd = Raise e)
  \/ (exists nearby,
         find_nearby_regions self user maxd = Ok nearby
         /\ (forall region,
                In region nearby ->
                In region (regions self)
                /\ exists d,
                     _calculate_distance user (location region) = Ok d
                     /\ (d <=? of_int maxd)%py = true)
         /\ ((nearby = []
              /\ recommend_region self w user required maxd = Ok (ErrorDict no_nearby))
             \/ (nearby <> []
                 /\ filter_by_services w nearby required = []
                 /\ recommend_region self w user required maxd
                    = Ok (ErrorDict no_compatible))
             \/ (exists region e,
                    In region (filter_by_services w nearby required)
                    /\ get_live_carbon_intensity w (code region) = Raise e
                    /\ recommend_region self w user required maxd = Raise e)
             \/ (exists best opts an,
                    recommend_region self w user required maxd
                    = Ok (ResultDict best opts an)))).
Proof.
  destruct (find_nearby_regions_outcome self user maxd)
    as [(region & e & Hin & Hr & Hfind)|(nearby & Hfind & Hall)].
  - left. exists region, e. repeat split; try assumption.
    unfold recommend_region. now rewrite Hfind.
  - right. exists nearby. split; [assumption|]. split; [assumption|].
    destruct nearby as [|r0 nearby0] eqn:En.
    { left. split; [reflexivity|]. now apply recommend_region_no_nearby. }
    rewrite <- En in *. right.
    destruct (filter_by_services w nearby required) as [|c0 comp0] eqn:Ec.
    { left. split; [subst; discriminate|]. split; [reflexivity|].
      eapply recommend_region_no_compatible; [eassumption|subst; discriminate|assumption]. }
    right.
    destruct (score_loop w (filter_by_services w nearby required)) as [scored|e] eqn:Es.
    + right. edestruct recommend_region_scored as (best & _ & Hrun);
        [exact Hfind|rewrite Ec; discriminate|exact Es|].
      eexists _, _, _. exact Hrun.
    + left. pose proof Es as Hraise.
      apply score_loop_raise_inv in Hraise as (region & Hin & Hr).
      exists region, e. rewrite <- Ec. split; [assumption|].
      split; [now apply score_region_raise_inv|].
      eapply recommend_region_score_raise; eassumption.
Qed.
End Outcomes.

(** In binary64 an infinite user latitude makes the first call of
    [math.sin] raise, for every C library whose [sin] answers NaN at an
    infinite argument, as the C standard prescribes. *)
Lemma B64_distance_from_infinity (libm : Libm) :
  PrimFloat.is_nan (c_sin libm neg_infinity) = true ->
  @_calculate_distance float B64_float (B64_math libm)
    (infinity, 0%float) (of_int 0, of_int 0)
  = Raise domain_error.
Proof.
  intros Hnan. unfold _calculate_distance.
  cbn [fst snd math_radians math_sin B64_math].
  match goal with
  | |- context [math_1 (c_sin libm) ?x] =>
      replace x with neg_infinity by (vm_compute; reflexivity)
  end.
  unfold math_1 at 1. cbv zeta. rewrite Hnan. reflexivity.
Qed.

(** C7, amended. [recommend_region] validates no coordinate: for every user
    location, in range or not, the first thing done with it is to compute
    its distance to the regions of the catalog, and the call ends in one of
    five ways: with the exception of a distance computation; with the dict
    ["No regions found within specified distance"]; with the dict
    ["No regions support all required services"]; with the exception of a
    failed carbon-intensity fetch for a region that passed both filters; or
    with a ranking.  No other exception or error exists.  Over the reals
    the distance computation never raises, and the regions found are
    exactly the catalog regions whose haversine distance from the given
    numbers is within the maximum; in binary64 an infinite latitude makes
    [recommend_region] raise [ValueError] from [math.sin] on every catalog
    as [get_aws_regions] builds it that is not empty. *)
Theorem C7_user_location_is_not_validated :
  (forall (num : Type) (F : PyFloat num) (M : MathModule num)
          (self : GreenCloudAdvisor num) (w : World num) (user : num * num)
          (required : list string) (maxd : Z),
      (exists region e,
          In region (regions self)
          /\ _calculate_distance user (location region) = Raise e
          /\ recommend_region self w user required maxd = Raise e)
      \/ (exists nearby,
             find_nearby_regions self user maxd = Ok nearby
             /\ (forall region,
                    In region nearby ->
                    In region (regions self)
                    /\ exists d,
                         _calculate_distance user (location region) = Ok d
                         /\ (d <=? of_int maxd)%py = true)
             /\ ((nearby = []
                  /\ recommend_region self w user required maxd
                     = Ok (ErrorDict no_nearby))
                 \/ (nearby <> []
                     /\ filter_by_services w nearby required = []
                     /\ recommend_region self w user required maxd
                        = Ok (ErrorDict no_compatible))
                 \/ (exists region e,
                        In region (filter_by_services w nearby required)
                        /\ get_live_carbon_intensity w (code region) = Raise e
                        /\ recommend_region self w user required maxd = Raise e)
                 \/ (exists best opts an,
                        recommend_region self w user required maxd
                        = Ok (ResultDict best opts an)))))
  /\ (forall (self : GreenCloudAdvisor R) (user : R * R) (maxd : Z),
       exists nearby : list (RegionData R),
         find_nearby_regions self user maxd = Ok nearby
         /\ forall region,
              In region nearby <->
              In region (regions self)
              /\ (distance_R user (location region) <= IZR maxd)%R)
  /\ (forall (libm : Libm) (described : list string) (w : World float)
             (required : list string) (maxd : Z),
         described <> [] ->
         PrimFloat.is_nan (c_sin libm neg_infinity) = true ->
         @recommend_region float B64_float (B64_math libm)
           {| regions := get_aws_regions described |} w
           (infinity, 0%float) required maxd
         = Raise (ValueError "math domain error")).
Proof.
  split; [|split].
  - intros num F M self w user required maxd. apply recommend_region_outcome.
  - intros self user maxd. apply find_nearby_regions_R.
  - intros libm described w required maxd Hne Hnan.
    destruct described as [|region_name rest]; [contradiction|].
    unfold recommend_region, find_nearby_regions.
    cbn [regions get_aws_regions map nearby_loop location].
    now rewrite (B64_distance_from_infinity libm Hnan).
Qed.

(** C7 at work in binary64: the sample C library answers NaN at an
    infinite argument, and the latitude infinity raises. *)
Lemma C7_user_location_is_not_validated_witness :
  @recommend_region float B64_float (B64_math libm_at_zero)
    {| regions := get_aws_regions ["eu-west-2"; "eu-west-1"]%string |} b64_close_grids
    (infinity, 0%float) sample_services 5000
  = Raise (ValueError "math domain error").
Proof.
  apply (proj2 (proj2 C7_user_location_is_not_validated) libm_at_zero
           ["eu-west-2"; "eu-west-1"]%string b64_close_grids sample_services 5000%Z).
  - discriminate.
  - reflexivity.
Defined.





(** * More of the code *)

(** ** The catalog and the distance filter *)

Section CatalogFacts.
Context {num : Type} `{PyFloat num} `{MathModule num}.
Implicit Types (self : GreenCloudAdvisor num) (rs : list (RegionData num)).

(** The loop keeps regions of the catalog only, each at most once per
    occurrence. *)
Lemma nearby_loop_sub (user : num * num) (maxd : Z) rs within :
  nearby_loop user maxd rs = Ok within ->
  (List.length within <= List.length rs)%nat
  /\ forall p, In p within -> In (fst p) rs.
Proof.
  revert within. induction rs as [|r rs IH]; cbn [nearby_loop]; intros within.
  - intros [= <-]. split; [reflexivity|]. intros p [].
  - destruct (_calculate_distance user (location r)) as [d|e]; cbn [bind]; [|discriminate].
    destruct (nearby_loop user maxd rs) as [rest|e]; cbn [bind]; [|discriminate].
    destruct (IH rest eq_refl) as [Hlen Hin].
    destruct (d <=? of_int maxd)%py; intros [= <-]; cbn [List.length]; split.
    + lia.
    + intros p [<- | Hp]; [now left|]. right. now apply Hin.
    + lia.
    + intros p Hp. right. now apply Hin.
Qed.

(** Regions that all sit at one point [p]: one distance decides for all. *)
Lemma nearby_loop_one_point (user p : num * num) (maxd : Z) rs :
  (forall region, In region rs -> location region = p) ->
  rs <> [] ->
  nearby_loop user maxd rs
  = (d <- _calculate_distance user p ;;
     Ok (if (d <=? of_int maxd)%py then map (fun region => (region, d)) rs else []))%py.
Proof.
  intros Hp Hne. induction rs as [|r rs IH]; [contradiction|].
  cbn [nearby_loop]. rewrite (Hp r) by now left.
  destruct (_calculate_distance user p) as [d|e] eqn:Hd; cbn [bind]; [|reflexivity].
  destruct rs as [|r' rs].
  - cbn [nearby_loop bind map]. now destruct (d <=? of_int maxd)%py.
  - rewrite IH; [|intros; apply Hp; now right|discriminate].
    cbn [bind]. now destruct (d <=? of_int maxd)%py.
Qed.

Lemma get_aws_regions_codes (described : list string) :
  map code (get_aws_regions (num := num) described) = described.
Proof.
  unfold get_aws_regions. rewrite map_map. cbn [code]. apply map_id.
Qed.

Lemma get_aws_regions_origin (described : list string) (region : RegionData num) :
  In region (get_aws_regions described) -> location region = (of_int 0, of_int 0).
Proof.
  unfold get_aws_regions. rewrite in_map_iff. now intros (n & <- & _).
Qed.
End CatalogFacts.

(** X1. With the catalog as [get_aws_regions] builds it (every region at
    [(0.0, 0.0)]) the distance filter is all or nothing: one distance, from
    the user location to [(0.0, 0.0)], is computed for every region, and
    [find_nearby_regions] returns the whole catalog in catalog order when
    that distance is within the maximum and the empty list otherwise (or
    raises what the distance computation raises). *)
Theorem X1_built_catalog_filter_is_all_or_nothing :
  forall (num : Type) (F : PyFloat num) (M : MathModule num)
         (described : list string) (user : num * num) (maxd : Z),
    lt_irrefl (num := num) ->
    described <> [] ->
    find_nearby_regions {| regions := get_aws_regions described |} user maxd
    = (d <- _calculate_distance user (of_int 0, of_int 0) ;;
       Ok (if (d <=? of_int maxd)%py then get_aws_regions described else []))%py.
Proof.
  intros num F M described user maxd Hirr Hne.
  unfold find_nearby_regions. cbn [regions].
  rewrite (@nearby_loop_one_point num F M user (of_int 0, of_int 0)).
  - destruct (_calculate_distance user (of_int 0, of_int 0)) as [d|e]; cbn [bind];
      [|reflexivity].
    destruct (d <=? of_int maxd)%py; [|reflexivity].
    rewrite (@sorted_const num F _ snd d).
    + rewrite map_map. cbn [fst]. now rewrite map_id.
    + apply Hirr.
    + intros x Hx. apply in_map_iff in Hx as (r & <- & _). reflexivity.
  - intros region. apply get_aws_regions_origin.
  - destruct described; [contradiction|discriminate].
Qed.

(** X1 at work over the reals: London is asked about, two regions are
    described. *)
Lemma X1_built_catalog_filter_is_all_or_nothing_witness :
  find_nearby_regions
    {| regions := get_aws_regions ["eu-west-2"; "eu-west-1"]%string |}
    (51.5074%R, (-0.1278)%R) 6000
  = (d <- _calculate_distance (51.5074%R, (-0.1278)%R) (of_int 0, of_int 0) ;;
     Ok (if (d <=? of_int 6000)%py
         then get_aws_regions ["eu-west-2"; "eu-west-1"]%string else []))%py.
Proof.
  apply (@X1_built_catalog_filter_is_all_or_nothing R R_float R_math
           ["eu-west-2"; "eu-west-1"]%string (51.5074%R, (-0.1278)%R) 6000%Z).
  - exact R_lt_irrefl.
  - discriminate.
Defined.

Section RealNearbyOrder.
Local Open Scope R_scope.
Implicit Types (self : GreenCloudAdvisor R) (rs : list (RegionData R)).




End RealNearbyOrder.


(** X3. Over the reals, widening the search radius never loses a region:
    every region [find_nearby_regions] returns for a maximum distance is
    also returned for any larger one. *)
Theorem X3_larger_radius_keeps_regions :
  forall (self : GreenCloudAdvisor R) (user : R * R) (maxd1 maxd2 : Z)
         (nearby1 : list (RegionData R)),
    (maxd1 <= maxd2)%Z ->
    find_nearby_regions self user maxd1 = Ok nearby1 ->
    exists nearby2,
      find_nearby_regions self user maxd2 = Ok nearby2
      /\ forall region, In region nearby1 -> In region nearby2.
Proof.
  intros self user maxd1 maxd2 nearby1 Hle H1.
  destruct (find_nearby_regions_R self user maxd1) as (n1 & E1 & Hin1).
  destruct (find_nearby_regions_R self user maxd2) as (n2 & E2 & Hin2).
  rewrite E1 in H1. injection H1 as <-.
  exists n2. split; [assumption|]. intros region Hr.
  apply Hin1 in Hr as [Hcat Hd]. apply Hin2. split; [assumption|].
  apply IZR_le in Hle. lra.
Qed.

(** X3 at work: the sample catalog seen from the origin, 5000 km then
    6000 km. *)
Lemma X3_larger_radius_keeps_regions_witness :
  exists nearby2,
    find_nearby_regions sample_advisor (0%R, 0%R) 6000 = Ok nearby2
    /\ forall region, In region sample_catalog -> In region nearby2.
Proof.
  apply (@X3_larger_radius_keeps_regions sample_advisor (0%R, 0%R) 5000%Z 6000%Z
           sample_catalog).
  - lia.
  - exact (sample_nearby 5000 origin_within_5000).
Defined.

(** ** The availability filter as an operation *)

(** X4. For a given behaviour of the availability check,
    [filter_by_services] with the requirements [req1 ++ req2] is
    [filter_by_services] with [req1] followed by [filter_by_services] with
    [req2]; and the result depends on the required services as a set only:
    their order and repetitions do not matter. *)
Theorem X4_filter_by_services_composes :
  forall (num : Type) (F : PyFloat num) (w : World num)
         (rs : list (RegionData num)) (req1 req2 : list string),
    filter_by_services w rs (req1 ++ req2)
    = filter_by_services w (filter_by_services w rs req1) req2
    /\ ((forall service, In service req1 <-> In service req2) ->
        filter_by_services w rs req1 = filter_by_services w rs req2).
Proof.
  intros num F w rs req1 req2. split.
  - unfold filter_by_services, supports_all.
    induction rs as [|r rs IH]; [reflexivity|].
    cbn [filter]. rewrite forallb_app.
    destruct (forallb _ req1); cbn [andb filter].
    + destruct (forallb _ req2); now rewrite IH.
    + exact IH.
  - intros Hsame. unfold filter_by_services. apply filter_ext. intros r.
    unfold supports_all.
    destruct (forallb _ req1) eqn:E1; destruct (forallb _ req2) eqn:E2;
      try reflexivity; exfalso.
    + rewrite forallb_forall in E1.
      assert (E : forallb (fun service => check_service_availability w (code r) service)
                    req2 = true).
      { apply forallb_forall. intros s Hs. apply E1. now apply Hsame. }
      congruence.
    + rewrite forallb_forall in E2.
      assert (E : forallb (fun service => check_service_availability w (code r) service)
                    req1 = true).
      { apply forallb_forall. intros s Hs. apply E2. now apply Hsame. }
      congruence.
Qed.

(** X4 at work: ["s3"; "rds"; "s3"] and ["rds"; "s3"] select the same
    regions. *)
Lemma X4_filter_by_services_composes_witness :
  filter_by_services (sample_world rds_check_raises steady_grid) sample_catalog
    ["s3"; "rds"; "s3"]%string
  = filter_by_services (sample_world rds_check_raises steady_grid) sample_catalog
      ["rds"; "s3"]%string.
Proof.
  apply (proj2 (@X4_filter_by_services_composes R R_float
                  (sample_world rds_check_raises steady_grid) sample_catalog
                  ["s3"; "rds"; "s3"]%string ["rds"; "s3"]%string)).
  intros service. simpl. tauto.
Defined.

(** ** The counters of a recommendation *)

(** X5. Whenever [recommend_region] returns a ranking: the ranking is not
    empty and its first entry is the recommended region; the counter
    [service_compatible_regions] is the length of the ranking; the counters
    are ordered, compatible <= nearby <= total; and every ranked region
    code is the code of a catalog region. *)
Theorem X5_recommendation_counters :
  forall (num : Type) (F : PyFloat num) (M : MathModule num)
         (self : GreenCloudAdvisor num) (w : World num) (loc : num * num)
         (required : list string) (maxd : Z)
         (best : ScoredRegion num) (opts : list (ScoredRegion num)) (an : Analysis),
    recommend_region self w loc required maxd = Ok (ResultDict best opts an) ->
    hd_error opts = Some best
    /\ total_regions_evaluated an = List.length (regions self)
    /\ service_compatible_regions an = List.length opts
    /\ (1 <= service_compatible_regions an)%nat
    /\ (service_compatible_regions an <= nearby_regions_found an)%nat
    /\ (nearby_regions_found an <= total_regions_evaluated an)%nat
    /\ forall entry, In entry opts -> In (region_code entry) (map code (regions self)).
Proof.
  intros num F M self w loc required maxd best opts an Hrun.
  apply recommend_region_result in Hrun
    as (nearby & scored & Hnear & Hscore & -> & Hbest & ->).
  apply find_nearby_regions_inv in Hnear as (within & Hloop & ->).
  destruct (nearby_loop_sub _ _ _ Hloop) as [Hlen Hsub].
  pose proof (score_loop_codes _ _ Hscore) as Hcodes.
  assert (Hlc : List.length scored
                = List.length (filter_by_services w (map fst (sorted snd within)) required)).
  { rewrite <- (length_map region_code), Hcodes. apply length_map. }
  cbn [total_regions_evaluated service_compatible_regions nearby_regions_found].
  rewrite sorted_length, length_map, sorted_length.
  split; [assumption|]. split; [reflexivity|]. split; [now rewrite Hlc|]. split.
  - rewrite <- Hlc. destruct scored; [discriminate Hbest|cbn; lia].
  - split.
    + unfold filter_by_services.
      etransitivity; [apply filter_length_le|]. now rewrite length_map, sorted_length.
    + split; [assumption|]. intros entry Hentry. apply sorted_In in Hentry.
      apply (in_map region_code) in Hentry. rewrite Hcodes in Hentry.
      apply in_map_iff in Hentry as (r & <- & Hr).
      apply filter_by_services_In in Hr as [Hr _].
      apply in_map_iff in Hr as (p & <- & Hp). apply sorted_In in Hp.
      apply in_map. now apply Hsub.
Qed.

(** X5 at work on the sample run. *)
Lemma X5_recommendation_counters_witness :
  hd_error [sample_entry "eu-west-2" "London"; sample_entry "eu-west-1" "Ireland"]
  = Some (sample_entry "eu-west-2" "London")
  /\ 2%nat = List.length (regions sample_advisor)
  /\ 2%nat = List.length [sample_entry "eu-west-2" "London";
                          sample_entry "eu-west-1" "Ireland"]
  /\ (1 <= 2)%nat /\ (2 <= 2)%nat /\ (2 <= 2)%nat
  /\ forall entry,
       In entry [sample_entry "eu-west-2" "London"; sample_entry "eu-west-1" "Ireland"] ->
       In (region_code entry) (map code (regions sample_advisor)).
Proof.
  apply (@X5_recommendation_counters R R_float R_math sample_advisor
           (sample_world all_available steady_grid) (0%R, 0%R) sample_services 5000%Z
           (sample_entry "eu-west-2" "London")
           [sample_entry "eu-west-2" "London"; sample_entry "eu-west-1" "Ireland"]
           {| total_regions_evaluated := 2;
              nearby_regions_found := 2;
              service_compatible_regions := 2 |}).
  exact (sample_run 5000 origin_within_5000).
Defined.

(** ** Rounded scores over the reals *)

Section RealRounding.
Local Open Scope R_scope.




End RealRounding.





(** ** The zone of a region and the errors of the fetch *)

Section ZoneFacts.
Context {num : Type} `{PyFloat num}.

Lemma dict_get_In (d : list (string * string)) (k v : string) :
  dict_get d k = Some v -> In (k, v) d.
Proof.
  unfold dict_get. destruct (find _ d) as [[k' v']|] eqn:E; [|discriminate].
  cbn. intros [= <-]. apply find_some in E as [Hin Hk]. cbn in Hk.
  apply String.eqb_eq in Hk. now subst.
Qed.

Lemma base_mapping_zone_not_empty (k z : string) :
  dict_get base_mapping k = Some z -> z <> ""%string.
Proof.
  intros E. apply dict_get_In in E.
  assert (Hall : forallb (fun kv => negb (String.eqb (snd kv) "")) base_mapping = true)
    by reflexivity.
  rewrite forallb_forall in Hall. specialize (Hall _ E). cbn in Hall.
  intros ->. discriminate.
Qed.

Lemma region_mapping_get (w : World num) (rc : string) :
  dict_get (_create_region_mapping w) rc
  = if existsb (fun region => String.eqb (code region) rc) (cached_regions w)
    then Some (match dict_get base_mapping rc with
               | Some zone => zone
               | None => "DE"%string
               end)
    else None.
Proof.
  unfold _create_region_mapping, dict_get at 1.
  induction (cached_regions w) as [|r rs IH]; [reflexivity|].
  cbn [map find fst existsb]. destruct (String.eqb (code r) rc) eqn:E.
  - apply String.eqb_eq in E. subst rc. reflexivity.
  - exact IH.
Qed.
End ZoneFacts.

(** X8. The zone [get_live_carbon_intensity] asks the grid API about is the
    base mapping's zone when the region code is both in the cached catalog
    and in the base mapping, and ['DE'] in every other case: for a cached
    region the base mapping does not know, and for any code that is not in
    the cached catalog, even one the base mapping knows.  The zone is never
    empty. *)
Theorem X8_zone_of_a_region :
  forall (num : Type) (F : PyFloat num) (w : World num) (rc : string),
    zone_for (_create_region_mapping w) rc
    = (if existsb (fun region => String.eqb (code region) rc) (cached_regions w)
       then match dict_get base_mapping rc with
            | Some zone => zone
            | None => "DE"%string
            end
       else "DE"%string)
    /\ zone_for (_create_region_mapping w) rc <> ""%string.
Proof.
  intros num F w rc.
  assert (E : zone_for (_create_region_mapping w) rc
              = (if existsb (fun region => String.eqb (code region) rc) (cached_regions w)
                 then match dict_get base_mapping rc with
                      | Some zone => zone
                      | None => "DE"%string
                      end
                 else "DE"%string)).
  { unfold zone_for. rewrite region_mapping_get.
    destruct (existsb _ (cached_regions w)); [|reflexivity].
    destruct (dict_get base_mapping rc) as [z|] eqn:Ez; [|reflexivity].
    destruct (String.eqb z "") eqn:Ee; [|reflexivity].
    apply String.eqb_eq in Ee. now apply base_mapping_zone_not_empty in Ez. }
  split; [exact E|]. rewrite E.
  destruct (existsb _ (cached_regions w)); [|discriminate].
  destruct (dict_get base_mapping rc) as [z|] eqn:Ez; [|discriminate].
  now apply base_mapping_zone_not_empty in Ez.
Qed.

(** ** The region cache *)

Section RegionCache.
Context {num : Type} `{PyFloat num}.

(** [AWSRegionsFetcher.get_aws_regions] with the module-level list
    [_cached_regions] made explicit: from the cache before the call, and
    what [describe_regions] answers if it is asked, to the value returned
    and the cache after the call.  The API is asked only when the cache is
    empty ([if not _cached_regions]). *)
Definition get_aws_regions_cached (cache : list (RegionData num))
           (describe_regions : result (list string))
  : result (list (RegionData num)) * list (RegionData num) :=
  match cache with
  | [] =>
      match describe_regions with
      | Ok names => let fetched := get_aws_regions names in (Ok fetched, fetched)
      | Raise e => (Raise e, [])
      end
  | _ :: _ => (Ok cache, cache)
  end.
End RegionCache.

(** X10. Once a call of [get_aws_regions] has returned a catalog that is
    not empty, every later call returns that same catalog without asking
    the API, whatever the API would answer by then (an error included).  A
    fetch that fails or returns no region is not remembered: the cache is
    empty after the call exactly when the call raised or returned the empty
    list. *)
Theorem X10_region_cache_is_filled_once :
  forall (num : Type) (F : PyFloat num) (cache : list (RegionData num))
         (answer later_answer : result (list string)),
    (forall catalog,
        fst (get_aws_regions_cached cache answer) = Ok catalog ->
        catalog <> [] ->
        get_aws_regions_cached (snd (get_aws_regions_cached cache answer)) later_answer
        = (Ok catalog, catalog))
    /\ (snd (get_aws_regions_cached cache answer) = [] <->
        (exists e, fst (get_aws_regions_cached cache answer) = Raise e)
        \/ fst (get_aws_regions_cached cache answer) = Ok []).
Proof.
  intros num F cache answer later. unfold get_aws_regions_cached. split.
  - intros catalog. destruct cache as [|r cache].
    + destruct answer as [names|e]; cbn [fst snd]; [|discriminate].
      intros [= <-] Hne. now destruct (get_aws_regions names).
    + cbn [fst snd]. now intros [= <-] _.
  - destruct cache as [|r cache].
    + destruct answer as [names|e]; cbn [fst snd].
      * split; [intros ->; now right|]. intros [[e He]|[= ->]]; [discriminate|reflexivity].
      * split; [eauto|reflexivity].
    + cbn [fst snd]. split; [discriminate|]. intros [[e He]|He]; discriminate.
Qed.

(** X10 at work: two regions are fetched, then the API is down. *)
Lemma X10_region_cache_is_filled_once_witness :
  get_aws_regions_cached
    (snd (get_aws_regions_cached (num := R) [] (Ok ["eu-west-2"; "eu-west-1"]%string)))
    (Raise (Exception "EndpointConnectionError"))
  = (Ok sample_catalog, sample_catalog).
Proof.
  apply (proj1 (@X10_region_cache_is_filled_once R R_float []
                  (Ok ["eu-west-2"; "eu-west-1"]%string)
                  (Raise (Exception "EndpointConnectionError")))).
  - reflexivity.
  - discriminate.
Defined.

(** ** The fetch and the region cache *)

Section CachedFetch.
Context {num : Type} `{PyFloat num}.

(** The world in which [get_aws_regions()] returns [regions]. *)
Definition with_regions (w : World num) (regions : list (RegionData num)) : World num :=
  {| cached_regions := regions;
     check_aws_service_availability_live := check_aws_service_availability_live w;
     read_api_token := read_api_token w;
     requests_get_json := requests_get_json w |}.

(** [get_live_carbon_intensity(region_code)] from the region cache as it
    stands: the first statement, [_create_region_mapping()], calls
    [AWSRegionsFetcher().get_aws_regions()] outside the [try]; on an empty
    cache that call asks boto3, and its exception leaves the function as it
    is.  The value returned and the cache after the call. *)
Definition get_live_carbon_intensity_cached (cache : list (RegionData num))
           (describe_regions : result (list string)) (w : World num)
           (region_code : string)
  : result (num * num) * list (RegionData num) :=
  match get_aws_regions_cached cache describe_regions with
  | (Ok regions, cache') =>
      (get_live_carbon_intensity (with_regions w regions) region_code, cache')
  | (Raise e, cache') => (Raise e, cache')
  end.
End CachedFetch.

(** X9. Every exception that leaves [get_live_carbon_intensity] is one of
    three: the exception of the region fetch, unchanged, which can happen
    only when the region cache is empty and boto3 is asked; the exception
    raised while reading the [config] file, unchanged; or an [Exception]
    whose message is "Failed to fetch carbon intensity for ", the region
    code, ": " and the text of the original error (a missing token line
    and a failed request alike). *)
Theorem X9_fetch_errors_name_the_region :
  forall (num : Type) (F : PyFloat num) (cache : list (RegionData num))
         (describe_regions : result (list string)) (w : World num)
         (rc : string) (e : exn),
    fst (get_live_carbon_intensity_cached cache describe_regions w rc) = Raise e ->
    (cache = [] /\ describe_regions = Raise e)
    \/ (exists regions,
           fst (get_aws_regions_cached cache describe_regions) = Ok regions
           /\ (read_api_token w = Raise e
               \/ exists cause,
                    e = Exception ("Failed to fetch carbon intensity for " ++ rc ++ ": "
                                     ++ str cause)
                    /\ (read_api_token w = Ok None
                        \/ exists api_token,
                             read_api_token w = Ok (Some api_token)
                             /\ requests_get_json w
                                  (zone_for (_create_region_mapping
                                               (with_regions w regions)) rc)
                                  api_token = Raise cause))).
Proof.
  intros num F cache describe w rc e. unfold get_live_carbon_intensity_cached.
  destruct (get_aws_regions_cached cache describe) as [[regions|e0] cache'] eqn:Eregions;
    cbn [fst].
  - intros Hraise. right. exists regions. split; [reflexivity|].
    revert Hraise. unfold get_live_carbon_intensity. cbn [read_api_token with_regions
      requests_get_json].
    destruct (read_api_token w) as [[tok|]|e1]; cbn [bind].
    + destruct (requests_get_json w (zone_for (_create_region_mapping
                                                 (with_regions w regions)) rc) tok)
        as [data|cause] eqn:E; cbn [bind]; [discriminate|].
      intros [= <-]. right. exists cause. split; [reflexivity|]. right. now exists tok.
    + intros [= <-]. right.
      exists (UnboundLocalError
                "cannot access local variable 'api_token' where it is not associated with a value").
      split; [reflexivity|]. now left.
    + intros [= <-]. now left.
  - intros [= <-]. left. unfold get_aws_regions_cached in Eregions.
    destruct cache as [|r cache]; [|discriminate].
    destruct describe as [names|e1]; [discriminate|].
    injection Eregions as <- _. now split.
Qed.

(** X9 at work: the cache is empty and boto3 finds no credentials. *)
Lemma X9_fetch_errors_name_the_region_witness :
  ((@nil (RegionData R)) = []
   /\ Raise (A := list string) (Exception "Unable to locate credentials")
      = Raise (Exception "Unable to locate credentials"))
  \/ (exists regions,
         fst (get_aws_regions_cached (num := R) []
                (Raise (Exception "Unable to locate credentials"))) = Ok regions
         /\ (read_api_token (sample_world all_available steady_grid)
             = Raise (Exception "Unable to locate credentials")
             \/ exists cause,
                  Exception "Unable to locate credentials"
                  = Exception ("Failed to fetch carbon intensity for " ++ "eu-west-1"
                                 ++ ": " ++ str cause)
                  /\ (read_api_token (sample_world all_available steady_grid) = Ok None
                      \/ exists api_token,
                           read_api_token (sample_world all_available steady_grid)
                           = Ok (Some api_token)
                           /\ requests_get_json (sample_world all_available steady_grid)
                                (zone_for (_create_region_mapping
                                             (with_regions
                                                (sample_world all_available steady_grid)
                                                regions)) "eu-west-1")
                                api_token = Raise cause))).
Proof.
  apply (@X9_fetch_errors_name_the_region R R_float []
           (Raise (Exception "Unable to locate credentials"))
           (sample_world all_available steady_grid) "eu-west-1"%string
           (Exception "Unable to locate credentials")).
  reflexivity.
Defined.

(** ** The command-line entry point *)

From Stdlib Require DecimalString.

(** [str(n)] for a non-negative [int]. *)
Definition str_int (n : nat) : string :=
  DecimalString.NilZero.string_of_uint (Nat.to_uint n).

(** The newline character. *)
Definition nl : string := String (ascii_of_nat 10) EmptyString.

Section Main.
Context {num : Type} `{PyFloat num} `{MathModule num}.

(** [str(x)] for a float [x], as an f-string inserts it. *)
Variable str_float : num -> string.

(** The values of the dict of one scored region. *)
Inductive pyval : Type :=
| VStr (s : string)
| VFloat (x : num).

(** [d.get(key)] on the dict of a scored region: it has the five keys
    [recommend_region] gives it and no other. *)
Definition scored_get (d : ScoredRegion num) (key : string) : option pyval :=
  if String.eqb key "region_code" then Some (VStr (region_code d))
  else if String.eqb key "region_name" then Some (VStr (region_name d))
  else if String.eqb key "location_based_intensity"
       then Some (VFloat (location_based_intensity d))
  else if String.eqb key "market_based_intensity"
       then Some (VFloat (market_based_intensity d))
  else if String.eqb key "sustainability_score"
       then Some (VFloat (sustainability_score d))
  else None.

(** A piece of an f-string: literal text, or [{d['key']}]. *)
Inductive piece : Type :=
| Lit (text : string)
| Item (d : ScoredRegion num) (key : string).

(** The text of an f-string, its pieces evaluated left to right; [inr key]
    when [d[key]] raises [KeyError(key)]. *)
Fixpoint fstring (pieces : list piece) : string + string :=
  match pieces with
  | [] => inl ""%string
  | Lit text :: rest =>
      match fstring rest with
      | inl tail => inl (text ++ tail)%string
      | inr key => inr key
      end
  | Item d key :: rest =>
      match scored_get d key with
      | None => inr key
      | Some v =>
          match fstring rest with
          | inl tail =>
              inl ((match v with VStr s => s | VFloat x => str_float x end) ++ tail)%string
          | inr key' => inr key'
          end
      end
  end.

(** How [main] ends. *)
Inductive main_end : Type :=
| Returned
| KeyError (key : string)
| Raised (e : exn).

(** [print(f"...")] for each f-string in turn: what was printed, and the
    key of the first [KeyError], if any. *)
Fixpoint print_all (lines : list (list piece)) : list string * option string :=
  match lines with
  | [] => ([], None)
  | line :: rest =>
      match fstring line with
      | inr key => ([], Some key)
      | inl text =>
          let '(printed, failure) := print_all rest in (text :: printed, failure)
      end
  end.

Definition banner : string :=
  ("🌱 GreenCloud Advisor - AWS Sustainability Recommender" ++ nl)%string.

(** The [print] calls of [main] after a ranking was returned. *)
Definition report_lines (best : ScoredRegion num) (all_options : list (ScoredRegion num))
           (analysis : Analysis) : list (list piece) :=
  [ [Lit "🏆 RECOMMENDED REGION: "; Item best "region_name"; Lit " (";
     Item best "region_code"; Lit ")"];
    [Lit "📍 Distance: "; Item best "distance_km"; Lit " km"];
    [Lit "🌍 Location-based: "; Item best "location_based_intensity"; Lit " kg CO2e/kWh"];
    [Lit "🌱 Market-based: "; Item best "market_based_intensity"; Lit " kg CO2e/kWh"];
    [Lit "⭐ Sustainability Score: "; Item best "sustainability_score"];
    [Lit (nl ++ "📊 ANALYSIS:")];
    [Lit "• Evaluated "; Lit (str_int (total_regions_evaluated analysis));
     Lit " total regions"];
    [Lit "• Found "; Lit (str_int (nearby_regions_found analysis)); Lit " nearby regions"];
    [Lit "• "; Lit (str_int (service_compatible_regions analysis));
     Lit " regions support your services"];
    [Lit (nl ++ "🔍 ALL OPTIONS:")] ]%string
  ++ map (fun '(i, option) =>
            [Lit (str_int i); Lit ". "; Item option "region_name"; Lit " - Score: ";
             Item option "sustainability_score"; Lit " ("; Item option "distance_km";
             Lit " km)"]%string)
         (combine (seq 1 (List.length all_options)) all_options).

(** [main()], with the float literal pair [(51.5074, -0.1278)] passed in as
    [london_location]: the lines printed, in order, and how it ends. *)
Definition main (w : World num) (london_location : num * num)
  : list string * main_end :=
  let advisor := __init__ w in
  match recommend_region advisor w london_location ["ec2"; "s3"; "rds"]%string 6000 with
  | Raise e => ([banner], Raised e)
  | Ok (ErrorDict error) => ([banner; ("❌ " ++ error)%string], Returned)
  | Ok (ResultDict best all_options analysis) =>
      let '(printed, failure) := print_all (report_lines best all_options analysis) in
      (banner :: printed,
       match failure with
       | Some key => KeyError key
       | None => Returned
       end)
  end.
End Main.

(** X11. [main] never reports a recommendation in full: it returns normally
    only after printing the message of an error dict; whenever
    [recommend_region] returns a ranking, [main] prints the line with the
    name and code of the recommended region and then raises
    [KeyError('distance_km')], a key the scored regions do not have; an
    exception of [recommend_region] goes through [main] unchanged. *)
Theorem X11_main_stops_at_distance_km :
  forall (num : Type) (F : PyFloat num) (M : MathModule num)
         (str_float : num -> string) (w : World num) (london_location : num * num),
    main str_float w london_location
    = match recommend_region (__init__ w) w london_location
              ["ec2"; "s3"; "rds"]%string 6000 with
      | Raise e => ([banner], Raised e)
      | Ok (ErrorDict error) => ([banner; ("❌ " ++ error)%string], Returned)
      | Ok (ResultDict best _ _) =>
          ([banner;
            ("🏆 RECOMMENDED REGION: " ++ region_name best ++ " ("
               ++ region_code best ++ ")")%string],
           KeyError "distance_km")
      end.
Proof.
  intros num F M str_float w london. unfold main.
  destruct (recommend_region (__init__ w) w london _ 6000) as [[error|best opts an]|e];
    reflexivity.
Qed.

(** ** Python string operations *)

(** [str] values are modelled by their bytes.  [lower] and [strip] are the
    ASCII ones: they agree with Python's on text whose characters are all
    below 128 ([ascii_text]); the other operations here agree on any UTF-8
    text. *)

Definition is_ascii (s : string) : bool :=
  forallb (fun c => (nat_of_ascii c <? 128)%nat) (list_ascii_of_string s).

Definition ascii_text (s : string) : Prop := is_ascii s = true.

Definition lower_char (c : ascii) : ascii :=
  let n := nat_of_ascii c in
  if ((65 <=? n) && (n <=? 90))%nat then ascii_of_nat (n + 32) else c.

(** [s.lower()] *)
Fixpoint lower (s : string) : string :=
  match s with
  | EmptyString => EmptyString
  | String c s' => String (lower_char c) (lower s')
  end.

(** [c.isspace()]: tab, newline, vertical tab, form feed, carriage return,
    the four separators 28..31, and the space. *)
Definition isspace (c : ascii) : bool :=
  let n := nat_of_ascii c in
  (((9 <=? n) && (n <=? 13)) || ((28 <=? n) && (n <=? 32)))%nat.

(** [s.lstrip()], [s.rstrip()], [s.strip()] *)
Fixpoint lstrip (s : string) : string :=
  match s with
  | EmptyString => EmptyString
  | String c s' => if isspace c then lstrip s' else s
  end.

Fixpoint rstrip (s : string) : string :=
  match s with
  | EmptyString => EmptyString
  | String c s' =>
      match rstrip s' with
      | EmptyString => if isspace c then EmptyString else String c EmptyString
      | String c' t => String c (String c' t)
      end
  end.

Definition strip (s : string) : string := rstrip (lstrip s).

(** [sub in s] *)
Fixpoint contains (sub s : string) : bool :=
  String.prefix sub s
  || match s with
     | EmptyString => false
     | String _ s' => contains sub s'
     end.

(** [x in l] for a list of strings *)
Definition str_in (x : string) (l : list string) : bool :=
  existsb (String.eqb x) l.

(** ** aws_live_checker.py *)

(** What boto3 does when asked.  [boto3_client service region] is [Some e]
    when creating the client raises [e].  The [describe_...] calls give the
    length of the list in the response, [Raise] standing for any exception
    of the call or of reading the response. *)
Record Boto3 : Type := {
  botocore_importable : bool;
  boto3_client : string -> string -> option exn;
  (** [ec2.describe_instance_type_offerings]: with the instance-type filter,
      or, for [None], with [MaxResults=1] *)
  describe_instance_type_offerings : string -> option string -> result nat;
  (** [rds.describe_db_engine_versions]: with [Engine=...], or, for [None],
      with [MaxRecords=20] *)
  describe_db_engine_versions : string -> option string -> result nat;
  (** [eks.list_clusters(maxResults=1)] *)
  list_clusters : string -> result unit;
  (** [redshift.describe_clusters(MaxRecords=20)] *)
  describe_clusters : string -> result unit
}.

Module aws_live_checker.

(** [client = boto3.client(service, region_name=region_code)], then the
    rest. *)
Definition with_client {A : Type} (b : Boto3) (service region_code : string)
           (rest : result A) : result A :=
  match boto3_client b service region_code with
  | Some e => Raise e
  | None => rest
  end.

Definition listed_instance_types : list string :=
  ["g6.4xlarge"; "g6.2xlarge"; "g6.xlarge"; "g5.4xlarge"; "g5.2xlarge"; "g5.xlarge"]%string.

(** [check_ec2_instance_availability]: any exception is answered [True]. *)
Definition check_ec2_instance_availability (b : Boto3) (region_code service_request : string)
  : bool :=
  let attempt : result bool :=
    with_client b "ec2" region_code
      (let instance_type :=
         find (fun itype => contains itype service_request) listed_instance_types in
       match instance_type with
       | Some itype =>
           (n <- describe_instance_type_offerings b region_code (Some itype) ;;
            Ok (0 <? n)%nat)%py
       | None =>
           (n <- describe_instance_type_offerings b region_code None ;;
            Ok (0 <? n)%nat)%py
       end) in
  match attempt with
  | Ok available => available
  | Raise _ => true
  end.

(** [check_basic_service_availability]: the exceptions of the two cluster
    calls are answered [False], every other exception [True]. *)
Definition check_basic_service_availability (b : Boto3) (region_code service_name : string)
  : bool :=
  let attempt : result bool :=
    if str_in service_name ["s3"; "lambda"; "ec2"]%string then Ok true
    else if String.eqb service_name "rds" then
      with_client b "rds" region_code
        (n <- describe_db_engine_versions b region_code None ;; Ok (0 <? n)%nat)%py
    else if String.eqb service_name "eks" then
      with_client b "eks" region_code
        (match list_clusters b region_code with
         | Ok _ => Ok true
         | Raise _ => Ok false
         end)
    else if String.eqb service_name "redshift" then
      with_client b "redshift" region_code
        (match describe_clusters b region_code with
         | Ok _ => Ok true
         | Raise _ => Ok false
         end)
    else Ok true in
  match attempt with
  | Ok available => available
  | Raise _ => true
  end.

(** [engine_map.items()], in the order of the dict literal. *)
Definition engine_map : list (string * string) :=
  [ ("aurora", "aurora-mysql"); ("mysql", "mysql"); ("postgres", "postgres");
    ("oracle", "oracle-ee"); ("sqlserver", "sqlserver-ex") ]%string.

(** [check_rds_engine_availability]: any exception is answered [True]. *)
Definition check_rds_engine_availability (b : Boto3) (region_code service_request : string)
  : bool :=
  let attempt : result bool :=
    with_client b "rds" region_code
      (match find (fun item => contains (fst item) service_request) engine_map with
       | Some (_, engine_id) =>
           (n <- describe_db_engine_versions b region_code (Some engine_id) ;;
            Ok (0 <? n)%nat)%py
       | None => Ok true
       end) in
  match attempt with
  | Ok available => available
  | Raise _ => true
  end.

Definition instance_families : list string := ["g6"; "g5"; "p4"; "p3"; "c6"; "m6"]%string.
Definition basic_services : list string :=
  ["ec2"; "s3"; "rds"; "lambda"; "ecs"; "eks"; "redshift"]%string.
Definition rds_engines : list string := ["aurora"; "mysql"; "postgres"]%string.

(** [check_aws_service_availability_live]: the import of the botocore
    exceptions and the dispatch on the normalised name; any exception of
    the body is answered [False]. *)
Definition check_aws_service_availability_live (b : Boto3) (region_code service_name : string)
  : result bool :=
  let attempt : result bool :=
    if negb (botocore_importable b)
    then Raise (Exception "No module named 'botocore'")
    else
      let service_name := strip (lower service_name) in
      if contains "ec2" service_name
         && existsb (fun x => contains x service_name) instance_families
      then Ok (check_ec2_instance_availability b region_code service_name)
      else if str_in service_name basic_services
      then Ok (check_basic_service_availability b region_code service_name)
      else if contains "rds" service_name
              && existsb (fun x => contains x service_name) rds_engines
      then Ok (check_rds_engine_availability b region_code service_name)
      else Ok true in
  match attempt with
  | Ok available => Ok available
  | Raise _ => Ok false
  end.

End aws_live_checker.

(** *** Normalising a service name *)

Lemma lower_char_idem (c : ascii) : lower_char (lower_char c) = lower_char c.
Proof. destruct c as [[] [] [] [] [] [] [] []]; reflexivity. Qed.

Lemma isspace_lower_char (c : ascii) : isspace (lower_char c) = isspace c.
Proof. destruct c as [[] [] [] [] [] [] [] []]; reflexivity. Qed.

Lemma lower_idem (s : string) : lower (lower s) = lower s.
Proof.
  induction s as [|c s IH]; [reflexivity|]. cbn [lower].
  now rewrite lower_char_idem, IH.
Qed.

Lemma lower_lstrip (s : string) : lower (lstrip s) = lstrip (lower s).
Proof.
  induction s as [|c s IH]; [reflexivity|]. cbn [lower lstrip].
  rewrite isspace_lower_char. now destruct (isspace c).
Qed.

Lemma lower_rstrip (s : string) : lower (rstrip s) = rstrip (lower s).
Proof.
  induction s as [|c s IH]; [reflexivity|]. cbn [lower rstrip].
  rewrite <- IH, isspace_lower_char.
  destruct (rstrip s) as [|c' t]; cbn [lower]; [|reflexivity].
  now destruct (isspace c).
Qed.

Lemma lower_strip (s : string) : lower (strip s) = strip (lower s).
Proof. unfold strip. now rewrite lower_rstrip, lower_lstrip. Qed.

Lemma rstrip_idem (s : string) : rstrip (rstrip s) = rstrip s.
Proof.
  induction s as [|c s IH]; [reflexivity|]. cbn [rstrip].
  destruct (rstrip s) as [|c' t] eqn:E.
  - destruct (isspace c) eqn:Ec; [reflexivity|]. cbn [rstrip]. now rewrite Ec.
  - change (rstrip (String c (String c' t))) with
      (match rstrip (String c' t) with
       | EmptyString => if isspace c then EmptyString else String c EmptyString
       | String c'' t' => String c (String c'' t')
       end).
    now rewrite IH.
Qed.

(** No space in front. *)
Definition starts_clean (s : string) : Prop :=
  match s with
  | EmptyString => True
  | String c _ => isspace c = false
  end.

Lemma lstrip_starts_clean (s : string) : starts_clean (lstrip s).
Proof.
  induction s as [|c s IH]; [exact I|]. cbn [lstrip].
  destruct (isspace c) eqn:E; [exact IH|exact E].
Qed.

Lemma lstrip_clean (s : string) : starts_clean s -> lstrip s = s.
Proof. destruct s as [|c s]; [reflexivity|]. cbn. now intros ->. Qed.

Lemma rstrip_starts_clean (s : string) : starts_clean s -> starts_clean (rstrip s).
Proof.
  destruct s as [|c s]; [intros; exact I|]. cbn [starts_clean rstrip]. intros Hc.
  destruct (rstrip s); [rewrite Hc|]; exact Hc.
Qed.

Lemma strip_idem (s : string) : strip (strip s) = strip s.
Proof.
  unfold strip.
  rewrite (lstrip_clean (rstrip (lstrip s))).
  - apply rstrip_idem.
  - apply rstrip_starts_clean, lstrip_starts_clean.
Qed.

(** Normalising twice is normalising once. *)
Lemma normalise_idem (s : string) : strip (lower (strip (lower s))) = strip (lower s).
Proof. now rewrite lower_strip, lower_idem, strip_idem. Qed.

Lemma str_in_In (x : string) (l : list string) : str_in x l = true <-> In x l.
Proof.
  unfold str_in. rewrite existsb_exists. split.
  - intros (y & Hy & E). apply String.eqb_eq in E. now subst.
  - intros Hx. exists x. split; [assumption|]. apply String.eqb_refl.
Qed.

(** AWS answers nothing: clients are created, every call raises. *)
Definition aws_outage (b : Boto3) : Prop :=
  (forall service rc, boto3_client b service rc = None)
  /\ (forall rc f, exists e, describe_instance_type_offerings b rc f = Raise e)
  /\ (forall rc engine, exists e, describe_db_engine_versions b rc engine = Raise e)
  /\ (forall rc, exists e, list_clusters b rc = Raise e)
  /\ (forall rc, exists e, describe_clusters b rc = Raise e).

(** No credentials: every call raises [NoCredentialsError]. *)
Definition no_credentials : Boto3 :=
  {| botocore_importable := true;
     boto3_client := fun _ _ => None;
     describe_instance_type_offerings :=
       fun _ _ => Raise (Exception "Unable to locate credentials");
     describe_db_engine_versions :=
       fun _ _ => Raise (Exception "Unable to locate credentials");
     list_clusters := fun _ => Raise (Exception "Unable to locate credentials");
     describe_clusters := fun _ => Raise (Exception "Unable to locate credentials") |}.

Lemma no_credentials_outage : aws_outage no_credentials.
Proof. repeat split; intros; eexists; reflexivity. Qed.

(** *** What the live check answers *)

Section LiveCheckFacts.
Import aws_live_checker.
Variable b : Boto3.

Lemma live_unfold (rc s : string) :
  botocore_importable b = true ->
  aws_live_checker.check_aws_service_availability_live b rc s
  = Ok (let n := strip (lower s) in
        if contains "ec2" n && existsb (fun x => contains x n) instance_families
        then check_ec2_instance_availability b rc n
        else if str_in n basic_services
        then check_basic_service_availability b rc n
        else if contains "rds" n && existsb (fun x => contains x n) rds_engines
        then check_rds_engine_availability b rc n
        else true).
Proof.
  intros Hi. unfold aws_live_checker.check_aws_service_availability_live.
  rewrite Hi. cbn [negb]. cbv zeta.
  destruct (contains "ec2" _ && _); [reflexivity|].
  destruct (str_in _ basic_services); [reflexivity|].
  now destruct (contains "rds" _ && _).
Qed.

Lemma check_ec2_outage (rc n : string) :
  aws_outage b -> check_ec2_instance_availability b rc n = true.
Proof.
  intros (Hc & Hi & _). unfold check_ec2_instance_availability, with_client.
  rewrite Hc. destruct (find _ listed_instance_types) as [itype|].
  - destruct (Hi rc (Some itype)) as [e ->]. reflexivity.
  - destruct (Hi rc None) as [e ->]. reflexivity.
Qed.

Lemma check_rds_engine_outage (rc n : string) :
  aws_outage b -> check_rds_engine_availability b rc n = true.
Proof.
  intros (Hc & _ & Hd & _). unfold check_rds_engine_availability, with_client.
  rewrite Hc. destruct (find _ engine_map) as [[name id]|]; [|reflexivity].
  destruct (Hd rc (Some id)) as [e ->]. reflexivity.
Qed.

Lemma check_basic_outage (rc n : string) :
  aws_outage b ->
  In n basic_services ->
  check_basic_service_availability b rc n
  = negb (str_in n ["eks"; "redshift"]%string).
Proof.
  intros (Hc & _ & Hd & Hl & Hr) Hn.
  unfold check_basic_service_availability, with_client.
  destruct Hn as [<-|[<-|[<-|[<-|[<-|[<-|[<-|[]]]]]]]]; cbn; rewrite ?Hc; try reflexivity.
  - destruct (Hd rc None) as [e ->]. reflexivity.
  - destruct (Hl rc) as [e ->]. reflexivity.
  - destruct (Hr rc) as [e ->]. reflexivity.
Qed.
End LiveCheckFacts.

(** X12. With botocore importable, the live check can report a service
    unavailable only if its normalised name asks for an EC2 instance family
    (it contains "ec2" and one of g6, g5, p4, p3, c6, m6), contains "rds",
    or is "eks" or "redshift"; every other name (an unknown service
    included) is reported available in every region, whatever AWS
    answers. *)
Theorem X12_only_four_kinds_can_be_unavailable :
  forall (b : Boto3) (rc s : string),
    ascii_text s ->
    botocore_importable b = true ->
    aws_live_checker.check_aws_service_availability_live b rc s = Ok false ->
    (contains "ec2" (strip (lower s)) = true
     /\ existsb (fun x => contains x (strip (lower s)))
                aws_live_checker.instance_families = true)
    \/ contains "rds" (strip (lower s)) = true
    \/ strip (lower s) = "eks"%string
    \/ strip (lower s) = "redshift"%string.
Proof.
  intros b rc s _ Hi. rewrite (live_unfold b rc s Hi). cbv zeta.
  remember (strip (lower s)) as n eqn:En. clear En.
  destruct (contains "ec2" n && _) eqn:E1.
  { apply andb_prop in E1. intros _. now left. }
  destruct (str_in n aws_live_checker.basic_services) eqn:E2.
  { apply str_in_In in E2.
    destruct E2 as [<-|[<-|[<-|[<-|[<-|[<-|[<-|[]]]]]]]]; intros Hf;
      try discriminate Hf; auto. }
  destruct (contains "rds" n && _) eqn:E3.
  { apply andb_prop in E3 as [E3 _]. intros _. auto. }
  discriminate.
Qed.

(** X12 at work: without credentials "eks" is reported unavailable. *)
Lemma X12_only_four_kinds_can_be_unavailable_witness :
  (contains "ec2"%string (strip (lower " EKS "%string)) = true
   /\ existsb (fun x => contains x (strip (lower " EKS "%string)))
              aws_live_checker.instance_families = true)
  \/ contains "rds"%string (strip (lower " EKS "%string)) = true
  \/ strip (lower " EKS "%string) = "eks"%string
  \/ strip (lower " EKS "%string) = "redshift"%string.
Proof.
  apply (@X12_only_four_kinds_can_be_unavailable no_credentials "eu-west-1"%string " EKS "%string);
    reflexivity.
Defined.

Lemma live_outage (b : Boto3) (rc s : string) :
  botocore_importable b = true ->
  aws_outage b ->
  aws_live_checker.check_aws_service_availability_live b rc s
  = Ok (negb (str_in (strip (lower s)) ["eks"%string; "redshift"%string]%string)).
Proof.
  intros Hi Hout. rewrite (live_unfold b rc s Hi). cbv zeta. f_equal.
  remember (strip (lower s)) as n eqn:En. clear En.
  destruct (contains "ec2" n && _) eqn:E1.
  { rewrite (check_ec2_outage rc n Hout).
    destruct (str_in n ["eks"%string; "redshift"%string]%string) eqn:E; [|reflexivity].
    apply str_in_In in E. destruct E as [<-|[<-|[]]]; discriminate E1. }
  destruct (str_in n aws_live_checker.basic_services) eqn:E2.
  { apply str_in_In in E2. now apply check_basic_outage. }
  assert (E : str_in n ["eks"%string; "redshift"%string]%string = false).
  { destruct (str_in n ["eks"%string; "redshift"%string]%string) eqn:E; [|reflexivity].
    apply str_in_In in E. destruct E as [<-|[<-|[]]]; discriminate E2. }
  rewrite E. destruct (contains "rds" n && _); [|reflexivity].
  now apply check_rds_engine_outage.
Qed.

(** X13. When botocore cannot be imported the live check answers [False]
    for every service.  When it can, and AWS answers nothing (the clients
    are created but every call raises, as without credentials), the live
    check reports every service available except "eks" and "redshift":
    failures of the EC2 and RDS calls count as available, failures of the
    two cluster calls as unavailable. *)
Theorem X13_outage_opens_all_but_clusters :
  forall (b : Boto3) (rc s : string),
    ascii_text s ->
    (botocore_importable b = false ->
     aws_live_checker.check_aws_service_availability_live b rc s = Ok false)
    /\ (botocore_importable b = true ->
        aws_outage b ->
        aws_live_checker.check_aws_service_availability_live b rc s
        = Ok (negb (str_in (strip (lower s)) ["eks"%string; "redshift"%string]%string))).
Proof.
  intros b rc s _. split.
  - intros Hi. unfold aws_live_checker.check_aws_service_availability_live.
    now rewrite Hi.
  - intros Hi Hout. now apply live_outage.
Qed.

(** X13 at work: without credentials "RDS MySQL" is reported available. *)
Lemma X13_outage_opens_all_but_clusters_witness :
  aws_live_checker.check_aws_service_availability_live no_credentials "eu-west-1"%string
    "RDS MySQL"%string
  = Ok (negb (str_in (strip (lower "RDS MySQL"%string)) ["eks"%string; "redshift"%string]%string)).
Proof.
  apply (proj2 (@X13_outage_opens_all_but_clusters no_credentials "eu-west-1"%string
                  "RDS MySQL"%string eq_refl)).
  - reflexivity.
  - exact no_credentials_outage.
Defined.

(** X14. A request for an EC2 instance family that names none of the six
    listed sizes (g6 and g5 in xlarge, 2xlarge and 4xlarge) is answered by
    the general query alone: any two such requests get the same answer in
    every region, whatever AWS does; the instance type asked for plays no
    part. *)
Theorem X14_unlisted_instance_types_are_not_looked_up :
  forall (b : Boto3) (rc s1 s2 : string),
    ascii_text s1 -> ascii_text s2 ->
    (forall s, s = s1 \/ s = s2 ->
       contains "ec2"%string (strip (lower s)) = true
       /\ existsb (fun x => contains x (strip (lower s)))
                  aws_live_checker.instance_families = true
       /\ existsb (fun itype => contains itype (strip (lower s)))
                  aws_live_checker.listed_instance_types = false) ->
    aws_live_checker.check_aws_service_availability_live b rc s1
    = aws_live_checker.check_aws_service_availability_live b rc s2.
Proof.
  intros b rc s1 s2 _ _ Hs.
  assert (Hone : forall s,
             s = s1 \/ s = s2 ->
             aws_live_checker.check_aws_service_availability_live b rc s
             = if negb (botocore_importable b) then Ok false
               else Ok (match aws_live_checker.with_client b "ec2"%string rc
                                (n <- describe_instance_type_offerings b rc None ;;
                                 Ok (0 <? n)%nat)%py with
                        | Ok available => available
                        | Raise _ => true
                        end)).
  { intros s Hin. destruct (Hs s Hin) as (H1 & H2 & H3).
    unfold aws_live_checker.check_aws_service_availability_live.
    destruct (negb (botocore_importable b)); [reflexivity|].
    cbv zeta. rewrite H1, H2. cbn [andb].
    unfold aws_live_checker.check_ec2_instance_availability.
    destruct (find _ aws_live_checker.listed_instance_types) as [itype|] eqn:Ef;
      [|reflexivity].
    apply find_some in Ef as [Hin' Hc].
    assert (Hex : existsb (fun itype => contains itype (strip (lower s)))
                    aws_live_checker.listed_instance_types = true).
    { apply existsb_exists. now exists itype. }
    congruence. }
  rewrite (Hone s1), (Hone s2); auto.
Qed.

(** X14 at work: a p4d.24xlarge and a c6i.large request. *)
Lemma X14_unlisted_instance_types_are_not_looked_up_witness :
  aws_live_checker.check_aws_service_availability_live no_credentials "ap-south-1"%string
    "ec2 p4d.24xlarge"%string
  = aws_live_checker.check_aws_service_availability_live no_credentials "ap-south-1"%string
      "EC2 c6i.large"%string.
Proof.
  apply (@X14_unlisted_instance_types_are_not_looked_up no_credentials "ap-south-1"%string
           "ec2 p4d.24xlarge"%string "EC2 c6i.large"%string eq_refl eq_refl).
  intros s [-> | ->]; repeat split; reflexivity.
Defined.

(** X15. The live check looks at the normalised name only, and normalising
    is idempotent: lower-casing the request, stripping it, or both, never
    changes the answer. *)
Theorem X15_live_check_ignores_case_and_padding :
  forall (b : Boto3) (rc s : string),
    ascii_text s ->
    aws_live_checker.check_aws_service_availability_live b rc (lower s)
    = aws_live_checker.check_aws_service_availability_live b rc s
    /\ aws_live_checker.check_aws_service_availability_live b rc (strip s)
       = aws_live_checker.check_aws_service_availability_live b rc s
    /\ aws_live_checker.check_aws_service_availability_live b rc (strip (lower s))
       = aws_live_checker.check_aws_service_availability_live b rc s.
Proof.
  intros b rc s _. unfold aws_live_checker.check_aws_service_availability_live.
  rewrite lower_idem, normalise_idem, (lower_strip s), strip_idem. auto.
Qed.

(** X15 at work on " Ec2 G5.2XLarge ". *)
Lemma X15_live_check_ignores_case_and_padding_witness :
  aws_live_checker.check_aws_service_availability_live no_credentials "eu-west-1"%string
    (lower " Ec2 G5.2XLarge "%string)
  = aws_live_checker.check_aws_service_availability_live no_credentials "eu-west-1"%string
      " Ec2 G5.2XLarge "%string
  /\ aws_live_checker.check_aws_service_availability_live no_credentials "eu-west-1"%string
       (strip " Ec2 G5.2XLarge "%string)
     = aws_live_checker.check_aws_service_availability_live no_credentials "eu-west-1"%string
         " Ec2 G5.2XLarge "%string
  /\ aws_live_checker.check_aws_service_availability_live no_credentials "eu-west-1"%string
       (strip (lower " Ec2 G5.2XLarge "%string))
     = aws_live_checker.check_aws_service_availability_live no_credentials "eu-west-1"%string
         " Ec2 G5.2XLarge "%string.
Proof.
  apply (@X15_live_check_ignores_case_and_padding no_credentials "eu-west-1"%string
           " Ec2 G5.2XLarge "%string).
  reflexivity.
Defined.

(** X16. A request "ec2 " followed by one of the six listed instance types
    is answered from the offerings of exactly that type: when the client is
    created and the filtered call returns, the answer is whether the list
    of offerings for that type is non-empty. *)
Theorem X16_listed_instance_type_is_looked_up :
  forall (b : Boto3) (rc itype : string) (n : nat),
    In itype aws_live_checker.listed_instance_types ->
    botocore_importable b = true ->
    boto3_client b "ec2" rc = None ->
    describe_instance_type_offerings b rc (Some itype) = Ok n ->
    aws_live_checker.check_aws_service_availability_live b rc ("ec2 " ++ itype)
    = Ok (0 <? n)%nat.
Proof.
  intros b rc itype n Hin Hi Hc Hn. rewrite (live_unfold b rc _ Hi).
  destruct Hin as [<-|[<-|[<-|[<-|[<-|[<-|[]]]]]]];
    lazy -[Nat.ltb boto3_client describe_instance_type_offerings];
    rewrite Hc, Hn; reflexivity.
Qed.

(** An account in which every call returns, with one offering for
    g5.2xlarge and none for any other instance type. *)
Definition only_g5_2xlarge : Boto3 :=
  {| botocore_importable := true;
     boto3_client := fun _ _ => None;
     describe_instance_type_offerings :=
       fun _ f =>
         match f with
         | Some itype => Ok (if String.eqb itype "g5.2xlarge" then 1 else 0)%nat
         | None => Ok 1%nat
         end;
     describe_db_engine_versions := fun _ _ => Ok 1%nat;
     list_clusters := fun _ => Ok tt;
     describe_clusters := fun _ => Ok tt |}.

(** X16 at work: g6.4xlarge has no offering. *)
Lemma X16_listed_instance_type_is_looked_up_witness :
  aws_live_checker.check_aws_service_availability_live only_g5_2xlarge "ap-southeast-1"
    ("ec2 " ++ "g6.4xlarge")
  = Ok (0 <? 0)%nat.
Proof.
  apply (@X16_listed_instance_type_is_looked_up only_g5_2xlarge "ap-southeast-1"
           "g6.4xlarge" 0%nat).
  - simpl. auto.
  - reflexivity.
  - reflexivity.
  - reflexivity.
Defined.

(** X17. The live check behind the gate: in a world whose availability
    check is [check_aws_service_availability_live] and in which AWS answers
    nothing (clients are created, every call raises), [filter_by_services]
    keeps every region it is given when none of the required services is
    "eks" or "redshift", and no region at all when one is. *)
Theorem X17_gate_during_an_outage :
  forall (num : Type) (F : PyFloat num) (w : World num) (b : Boto3)
         (rs : list (RegionData num)) (required : list string),
    (forall rc s,
        check_aws_service_availability_live w rc s
        = aws_live_checker.check_aws_service_availability_live b rc s) ->
    Forall ascii_text required ->
    botocore_importable b = true ->
    aws_outage b ->
    filter_by_services w rs required
    = if existsb (fun s => str_in (strip (lower s)) ["eks"; "redshift"]%string) required
      then []
      else rs.
Proof.
  intros num F w b rs required Hw Hascii Hi Hout.
  assert (Hgate : forall region,
             supports_all w region required
             = negb (existsb (fun s => str_in (strip (lower s))
                                         ["eks"; "redshift"]%string) required)).
  { intros region. unfold supports_all. induction Hascii as [|s required Hs _ IH];
      [reflexivity|].
    cbn [forallb existsb]. rewrite IH, negb_orb. f_equal.
    unfold check_service_availability. rewrite Hw.
    now rewrite (live_outage (code region) s Hi Hout). }
  unfold filter_by_services.
  induction rs as [|r rs IH]; [now destruct (existsb _ required)|].
  cbn [filter]. rewrite Hgate, IH.
  now destruct (existsb _ required).
Qed.

(** X17 at work: without credentials, the services ec2, s3 and rds keep
    both sample regions. *)
Lemma X17_gate_during_an_outage_witness :
  filter_by_services
    (sample_world (aws_live_checker.check_aws_service_availability_live no_credentials)
       steady_grid)
    sample_catalog sample_services
  = if existsb (fun s => str_in (strip (lower s)) ["eks"%string; "redshift"%string])
         sample_services
    then []
    else sample_catalog.
Proof.
  apply (@X17_gate_during_an_outage R R_float
           (sample_world
              (aws_live_checker.check_aws_service_availability_live no_credentials)
              steady_grid)
           no_credentials sample_catalog sample_services).
  - intros rc s. reflexivity.
  - repeat constructor.
  - reflexivity.
  - exact no_credentials_outage.
Defined.

(** ** The gate over the live check *)

(** The live check catches every exception itself: it always returns. *)
Lemma live_check_returns (b : Boto3) (rc s : string) :
  exists available,
    aws_live_checker.check_aws_service_availability_live b rc s = Ok available.
Proof.
  unfold aws_live_checker.check_aws_service_availability_live.
  match goal with |- exists a, match ?x with _ => _ end = _ => destruct x end; eauto.
Qed.

(** C2 as stated fails: without credentials every call of the AWS API
    raises, and still the gate passes London for RDS, a G6 instance type
    and an RDS engine: the errors are taken as "available". *)
Lemma C2_counterexample :
  aws_outage no_credentials
  /\ supports_all
       (sample_world (aws_live_checker.check_aws_service_availability_live no_credentials)
          steady_grid)
       {| code := "eu-west-2"; name := "London"; location := (0%R, 0%R) |}
       ["rds"; "ec2 g6.4xlarge"; "rds mysql"]%string
     = true
  /\ In {| code := "eu-west-2"; name := "London"; location := (0%R, 0%R) |}
       (filter_by_services
          (sample_world
             (aws_live_checker.check_aws_service_availability_live no_credentials)
             steady_grid)
          sample_catalog ["rds"; "ec2 g6.4xlarge"; "rds mysql"]%string).
Proof.
  split; [exact no_credentials_outage|]. split; [reflexivity|].
  apply filter_by_services_In. split; [|reflexivity]. simpl. auto.
Qed.

(** C2, amended. The gate is closed at the live check: if, for one of the
    required capabilities, [check_aws_service_availability_live] returns
    [False] (or raises), the gate is false for the region, whatever the
    answers for the other capabilities, and [filter_by_services] leaves the
    region out.  But that function never raises, and it does not always
    answer [False] on an error behind it: it does when botocore cannot be
    imported; when botocore can be imported and every call of the AWS API
    raises, it answers [False] for "eks" and "redshift" only, and the gate
    passes every region unless one of these two is required. *)
Theorem C2_gate_closed_at_the_check_open_on_aws_errors :
  (forall (num : Type) (F : PyFloat num) (w : World num)
          (rs : list (RegionData num)) (region : RegionData num)
          (required : list string) (service : string),
      In service required ->
      (exists e, check_aws_service_availability_live w (code region) service = Raise e)
      \/ check_aws_service_availability_live w (code region) service = Ok false ->
      supports_all w region required = false
      /\ ~ In region (filter_by_services w rs required))
  /\ (forall (b : Boto3) (rc s : string),
         exists available,
           aws_live_checker.check_aws_service_availability_live b rc s = Ok available)
  /\ (forall (b : Boto3) (rc s : string),
         botocore_importable b = false ->
         aws_live_checker.check_aws_service_availability_live b rc s = Ok false)
  /\ (forall (num : Type) (F : PyFloat num) (w : World num) (b : Boto3)
             (region : RegionData num) (required : list string),
         (forall rc s,
             check_aws_service_availability_live w rc s
             = aws_live_checker.check_aws_service_availability_live b rc s) ->
         Forall ascii_text required ->
         botocore_importable b = true ->
         aws_outage b ->
         supports_all w region required
         = negb (existsb (fun s => str_in (strip (lower s)) ["eks"; "redshift"]%string)
                         required)).
Proof.
  split; [|split; [|split]].
  - intros num F w rs region required service Hin Hfail.
    assert (Hgate : supports_all w region required = false).
    { apply supports_all_false with (service := service); [assumption|].
      now apply check_service_availability_fail_closed. }
    split; [assumption|].
    rewrite filter_by_services_In. intros [_ Hpass]. congruence.
  - apply live_check_returns.
  - intros b rc s Hi. unfold aws_live_checker.check_aws_service_availability_live.
    now rewrite Hi.
  - intros num F w b region required Hw Hascii Hi Hout. unfold supports_all.
    induction Hascii as [|s required Hs _ IH]; [reflexivity|].
    cbn [forallb existsb]. rewrite IH, negb_orb. f_equal.
    unfold check_service_availability. rewrite Hw.
    now rewrite (live_outage (code region) s Hi Hout).
Qed.

(** C2 at work: without credentials the gate passes London for RDS and a
    G6 instance type. *)
Lemma C2_gate_closed_at_the_check_open_on_aws_errors_witness :
  supports_all
    (sample_world (aws_live_checker.check_aws_service_availability_live no_credentials)
       steady_grid)
    {| code := "eu-west-2"; name := "London"; location := (0%R, 0%R) |}
    ["rds"; "ec2 g6.4xlarge"]%string
  = negb (existsb (fun s => str_in (strip (lower s)) ["eks"; "redshift"]%string)
                  ["rds"; "ec2 g6.4xlarge"]%string).
Proof.
  apply (proj2 (proj2 (proj2 C2_gate_closed_at_the_check_open_on_aws_errors))
           R R_float
           (sample_world
              (aws_live_checker.check_aws_service_availability_live no_credentials)
              steady_grid)
           no_credentials).
  - intros rc s. reflexivity.
  - repeat constructor.
  - reflexivity.
  - exact no_credentials_outage.
Defined.

(** ** More string operations *)

(** The words of [s.split()], [cur] being the word under way. *)
Fixpoint words (cur s : string) : list string :=
  match s with
  | EmptyString => match cur with EmptyString => [] | _ => [cur] end
  | String c s' =>
      if isspace c
      then match cur with
           | EmptyString => words EmptyString s'
           | _ => cur :: words EmptyString s'
           end
      else words (cur ++ String c EmptyString) s'
  end.

(** [s.split()] *)
Definition split_ws (s : string) : list string := words EmptyString s.

(** [s.split(sep)] for a separator of one character *)
Fixpoint split_char (sep : ascii) (s : string) : list string :=
  match s with
  | EmptyString => [EmptyString]
  | String c s' =>
      if Ascii.eqb c sep then EmptyString :: split_char sep s'
      else match split_char sep s' with
           | [] => [String c EmptyString]
           | w :: ws => String c w :: ws
           end
  end.

(** ** aws_service_checker.py *)

Module aws_service_checker.

Definition ServiceTable : Type := list (string * list string).

Definition DEFAULT_SERVICES : ServiceTable :=
  [ ("ec2", ["standard-instances"]);
    ("s3", ["standard"]);
    ("rds", ["mysql"; "postgres"]);
    ("lambda", ["standard"]);
    ("ecs", ["ec2"]);
    ("eks", ["standard"]) ]%string.

Definition AWS_REGIONAL_SERVICES : list (string * ServiceTable) :=
  [ ("us-east-1",
     [ ("ec2", ["all-instances"]);
       ("ec2-g6", ["g6.xlarge"; "g6.2xlarge"; "g6.4xlarge"; "g6.8xlarge"; "g6.12xlarge";
                   "g6.16xlarge"]);
       ("ec2-g5", ["g5.xlarge"; "g5.2xlarge"; "g5.4xlarge"; "g5.8xlarge"; "g5.12xlarge";
                   "g5.16xlarge"]);
       ("s3", ["standard"; "glacier"; "deep-archive"]);
       ("rds", ["mysql"; "postgres"; "aurora"; "oracle"; "sqlserver"]);
       ("lambda", ["standard"; "provisioned"]);
       ("redshift", ["dc2"; "ra3"; "serverless"]);
       ("eks", ["standard"; "fargate"]);
       ("ecs", ["ec2"; "fargate"]) ]);
    ("ap-south-1",
     [ ("ec2", ["standard-instances"]);
       ("ec2-g5", ["g5.xlarge"; "g5.2xlarge"]);
       ("s3", ["standard"; "glacier"]);
       ("rds", ["mysql"; "postgres"; "aurora"]);
       ("lambda", ["standard"]);
       ("eks", ["standard"]);
       ("ecs", ["ec2"; "fargate"]) ]);
    ("ap-southeast-1",
     [ ("ec2", ["standard-instances"]);
       ("ec2-g5", ["g5.xlarge"; "g5.2xlarge"; "g5.4xlarge"]);
       ("s3", ["standard"; "glacier"]);
       ("rds", ["mysql"; "postgres"; "aurora"]);
       ("lambda", ["standard"]);
       ("redshift", ["dc2"; "ra3"]);
       ("eks", ["standard"]);
       ("ecs", ["ec2"; "fargate"]) ]);
    ("eu-west-1",
     [ ("ec2", ["all-instances"]);
       ("ec2-g6", ["g6.xlarge"; "g6.2xlarge"; "g6.4xlarge"]);
       ("ec2-g5", ["g5.xlarge"; "g5.2xlarge"; "g5.4xlarge"; "g5.8xlarge"]);
       ("s3", ["standard"; "glacier"; "deep-archive"]);
       ("rds", ["mysql"; "postgres"; "aurora"; "oracle"]);
       ("lambda", ["standard"; "provisioned"]);
       ("redshift", ["dc2"; "ra3"; "serverless"]);
       ("eks", ["standard"; "fargate"]);
       ("ecs", ["ec2"; "fargate"]) ]) ]%string.

(** [d.get(key)] on a dict with string keys *)
Definition lookup {V : Type} (d : list (string * V)) (key : string) : option V :=
  option_map snd (find (fun kv => String.eqb (fst kv) key) d).

(** [key in d] *)
Definition has_key {V : Type} (d : list (string * V)) (key : string) : bool :=
  match lookup d key with Some _ => true | None => false end.

(** [d.get(key, [])] *)
Definition get_list (d : ServiceTable) (key : string) : list string :=
  match lookup d key with Some l => l | None => [] end.

(** [inst.split('.')[1]] *)
Definition size_of (inst : string) : result string :=
  match split_char "."%char inst with
  | _ :: size :: _ => Ok size
  | _ => Raise (IndexError "list index out of range")
  end.

(** [next((inst for inst in insts if inst.split('.')[1] in service_request),
    None)] *)
Fixpoint next_matching (insts : list string) (service_request : string)
  : result (option string) :=
  match insts with
  | [] => Ok None
  | inst :: rest =>
      (size <- size_of inst ;;
       if contains size service_request then Ok (Some inst)
       else next_matching rest service_request)%py
  end.

(** The branch of [check_service_availability] for one GPU family. *)
Definition check_family (region_services : ServiceTable) (key : string)
           (insts : list string) (service_request : string) : result bool :=
  if negb (has_key region_services key) then Ok false
  else if existsb (fun instance => contains instance service_request)
                  ["xlarge"; "2xlarge"; "4xlarge"]%string
  then
    (requested_instance <- next_matching insts service_request ;;
     Ok (match requested_instance with
         | Some inst => str_in inst (get_list region_services key)
         | None => false
         end))%py
  else Ok true.

(** [check_service_availability(region_code, service_request)] *)
Definition check_service_availability (region_code service_request : string)
  : result bool :=
  let region_services :=
    match lookup AWS_REGIONAL_SERVICES region_code with
    | Some services => services
    | None => DEFAULT_SERVICES
    end in
  let service_request := strip (lower service_request) in
  if contains "g6" service_request then
    check_family region_services "ec2-g6"
      ["g6.xlarge"; "g6.2xlarge"; "g6.4xlarge"; "g6.8xlarge"]%string service_request
  else if contains "g5" service_request then
    check_family region_services "ec2-g5"
      ["g5.xlarge"; "g5.2xlarge"; "g5.4xlarge"; "g5.8xlarge"]%string service_request
  else if contains "ec2" service_request then
    Ok (has_key region_services "ec2")
  else if contains "rds" service_request then
    if contains "aurora" service_request
    then Ok (str_in "aurora" (get_list region_services "rds"))
    else Ok (has_key region_services "rds")
  else if contains "redshift" service_request then
    if contains "serverless" service_request
    then Ok (str_in "serverless" (get_list region_services "redshift"))
    else Ok (has_key region_services "redshift")
  else
    match split_ws service_request with
    | [] => Raise (IndexError "list index out of range")
    | service_name :: _ => Ok (has_key region_services service_name)
    end.

(** [get_unavailable_services(region_code, service_requests)]: the first
    exception of a check ends the loop. *)
Fixpoint get_unavailable_services (region_code : string) (service_requests : list string)
  : result (list string) :=
  match service_requests with
  | [] => Ok []
  | service :: rest =>
      (available <- check_service_availability region_code service ;;
       unavailable <- get_unavailable_services region_code rest ;;
       Ok (if available then unavailable else service :: unavailable))%py
  end.

End aws_service_checker.

(** *** What the table check answers *)

(** The table [check_service_availability] consults for a region. *)
Definition services_of (region_code : string) : aws_service_checker.ServiceTable :=
  match aws_service_checker.lookup aws_service_checker.AWS_REGIONAL_SERVICES region_code with
  | Some services => services
  | None => aws_service_checker.DEFAULT_SERVICES
  end.

(** Every key of every table. *)
Definition all_keys : list string :=
  ["ec2"; "ec2-g6"; "ec2-g5"; "s3"; "rds"; "lambda"; "redshift"; "eks"; "ecs"]%string.

Lemma services_of_cases (rc : string) :
  In (services_of rc)
     (aws_service_checker.DEFAULT_SERVICES
        :: map snd aws_service_checker.AWS_REGIONAL_SERVICES).
Proof.
  unfold services_of, aws_service_checker.lookup.
  destruct (find _ aws_service_checker.AWS_REGIONAL_SERVICES) as [[k t]|] eqn:E.
  - right. apply find_some in E as [Hin _]. apply (in_map snd) in Hin. exact Hin.
  - now left.
Qed.

Lemma has_key_all_keys (rc key : string) :
  aws_service_checker.has_key (services_of rc) key = true -> In key all_keys.
Proof.
  unfold aws_service_checker.has_key, aws_service_checker.lookup.
  destruct (find _ (services_of rc)) as [[k l]|] eqn:E; [|discriminate].
  intros _. apply find_some in E as [Hin Hk]. cbn in Hk.
  apply String.eqb_eq in Hk. subst k.
  apply (in_map fst) in Hin. cbn [fst] in Hin.
  pose proof (services_of_cases rc) as Hc.
  assert (Hkeys : forall t,
             In t (aws_service_checker.DEFAULT_SERVICES
                     :: map snd aws_service_checker.AWS_REGIONAL_SERVICES) ->
             incl (map fst t) all_keys).
  { intros t Ht.
    assert (Hb : forallb (fun t' : aws_service_checker.ServiceTable =>
                            forallb (fun k => str_in k all_keys) (map fst t'))
                         (aws_service_checker.DEFAULT_SERVICES
                            :: map snd aws_service_checker.AWS_REGIONAL_SERVICES) = true)
      by (vm_compute; reflexivity).
    rewrite forallb_forall in Hb. specialize (Hb t Ht). rewrite forallb_forall in Hb.
    intros k Hk. now apply str_in_In, Hb. }
  exact (Hkeys _ Hc _ Hin).
Qed.

Lemma get_list_no_key (t : aws_service_checker.ServiceTable) (key : string) :
  aws_service_checker.has_key t key = false -> aws_service_checker.get_list t key = [].
Proof.
  unfold aws_service_checker.has_key, aws_service_checker.get_list.
  now destruct (aws_service_checker.lookup t key).
Qed.

Lemma words_not_nil (cur s : string) : cur <> EmptyString -> words cur s <> [].
Proof.
  revert cur. induction s as [|c s IH]; intros cur Hc; cbn [words].
  - now destruct cur.
  - destruct (isspace c).
    + now destruct cur.
    + apply IH. now destruct cur.
Qed.

Lemma split_ws_strip_not_nil (s : string) :
  strip s <> EmptyString -> split_ws (strip s) <> [].
Proof.
  intros Hne.
  assert (Hclean : starts_clean (strip s))
    by apply rstrip_starts_clean, lstrip_starts_clean.
  destruct (strip s) as [|c t]; [contradiction|].
  unfold split_ws. cbn [words]. cbn in Hclean. rewrite Hclean.
  apply words_not_nil. discriminate.
Qed.

Lemma contains_empty (sub : string) : sub <> EmptyString -> contains sub "" = false.
Proof. destruct sub; [contradiction|reflexivity]. Qed.

Lemma check_family_returns (t : aws_service_checker.ServiceTable) (key sr : string) :
  (exists r, aws_service_checker.check_family t key
               ["g6.xlarge"; "g6.2xlarge"; "g6.4xlarge"; "g6.8xlarge"]%string sr = Ok r)
  /\ (exists r, aws_service_checker.check_family t key
                  ["g5.xlarge"; "g5.2xlarge"; "g5.4xlarge"; "g5.8xlarge"]%string sr = Ok r).
Proof.
  unfold aws_service_checker.check_family.
  destruct (negb (aws_service_checker.has_key t key)); [eauto|].
  destruct (existsb _ _); [|eauto].
  split; lazy -[contains str_in aws_service_checker.get_list];
    repeat (destruct (contains _ sr)); eauto.
Qed.

Lemma check_family_xlarge (t : aws_service_checker.ServiceTable) (key sr : string) :
  contains "xlarge" sr = true ->
  aws_service_checker.check_family t key
    ["g6.xlarge"; "g6.2xlarge"; "g6.4xlarge"; "g6.8xlarge"]%string sr
  = Ok (aws_service_checker.has_key t key
        && str_in "g6.xlarge" (aws_service_checker.get_list t key))
  /\ aws_service_checker.check_family t key
       ["g5.xlarge"; "g5.2xlarge"; "g5.4xlarge"; "g5.8xlarge"]%string sr
     = Ok (aws_service_checker.has_key t key
           && str_in "g5.xlarge" (aws_service_checker.get_list t key)).
Proof.
  intros Hx. unfold aws_service_checker.check_family.
  destruct (aws_service_checker.has_key t key); cbn [negb andb]; [|auto].
  cbn [existsb]. rewrite Hx. cbn [orb].
  split; lazy -[contains str_in aws_service_checker.get_list]; now rewrite Hx.
Qed.

(** X18. In the table check the size of a GPU instance request is not
    looked at: every request whose normalised text contains "g6" and
    "xlarge" (g6.2xlarge, g6.16xlarge, ...) is answered by whether the
    region's table lists "g6.xlarge", and likewise for "g5" (when "g6" does
    not occur) and "g5.xlarge". *)
Theorem X18_table_check_ignores_the_size :
  forall rc s : string,
    ascii_text s ->
    contains "xlarge" (strip (lower s)) = true ->
    (contains "g6" (strip (lower s)) = true ->
     aws_service_checker.check_service_availability rc s
     = Ok (str_in "g6.xlarge" (aws_service_checker.get_list (services_of rc) "ec2-g6")))
    /\ (contains "g6" (strip (lower s)) = false ->
        contains "g5" (strip (lower s)) = true ->
        aws_service_checker.check_service_availability rc s
        = Ok (str_in "g5.xlarge"
                (aws_service_checker.get_list (services_of rc) "ec2-g5"))).
Proof.
  intros rc s _ Hx. unfold aws_service_checker.check_service_availability.
  fold (services_of rc). cbv zeta.
  split.
  - intros ->. rewrite (proj1 (check_family_xlarge _ _ _ Hx)). f_equal.
    destruct (aws_service_checker.has_key (services_of rc) "ec2-g6") eqn:E;
      [reflexivity|].
    now rewrite (get_list_no_key _ _ E).
  - intros -> ->. rewrite (proj2 (check_family_xlarge _ _ _ Hx)). f_equal.
    destruct (aws_service_checker.has_key (services_of rc) "ec2-g5") eqn:E;
      [reflexivity|].
    now rewrite (get_list_no_key _ _ E).
Qed.

(** X18 at work: eu-west-1 lists g6 up to 4xlarge, yet g6.16xlarge is
    reported available there. *)
Lemma X18_table_check_ignores_the_size_witness :
  aws_service_checker.check_service_availability "eu-west-1" "ec2 g6.16xlarge"
  = Ok (str_in "g6.xlarge"
          (aws_service_checker.get_list (services_of "eu-west-1") "ec2-g6")).
Proof.
  apply (proj1 (@X18_table_check_ignores_the_size "eu-west-1" "ec2 g6.16xlarge"
                  eq_refl eq_refl)).
  reflexivity.
Defined.

Lemma table_check_returns (rc s : string) :
  strip (lower s) <> EmptyString ->
  exists available, aws_service_checker.check_service_availability rc s = Ok available.
Proof.
  intros Hne. unfold aws_service_checker.check_service_availability.
  fold (services_of rc). cbv zeta.
  destruct (contains "g6" _); [apply check_family_returns|].
  destruct (contains "g5" _); [apply check_family_returns|].
  destruct (contains "ec2" _); [eauto|].
  destruct (contains "rds" _); [destruct (contains "aurora" _); eauto|].
  destruct (contains "redshift" _); [destruct (contains "serverless" _); eauto|].
  rewrite <- lower_strip in *.
  destruct (split_ws (lower (strip s))) as [|name rest] eqn:E; [|eauto].
  rewrite lower_strip in *. now apply split_ws_strip_not_nil in E.
Qed.

Lemma table_check_blank (rc s : string) :
  strip (lower s) = EmptyString ->
  aws_service_checker.check_service_availability rc s
  = Raise (IndexError "list index out of range").
Proof.
  intros E. unfold aws_service_checker.check_service_availability. now rewrite E.
Qed.

(** X19. The table check raises [IndexError] exactly on a blank request (one
    that is empty once lower-cased and stripped): there the first word of
    the request is taken from an empty list.  On every other request it
    returns a boolean. *)
Theorem X19_table_check_raises_on_blank_requests :
  forall rc s : string,
    ascii_text s ->
    (strip (lower s) = EmptyString ->
     aws_service_checker.check_service_availability rc s
     = Raise (IndexError "list index out of range"))
    /\ (strip (lower s) <> EmptyString ->
        exists available,
          aws_service_checker.check_service_availability rc s = Ok available).
Proof.
  intros rc s _. split; [apply table_check_blank|apply table_check_returns].
Qed.

(** X19 at work on a request of three spaces. *)
Lemma X19_table_check_raises_on_blank_requests_witness :
  aws_service_checker.check_service_availability "us-east-1" "   "
  = Raise (IndexError "list index out of range").
Proof.
  apply (proj1 (@X19_table_check_raises_on_blank_requests "us-east-1" "   " eq_refl)).
  reflexivity.
Defined.

(** A request that is blank once normalised. *)
Definition blank (s : string) : Prop := strip (lower s) = EmptyString.

(** The requests the table check answers [False]. *)
Definition answered_false (rc : string) (s : string) : bool :=
  match aws_service_checker.check_service_availability rc s with
  | Ok false => true
  | _ => false
  end.

(** X20. [get_unavailable_services] returns, in the order given, exactly the
    requests the table check answers [False], when no request is blank; a
    blank request anywhere in the list makes the whole call raise
    [IndexError], whatever the other requests are. *)
Theorem X20_unavailable_services_or_index_error :
  forall (rc : string) (service_requests : list string),
    Forall ascii_text service_requests ->
    (Forall (fun s => ~ blank s) service_requests ->
     aws_service_checker.get_unavailable_services rc service_requests
     = Ok (filter (answered_false rc) service_requests))
    /\ (Exists blank service_requests ->
        aws_service_checker.get_unavailable_services rc service_requests
        = Raise (IndexError "list index out of range")).
Proof.
  intros rc reqs _. split.
  - induction 1 as [|s rest Hs _ IH]; [reflexivity|].
    cbn [aws_service_checker.get_unavailable_services filter].
    unfold answered_false at 1.
    destruct (table_check_returns rc s Hs) as [available ->].
    cbn [bind]. rewrite IH. cbn [bind]. now destruct available.
  - induction reqs as [|s rest IH]; intros Hex; [inversion Hex|].
    cbn [aws_service_checker.get_unavailable_services].
    destruct (string_dec (strip (lower s)) EmptyString) as [Hb|Hb].
    + now rewrite (table_check_blank rc s Hb).
    + destruct (table_check_returns rc s Hb) as [available ->]. cbn [bind].
      rewrite IH; [reflexivity|].
      inversion Hex; subst; [contradiction|assumption].
Qed.

(** X20 at work: one empty request after two good ones. *)
Lemma X20_unavailable_services_or_index_error_witness :
  aws_service_checker.get_unavailable_services "ap-south-1" ["s3"; "redshift"; ""]%string
  = Raise (IndexError "list index out of range").
Proof.
  refine (proj2 (@X20_unavailable_services_or_index_error
                   "ap-south-1" ["s3"; "redshift"; ""]%string _) _).
  - repeat constructor.
  - right. right. left. reflexivity.
Defined.

(** X21. The two availability checks disagree on every service neither of
    them knows: a request without "g6", "g5", "ec2", "rds" or "redshift" in
    it whose first word is not a key of the tables is unavailable in every
    region for the table check and available in every region for the live
    check. *)
Theorem X21_unknown_service_table_no_live_yes :
  forall (b : Boto3) (rc s name : string) (rest : list string),
    ascii_text s ->
    botocore_importable b = true ->
    split_ws (strip (lower s)) = name :: rest ->
    ~ In name all_keys ->
    forallb (fun sub => negb (contains sub (strip (lower s))))
            ["g6"; "g5"; "ec2"; "rds"; "redshift"]%string = true ->
    aws_service_checker.check_service_availability rc s = Ok false
    /\ aws_live_checker.check_aws_service_availability_live b rc s = Ok true.
Proof.
  intros b rc s name rest _ Hi Hsplit Hname Hsubs.
  cbn [forallb] in Hsubs.
  repeat (apply andb_prop in Hsubs; destruct Hsubs as [?H Hsubs]).
  repeat match goal with
         | H : negb _ = true |- _ => apply negb_true_iff in H
         end.
  split.
  - unfold aws_service_checker.check_service_availability. fold (services_of rc).
    cbv zeta.
    repeat match goal with
           | H : contains _ _ = false |- _ => rewrite H; clear H
           end.
    rewrite Hsplit. f_equal.
    destruct (aws_service_checker.has_key (services_of rc) name) eqn:E; [|reflexivity].
    now apply has_key_all_keys in E.
  - rewrite live_unfold by exact Hi. cbv zeta.
    match goal with H : contains "ec2" _ = false |- _ => rewrite H end.
    match goal with H : contains "rds" _ = false |- _ => rewrite H end.
    cbn [andb].
    destruct (str_in (strip (lower s)) aws_live_checker.basic_services) eqn:E;
      [|reflexivity].
    exfalso. apply str_in_In in E. apply Hname.
    revert Hsplit. generalize (strip (lower s)) E. intros n Hn Hsplit.
    cbn in Hn.
    repeat (destruct Hn as [<-|Hn];
            [vm_compute in Hsplit; injection Hsplit as <- _;
             vm_compute; tauto|]).
    contradiction.
Qed.

(** X21 at work on DynamoDB, with boto3 answering that nothing is offered. *)
Lemma X21_unknown_service_table_no_live_yes_witness :
  aws_service_checker.check_service_availability "us-east-1" " DynamoDB " = Ok false
  /\ aws_live_checker.check_aws_service_availability_live
       only_g5_2xlarge "us-east-1" " DynamoDB " = Ok true.
Proof.
  apply (@X21_unknown_service_table_no_live_yes
           only_g5_2xlarge "us-east-1" " DynamoDB " "dynamodb" [] eq_refl eq_refl eq_refl).
  - vm_compute. intuition discriminate.
  - reflexivity.
Defined.

(** ** streamlit_app.py: the region analysis *)

(** The part of the page that analyses the selected regions and picks the
    recommended one, without the widgets: the selected option strings and
    the extracted services come in as arguments, the exception handler
    around the analysis shows as a [Raise].  The page's advisor is the
    class [GreenCloudAdvisor] of the package [src]; its
    [calculate_sustainability_score] and [check_service_availability] have
    the bodies of the methods embedded above. *)
Module streamlit_app.
Section RegionAnalysis.
Context {num : Type} `{PyFloat num}.

(** One entry of [all_regions_data]: a dict with these seven keys. *)
Record RegionRow : Type := {
  region_code : string;
  region_name : string;
  location_based_intensity : num;
  market_based_intensity : num;
  sustainability_score : num;
  supports_services : bool;
  unavailable_services : list string
}.

(** [f"{region.code} ({region.name})"], one entry of [region_options] *)
Definition region_option (region : RegionData num) : string :=
  (code region ++ " (" ++ name region ++ ")")%string.

(** [region.split(" ")[0]]; [split] with a separator returns at least one
    piece. *)
Definition selected_code (region : string) : string :=
  match split_char " " region with
  | region_code :: _ => region_code
  | [] => EmptyString
  end.

(** The loop over [required_services] for one region: a service is listed
    when the live check answers [False], and listed with the label
    [" (API Error)"] when the live check raises. *)
Fixpoint check_services (w : World num) (code : string) (required_services : list string)
  : list string :=
  match required_services with
  | [] => []
  | service :: rest =>
      match check_aws_service_availability_live w code service with
      | Ok true => check_services w code rest
      | Ok false => service :: check_services w code rest
      | Raise _ => (service ++ " (API Error)")%string :: check_services w code rest
      end
  end.

(** The body of the loop for a region found in [advisor.regions]. *)
Definition analyse_region (w : World num) (region : RegionData num)
           (required_services : list string) : result RegionRow :=
  ('(location_based, market_based, score) <-
     calculate_sustainability_score w (code region) weight_market_default ;;
   let unavailable := check_services w (code region) required_services in
   let supports_all_services := Nat.eqb (List.length unavailable) 0 in
   Ok {| region_code := code region;
         region_name := name region;
         location_based_intensity := location_based;
         market_based_intensity := market_based;
         sustainability_score := round3 score;
         supports_services := supports_all_services;
         unavailable_services := unavailable |})%py.

(** The loop over [region_codes]: the first region of [advisor.regions] with
    the code is analysed, a code without a region is passed over, and an
    exception leaves the loop. *)
Fixpoint analyse_regions (advisor : GreenCloudAdvisor num) (w : World num)
         (region_codes required_services : list string) : result (list RegionRow) :=
  match region_codes with
  | [] => Ok []
  | region_code :: rest =>
      match find (fun region => String.eqb (code region) region_code) (regions advisor) with
      | Some region =>
          (row <- analyse_region w region required_services ;;
           rows <- analyse_regions advisor w rest required_services ;;
           Ok (row :: rows))%py
      | None => analyse_regions advisor w rest required_services
      end
  end.

(** [all_regions_data] for the selected option strings. *)
Definition analysis (advisor : GreenCloudAdvisor num) (w : World num)
           (selected_regions required_services : list string) : result (list RegionRow) :=
  let region_codes := map selected_code selected_regions in
  analyse_regions advisor w region_codes required_services.

(** [filtered_options]: the rows sorted by score, then those that support
    the services. *)
Definition filtered_options (all_regions_data : list RegionRow) : list RegionRow :=
  filter supports_services (sorted sustainability_score all_regions_data).

(** [min(iterable, key=key)]: the first item is kept until an item with a
    smaller key comes. *)
Fixpoint min_from {A : Type} (key : A -> num) (best : A) (l : list A) : A :=
  match l with
  | [] => best
  | x :: l' => min_from key (if (key x <? key best)%py then x else best) l'
  end.

Definition min {A : Type} (key : A -> num) (l : list A) : result A :=
  match l with
  | [] => Raise (ValueError "min() iterable argument is empty")
  | x :: l' => Ok (min_from key x l')
  end.

(** [best = filtered_options[0]], computed when [filtered_options] is not
    empty; [lowest_region] is [min sustainability_score] of the same list. *)
Definition best (all_regions_data : list RegionRow) : option RegionRow :=
  hd_error (filtered_options all_regions_data).

End RegionAnalysis.
Arguments RegionRow : clear implicits.
End streamlit_app.

(** The regions the analysis loop finds for the selected option strings, in
    the order of the selection. *)
Definition selected_found {num : Type} (advisor : GreenCloudAdvisor num)
           (selected_regions : list string) : list (RegionData num) :=
  flat_map (fun option =>
              match find (fun region =>
                            String.eqb (code region) (streamlit_app.selected_code option))
                         (regions advisor) with
              | Some region => [region]
              | None => []
              end)
           selected_regions.

(** A binary64 world over the two sample regions in which the request for
    zone [IE] fails. *)
Definition b64_irish_outage : World float :=
  {| cached_regions := get_aws_regions ["eu-west-2"; "eu-west-1"]%string;
     check_aws_service_availability_live := rds_check_raises;
     read_api_token := Ok (Some "token"%string);
     requests_get_json :=
       fun zone _ =>
         if String.eqb zone "IE" then Raise (RequestException "503 Server Error")
         else Ok (Some 400%float) |}.

Section AnalysisFacts.
Context {num : Type} `{PyFloat num}.
Import streamlit_app.

Lemma check_services_nil (w : World num) (rc : string) (required : list string) :
  Nat.eqb (List.length (check_services w rc required)) 0
  = forallb (check_service_availability w rc) required.
Proof.
  induction required as [|s required IH]; [reflexivity|].
  cbn [check_services forallb]. unfold check_service_availability at 1.
  destruct (check_aws_service_availability_live w rc s) as [[]|e]; cbn; auto.
Qed.

Lemma analyse_region_ok (w : World num) (region : RegionData num)
      (required : list string) (row : RegionRow num) :
  analyse_region w region required = Ok row ->
  region_code row = code region
  /\ region_name row = name region
  /\ supports_services row = supports_all w region required
  /\ unavailable_services row = check_services w (code region) required
  /\ exists location_based market_based score,
       calculate_sustainability_score w (code region) weight_market_default
       = Ok (location_based, market_based, score)
       /\ location_based_intensity row = location_based
       /\ market_based_intensity row = market_based
       /\ sustainability_score row = round3 score.
Proof.
  unfold analyse_region.
  destruct (calculate_sustainability_score w (code region) weight_market_default)
    as [[[l m] sc]|e]; cbn [bind]; [|discriminate].
  intros E. injection E as <-. cbn.
  repeat split; [apply check_services_nil|]. now exists l, m, sc.
Qed.

Lemma analyse_region_returns (w : World num) (region : RegionData num)
      (required : list string) (v : num * num * num) :
  calculate_sustainability_score w (code region) weight_market_default = Ok v ->
  exists row, analyse_region w region required = Ok row.
Proof.
  intros E. unfold analyse_region. rewrite E. destruct v as [[l m] sc].
  cbn [bind]. eauto.
Qed.

Lemma analyse_region_raises (w : World num) (region : RegionData num)
      (required : list string) (e : exn) :
  calculate_sustainability_score w (code region) weight_market_default = Raise e ->
  analyse_region w region required = Raise e.
Proof. intros E. unfold analyse_region. now rewrite E. Qed.

Lemma StronglySorted_filter {A : Type} (P : A -> A -> Prop) (f : A -> bool) (l : list A) :
  StronglySorted P l -> StronglySorted P (filter f l).
Proof.
  induction 1 as [|x l Hs IH Hall]; cbn [filter]; [constructor|].
  destruct (f x); [|assumption].
  constructor; [assumption|].
  rewrite Forall_forall in *. intros y Hy. apply filter_In in Hy as [Hy _]. auto.
Qed.

Lemma min_from_keep {A : Type} (key : A -> num) (b : A) (l : list A) :
  Forall (key_le key b) l -> min_from key b l = b.
Proof.
  induction 1 as [|x l Hx _ IH]; [reflexivity|].
  cbn [min_from]. unfold key_le in Hx. now rewrite Hx.
Qed.

Lemma split_char_no_sep (sep : ascii) (s t : string) :
  (forall c, In c (list_ascii_of_string s) -> c <> sep) ->
  exists rest, split_char sep (s ++ String sep t) = s :: rest.
Proof.
  induction s as [|c s IH]; intros Hs; cbn [append split_char].
  - rewrite Ascii.eqb_refl. eauto.
  - destruct (Ascii.eqb c sep) eqn:E.
    + apply Ascii.eqb_eq in E. exfalso. apply (Hs c); [now left|exact E].
    + destruct IH as [rest ->]; [intros c' Hc'; apply Hs; now right|]. eauto.
Qed.

Lemma contains_char_false (sep : ascii) (s : string) :
  contains (String sep EmptyString) s = false ->
  forall c, In c (list_ascii_of_string s) -> c <> sep.
Proof.
  induction s as [|c s IH]; [intros _ c []|].
  cbn [contains]. intros Hc. apply orb_false_iff in Hc as [Hp Hc].
  intros c' [<-|Hin]; [|now apply IH].
  intros ->. cbn [String.prefix] in Hp.
  destruct (ascii_dec sep sep) as [_|Hne]; [|now apply Hne].
  now destruct s.
Qed.

End AnalysisFacts.

(** A row in binary64 with the given code, score and flag. *)
Definition sample_row (rc : string) (score : float) (supports : bool)
  : streamlit_app.RegionRow float :=
  {| streamlit_app.region_code := rc;
     streamlit_app.region_name := rc;
     streamlit_app.location_based_intensity := score;
     streamlit_app.market_based_intensity := score;
     streamlit_app.sustainability_score := score;
     streamlit_app.supports_services := supports;
     streamlit_app.unavailable_services := if supports then [] else ["eks"%string] |}.

(** X22. On the results page the "lowest score region" is always the
    recommended region: when [<] is a strict weak order on the scores of
    the rows (in binary64: when no score is NaN), [min] by score over the
    supported rows returns the first of them in sorted order, which is
    [best]; and no supported row has a smaller score than [best]. *)
Theorem X22_lowest_region_is_the_recommended_one :
  forall (num : Type) (F : PyFloat num)
         (all_regions_data : list (streamlit_app.RegionRow num))
         (best : streamlit_app.RegionRow num),
    strict_weak_on (map streamlit_app.sustainability_score all_regions_data) ->
    streamlit_app.best all_regions_data = Some best ->
    streamlit_app.min streamlit_app.sustainability_score
      (streamlit_app.filtered_options all_regions_data) = Ok best
    /\ forall row,
         In row all_regions_data ->
         streamlit_app.supports_services row = true ->
         key_le streamlit_app.sustainability_score best row.
Proof.
  intros num F rows best Hsw Hbest. unfold streamlit_app.best in Hbest.
  assert (Hs : StronglySorted (key_le streamlit_app.sustainability_score)
                 (streamlit_app.filtered_options rows))
    by (apply StronglySorted_filter, sorted_sorted_on; assumption).
  assert (Hin : forall row, In row rows -> streamlit_app.supports_services row = true ->
                            In row (streamlit_app.filtered_options rows)).
  { intros row Hrow Hsup. apply filter_In. split; [|exact Hsup]. now apply sorted_In. }
  destruct (streamlit_app.filtered_options rows) as [|b rest]; [discriminate|].
  injection Hbest as ->. inversion Hs as [|? ? _ Hall]; subst. split.
  - cbn [streamlit_app.min]. f_equal. now apply min_from_keep.
  - intros row Hrow Hsup. destruct (Hin row Hrow Hsup) as [<-|Hr].
    + unfold key_le.
      apply strict_weak_on_irrefl
        with (keys := map streamlit_app.sustainability_score rows); [assumption|].
      now apply in_map.
    + rewrite Forall_forall in Hall. now apply Hall.
Qed.

(** X22 at work in binary64 on three rows, the lowest of which lacks a
    service. *)
Lemma X22_lowest_region_is_the_recommended_one_witness :
  streamlit_app.min streamlit_app.sustainability_score
    (streamlit_app.filtered_options
       [sample_row "eu-west-1" 0.316 true; sample_row "eu-north-1" 0.024 false;
        sample_row "eu-west-2" 0.19 true]%string)
  = Ok (sample_row "eu-west-2" 0.19 true)
  /\ forall row,
       In row [sample_row "eu-west-1" 0.316 true; sample_row "eu-north-1" 0.024 false;
               sample_row "eu-west-2" 0.19 true]%string ->
       streamlit_app.supports_services row = true ->
       key_le streamlit_app.sustainability_score (sample_row "eu-west-2" 0.19 true) row.
Proof.
  apply (@X22_lowest_region_is_the_recommended_one float B64_float
           [sample_row "eu-west-1" 0.316 true; sample_row "eu-north-1" 0.024 false;
            sample_row "eu-west-2" 0.19 true]%string
           (sample_row "eu-west-2" 0.19 true)).
  - apply B64_strict_weak_on. repeat constructor.
  - vm_compute. reflexivity.
Defined.

(** X23. The page's own availability flag agrees with the advisor's gate:
    when the analysis goes through, its rows are, in the order of the
    selection, those of the selected regions that the catalogue knows
    (codes it does not know are passed over), and the rows flagged
    [supports_services] are exactly those of the regions that
    [filter_by_services] keeps; a row is flagged exactly when its list of
    unavailable services is empty. *)
Theorem X23_analysis_flags_agree_with_the_gate :
  forall (num : Type) (F : PyFloat num) (advisor : GreenCloudAdvisor num)
         (w : World num) (selected_regions required_services : list string)
         (rows : list (streamlit_app.RegionRow num)),
    streamlit_app.analysis advisor w selected_regions required_services = Ok rows ->
    map streamlit_app.region_code rows
    = map code (selected_found advisor selected_regions)
    /\ map streamlit_app.region_code (filter streamlit_app.supports_services rows)
       = map code (filter_by_services w (selected_found advisor selected_regions)
                     required_services)
    /\ Forall (fun row =>
                 streamlit_app.supports_services row = true
                 <-> streamlit_app.unavailable_services row = [])
              rows.
Proof.
  intros num F advisor w selected required. unfold streamlit_app.analysis.
  induction selected as [|option selected IH]; intros rows Hrun.
  - injection Hrun as <-. repeat split. constructor.
  - cbn [map streamlit_app.analyse_regions selected_found flat_map] in *.
    destruct (find _ (regions advisor)) as [region|].
    + destruct (streamlit_app.analyse_region w region required) as [row|e] eqn:Erow;
        cbn [bind] in Hrun; [|discriminate].
      destruct (streamlit_app.analyse_regions advisor w
                  (map streamlit_app.selected_code selected) required)
        as [rows'|e]; cbn [bind] in Hrun; [|discriminate].
      injection Hrun as <-.
      destruct (IH rows' eq_refl) as (Hc & Hf & Hall).
      apply analyse_region_ok in Erow as (Ecode & _ & Esup & Eun & _).
      cbn [app map filter filter_by_services]. fold (selected_found advisor selected).
      repeat split.
      * now rewrite Ecode, Hc.
      * rewrite Esup. unfold filter_by_services in Hf.
        destruct (supports_all w region required); cbn [map]; now rewrite ?Ecode, Hf.
      * constructor; [|exact Hall].
        rewrite Esup, Eun. unfold supports_all.
        rewrite <- check_services_nil.
        destruct (streamlit_app.check_services w (code region) required);
          cbn; split; congruence.
    + cbn [app]. now apply IH.
Qed.

(** X23 at work in binary64: London and a region the catalogue does not
    know are selected, with rds required while the availability check
    raises for rds. *)
Lemma X23_analysis_flags_agree_with_the_gate_witness :
  exists rows,
    streamlit_app.analysis (__init__ b64_irish_outage) b64_irish_outage
      ["eu-west-2 (London)"; "mars-1 (Mars)"]%string ["s3"; "rds"]%string = Ok rows
    /\ map streamlit_app.region_code rows
       = map code (selected_found (__init__ b64_irish_outage)
                     ["eu-west-2 (London)"; "mars-1 (Mars)"]%string)
    /\ map streamlit_app.region_code (filter streamlit_app.supports_services rows)
       = map code (filter_by_services b64_irish_outage
                     (selected_found (__init__ b64_irish_outage)
                        ["eu-west-2 (London)"; "mars-1 (Mars)"]%string)
                     ["s3"; "rds"]%string)
    /\ Forall (fun row =>
                 streamlit_app.supports_services row = true
                 <-> streamlit_app.unavailable_services row = [])
              rows.
Proof.
  eexists. split; [vm_compute; reflexivity|].
  apply (@X23_analysis_flags_agree_with_the_gate float B64_float).
  vm_compute. reflexivity.
Defined.

(** X24. The analysis is all or nothing: it goes through, with one row per
    selected region of the catalogue, when the score of each of them can be
    computed; and when the score of one of them cannot, the whole analysis
    ends with the exception of such a region and no row is kept, also not
    those of the regions analysed before. *)
Theorem X24_one_failed_fetch_aborts_the_analysis :
  forall (num : Type) (F : PyFloat num) (advisor : GreenCloudAdvisor num)
         (w : World num) (selected_regions required_services : list string),
    (Forall (fun region =>
               exists v, calculate_sustainability_score w (code region) weight_market_default
                         = Ok v)
            (selected_found advisor selected_regions) ->
     exists rows,
       streamlit_app.analysis advisor w selected_regions required_services = Ok rows
       /\ List.length rows = List.length (selected_found advisor selected_regions))
    /\ (Exists (fun region =>
                  exists e, calculate_sustainability_score w (code region)
                              weight_market_default = Raise e)
               (selected_found advisor selected_regions) ->
        exists region e,
          In region (selected_found advisor selected_regions)
          /\ calculate_sustainability_score w (code region) weight_market_default = Raise e
          /\ streamlit_app.analysis advisor w selected_regions required_services
             = Raise e).
Proof.
  intros num F advisor w selected required. unfold streamlit_app.analysis. split.
  - induction selected as [|option selected IH]; intros Hall.
    + exists []. now split.
    + cbn [map streamlit_app.analyse_regions selected_found flat_map] in *.
      fold (selected_found advisor selected) in *.
      destruct (find _ (regions advisor)) as [region|]; [|now apply IH].
      cbn [app] in Hall. inversion Hall as [|? ? [v Hv] Hrest]; subst.
      destruct (analyse_region_returns w region required Hv) as [row ->].
      destruct (IH Hrest) as (rows & -> & Hlen). cbn [bind].
      exists (row :: rows). split; [reflexivity|]. cbn. now rewrite Hlen.
  - induction selected as [|option selected IH]; intros Hex; [inversion Hex|].
    cbn [map streamlit_app.analyse_regions selected_found flat_map] in *.
    fold (selected_found advisor selected) in *.
    destruct (find _ (regions advisor)) as [region|]; [|now apply IH].
    cbn [app] in *.
    destruct (calculate_sustainability_score w (code region) weight_market_default)
      as [v|e] eqn:Ecalc.
    + destruct (analyse_region_returns w region required Ecalc) as [row ->].
      cbn [bind].
      inversion Hex as [? ? [e He]|? ? Hrest]; subst; [congruence|].
      destruct (IH Hrest) as (region' & e & Hin & He & ->).
      exists region', e. repeat split; [now right|assumption].
    + exists region, e. rewrite (analyse_region_raises w region required Ecalc).
      repeat split; [now left|assumption].
Qed.

(** X24 at work in binary64: London is analysed first, then the fetch for
    Ireland fails. *)
Lemma X24_one_failed_fetch_aborts_the_analysis_witness :
  exists region e,
    In region (selected_found (__init__ b64_irish_outage)
                 ["eu-west-2 (London)"; "eu-west-1 (Ireland)"]%string)
    /\ calculate_sustainability_score b64_irish_outage (code region) weight_market_default
       = Raise e
    /\ streamlit_app.analysis (__init__ b64_irish_outage) b64_irish_outage
         ["eu-west-2 (London)"; "eu-west-1 (Ireland)"]%string ["s3"]%string
       = Raise e.
Proof.
  apply (proj2 (@X24_one_failed_fetch_aborts_the_analysis float B64_float
                  (__init__ b64_irish_outage) b64_irish_outage
                  ["eu-west-2 (London)"; "eu-west-1 (Ireland)"]%string ["s3"]%string)).
  right. left. eexists. vm_compute. reflexivity.
Defined.

(** X25. An option string of the region selector gives back the code of its
    region: [f"{code} ({name})".split(" ")[0]] is [code] whenever the code
    holds no space, whatever the name. *)
Theorem X25_selected_option_gives_back_the_code :
  forall (num : Type) (region : RegionData num),
    contains " " (code region) = false ->
    streamlit_app.selected_code (streamlit_app.region_option region) = code region.
Proof.
  intros num region Hc. unfold streamlit_app.selected_code, streamlit_app.region_option.
  cbn [append].
  destruct (@split_char_no_sep " "%char (code region)
              ("(" ++ name region ++ ")")%string (@contains_char_false _ _ Hc))
    as [rest E].
  cbn [append] in E. now rewrite E.
Qed.

(** X25 at work on São Paulo, whose name holds a space. *)
Lemma X25_selected_option_gives_back_the_code_witness :
  streamlit_app.selected_code
    (streamlit_app.region_option
       {| code := "sa-east-1"; name := "Sao Paulo"; location := (0%R, 0%R) |})
  = "sa-east-1"%string.
Proof.
  apply (@X25_selected_option_gives_back_the_code R
           {| code := "sa-east-1"; name := "Sao Paulo"; location := (0%R, 0%R) |}).
  reflexivity.
Defined.

(** X26. The label [" (API Error)"] of the analysis loop is never used with
    the live check of [aws_live_checker]: that check answers [False] on
    every exception itself, so the unavailable services of a region are
    exactly the required services the gate refuses, unlabelled and in the
    order given. *)
Theorem X26_api_error_label_is_never_used :
  forall (num : Type) (F : PyFloat num) (w : World num) (b : Boto3)
         (rc : string) (required_services : list string),
    (forall rc s,
        check_aws_service_availability_live w rc s
        = aws_live_checker.check_aws_service_availability_live b rc s) ->
    streamlit_app.check_services w rc required_services
    = filter (fun service => negb (check_service_availability w rc service))
             required_services.
Proof.
  intros num F w b rc required Hw.
  induction required as [|s required IH]; [reflexivity|].
  cbn [streamlit_app.check_services filter]. unfold check_service_availability at 1.
  rewrite Hw. destruct (live_check_returns b rc s) as [available ->].
  rewrite IH. now destruct available.
Qed.

(** X26 at work without credentials: eks is refused, s3 is not. *)
Lemma X26_api_error_label_is_never_used_witness :
  streamlit_app.check_services
    (sample_world (aws_live_checker.check_aws_service_availability_live no_credentials)
       steady_grid)
    "eu-west-1" ["s3"; "eks"]%string
  = filter (fun service =>
              negb (check_service_availability
                      (sample_world
                         (aws_live_checker.check_aws_service_availability_live
                            no_credentials) steady_grid)
                      "eu-west-1" service))
           ["s3"; "eks"]%string.
Proof.
  apply (@X26_api_error_label_is_never_used R R_float
           (sample_world (aws_live_checker.check_aws_service_availability_live
                            no_credentials) steady_grid)
           no_credentials).
  reflexivity.
Defined.

(** ** aws_service_extractor.py *)

Module aws_service_extractor.

(** [self.bedrock]: [None] when the client could not be created, else what
    the model answers for a workload description: the text of the first
    content block of the response to the prompt built from it, [Raise]
    standing for any exception of the call or of reading the response. *)
Record AWSServiceExtractor : Type := {
  bedrock : option (string -> result string)
}.

(** [AWSServiceExtractor.extract_services] *)
Definition extract_services (self : AWSServiceExtractor) (workload_description : string)
  : result (list string) :=
  match bedrock self with
  | None =>
      Raise (Exception
        "Bedrock client not initialized. Please check AWS credentials and permissions.")
  | Some invoke_model =>
      (text <- invoke_model workload_description ;;
       let extracted_text := strip text in
       let services :=
         map (fun s => lower (strip s))
             (filter (fun s => negb (String.eqb (strip s) EmptyString))
                     (split_char "," extracted_text)) in
       Ok services)%py
  end.

End aws_service_extractor.

Lemma lower_empty (s : string) : lower s = EmptyString -> s = EmptyString.
Proof. now destruct s. Qed.

(** A model that answers every description with [text]. *)
Definition answering (text : string) : aws_service_extractor.AWSServiceExtractor :=
  {| aws_service_extractor.bedrock := Some (fun _ => Ok text) |}.

(** X27. What the extractor returns is ready for the availability checks:
    every extracted service is non-empty and already lower-cased and
    stripped, so the normalisation of the checks leaves it as it is, and the
    table check raises on none of them, whatever the model answered (in
    ASCII). *)
Theorem X27_extracted_services_are_normalised :
  forall (self : aws_service_extractor.AWSServiceExtractor)
         (workload_description : string) (services : list string),
    (forall invoke_model text,
        aws_service_extractor.bedrock self = Some invoke_model ->
        invoke_model workload_description = Ok text ->
        ascii_text text) ->
    aws_service_extractor.extract_services self workload_description = Ok services ->
    Forall (fun s => s <> EmptyString /\ strip (lower s) = s) services
    /\ forall rc, exists unavailable,
         aws_service_checker.get_unavailable_services rc services = Ok unavailable.
Proof.
  intros self wd services _. unfold aws_service_extractor.extract_services.
  destruct (aws_service_extractor.bedrock self) as [invoke|]; [|discriminate].
  destruct (invoke wd) as [text|e]; cbn [bind]; [|discriminate].
  intros E. injection E as <-.
  assert (Hall : Forall (fun s => s <> EmptyString /\ strip (lower s) = s)
                   (map (fun s => lower (strip s))
                      (filter (fun s => negb (String.eqb (strip s) EmptyString))
                         (split_char "," (strip text))))).
  { rewrite Forall_forall. intros s' Hs'. apply in_map_iff in Hs' as (s & <- & Hs).
    apply filter_In in Hs as [_ Hs]. apply negb_true_iff, String.eqb_neq in Hs.
    split.
    - intros E. now apply lower_empty in E.
    - rewrite lower_idem, <- lower_strip. now rewrite strip_idem. }
  split; [exact Hall|].
  intros rc. induction Hall as [|s l [Hne Hnorm] _ IH]; [now exists []|].
  cbn [aws_service_checker.get_unavailable_services].
  destruct (table_check_returns rc s) as [available ->]; [now rewrite Hnorm|].
  destruct IH as [unavailable ->]. cbn [bind]. eauto.
Qed.

(** X27 at work on an answer with capitals, padding and an empty field. *)
Lemma X27_extracted_services_are_normalised_witness :
  Forall (fun s => s <> EmptyString /\ strip (lower s) = s)
         ["ec2 g6.4xlarge"; "rds mysql"; "s3"]%string
  /\ forall rc, exists unavailable,
       aws_service_checker.get_unavailable_services rc
         ["ec2 g6.4xlarge"; "rds mysql"; "s3"]%string = Ok unavailable.
Proof.
  apply (@X27_extracted_services_are_normalised
           (answering " EC2 g6.4xlarge, , RDS MySQL ,S3 ") "a web shop").
  - intros invoke_model text Hb Ht. injection Hb as <-. injection Ht as <-.
    reflexivity.
  - reflexivity.
Defined.
